(** * tlca-backend: authentication and session resolvers

    A shallow embedding of the resolvers of [src/users/resolvers.js] and
    [src/data/resolvers.js] that sign users up, confirm their e-mail address,
    sign them in, rotate their refresh token and sign them out, together with
    the properties of the specification that concern them.

    Conventions of the embedding.
    - Instants are epoch milliseconds in [Z].  One resolver call is modelled
      at one instant: every reading of the clock during the call ([Date.now]
      inside jsonwebtoken, [DateTime.now], [new Date]) returns [now].
    - luxon computes in the local zone of the process, which is an input of
      the call like the instant; the dates of a document are JavaScript
      [Date]s.
    - The collections of the document store are lists in natural order;
      [findOne] returns the first match, [save] of a loaded document writes it
      back at its [_id].  Reads of the store are taken to succeed; a write can
      fail, and whether it does is an input of the call ([Call]).
    - JavaScript exceptions are values of [JsError]; a resolver either returns
      or throws ([Result]).
    - A token is kept symbolic: what [jwt.sign] signed and with which secret.
      A client may present any string at all, hence [Garbage]. *)

From Stdlib Require Import ZArith List String Bool Lia.
Import ListNotations.

Open Scope string_scope.
Open Scope Z_scope.

(** ** JavaScript errors *)

(** The fields of an error object that the resolvers look at: [err.name],
    [err.code] (the numeric code of a MongoServerError) and the keys of
    [err.errors] (the invalid paths of a Mongoose ValidationError). *)
Record JsError := {
  name : string;
  message : string;
  code : option Z;
  errors : option (list string)
}.

Definition mkError (n m : string) : JsError :=
  {| name := n; message := m; code := None; errors := None |}.

(** [new UserInputError(msg)] of apollo-server. *)
Definition UserInputError (msg : string) : JsError := mkError "UserInputError" msg.
Definition TypeError (msg : string) : JsError := mkError "TypeError" msg.

Inductive Result (A : Type) : Type :=
| Returned (a : A)
| Thrown (e : JsError).
Arguments Returned {A} a.
Arguments Thrown {A} e.

(** ** jsonwebtoken *)

Module jwt.

(** The object given to [jwt.sign]: [{ id, roles }] in [getTokens],
    [{ id }] alone in the resolvers of [src/data]. *)
Record Userinfo := { id : string; roles : option (list string) }.

(** The decoded payload: the signed object plus the registered claims
    [iat] and [exp], in seconds. *)
Record Payload := { claims : Userinfo; iat : Z; exp : option Z }.

Inductive Token :=
| Signed (secret : string) (payload : Payload)
| Garbage (text : string).

(** The [expiresIn] option: ['15m'], ['14d']. *)
Inductive Timespan := minutes (n : Z) | days (n : Z).

Definition seconds (t : Timespan) : Z :=
  match t with
  | minutes n => n * 60
  | days n => n * 24 * 60 * 60
  end.

(** [Math.floor(Date.now() / 1000)] *)
Definition clockTimestamp (now : Z) : Z := now / 1000.

(** [jwt.sign(payload, secret, { expiresIn })]: [iat] is the current second
    and [exp] is [iat] plus the time span.  The secret is taken to be set, as
    the deployment requires: the library refuses to sign with an empty one. *)
Definition sign (now : Z) (userinfo : Userinfo) (secret : string)
           (expiresIn : option Timespan) : Token :=
  let timestamp := clockTimestamp now in
  Signed secret
    {| claims := userinfo;
       iat := timestamp;
       exp := option_map (fun t => timestamp + seconds t) expiresIn |}.

Definition JsonWebTokenError (msg : string) : JsError := mkError "JsonWebTokenError" msg.
Definition TokenExpiredError : JsError := mkError "TokenExpiredError" "jwt expired".

(** [jwt.verify(token, secret)] without a callback: it returns the decoded
    payload, and throws when the token is malformed, when the signature
    does not match the secret and when [exp] is reached.  The result is an
    [option] because the callers test it for falsiness; the library never
    returns a falsy value. *)
Definition verify (now : Z) (token : Token) (secret : string) : Result (option Payload) :=
  match token with
  | Garbage _ => Thrown (JsonWebTokenError "jwt malformed")
  | Signed k payload =>
      if negb (k =? secret)%string then Thrown (JsonWebTokenError "invalid signature")
      else match exp payload with
           | Some e =>
               if clockTimestamp now >=? e then Thrown TokenExpiredError
               else Returned (Some payload)
           | None => Returned (Some payload)
           end
  end.

Definition Userinfo_eqb (a b : Userinfo) : bool :=
  (id a =? id b)%string &&
  match roles a, roles b with
  | Some x, Some y => if list_eq_dec string_dec x y then true else false
  | None, None => true
  | _, _ => false
  end.

Definition Payload_eqb (a b : Payload) : bool :=
  Userinfo_eqb (claims a) (claims b) && (iat a =? iat b) &&
  match exp a, exp b with
  | Some x, Some y => x =? y
  | None, None => true
  | _, _ => false
  end.

(** [===] on two tokens, that is on two strings: the encoding of a signed
    token is taken to be injective. *)
Definition Token_eqb (a b : Token) : bool :=
  match a, b with
  | Signed k p, Signed k' p' => (k =? k')%string && Payload_eqb p p'
  | Garbage s, Garbage s' => (s =? s')%string
  | _, _ => false
  end.

End jwt.

(** ** luxon *)

(** A [DateTime] is valid or invalid; comparisons go through [valueOf],
    which is [NaN] for an invalid one, so that they are all false then. *)
Inductive DateTime := Valid (ts : Z) | Invalid.

(** [DateTime.fromISO(text)] parses a string in ISO 8601.  The resolvers
    give it what they read from a date path of a user document: a JavaScript
    [Date] ([getTokens] stores the result of [toJSDate()], [validateAccount]
    a [new Date()]), held here as the milliseconds of that [Date], or
    [undefined].  A [Date] is not a string in ISO 8601 (its string form
    starts with the day of the week) and [undefined] is not parsed: the
    [DateTime] is invalid either way. *)
Definition fromISO (date : option Z) : DateTime :=
  match date with
  | Some _ => Invalid
  | None => Invalid
  end.

(** [a > b] on two [DateTime]s. *)
Definition DateTime_gt (a b : DateTime) : bool :=
  match a, b with
  | Valid x, Valid y => x >? y
  | _, _ => false
  end.

(** The local zone of the process, which is the zone of [DateTime.now()]:
    the offset of local time from UTC, in minutes, at each instant. *)
Definition Zone : Type := Z -> Z.

(** luxon's [fixOffset(localTS, o, tz)]: the instant at which the clock of
    the zone shows [localTS], starting from the guess that the offset is
    [o]; in a gap of the local clock the later offset is kept. *)
Definition fixOffset (localTS o : Z) (tz : Zone) : Z :=
  let utcGuess := localTS - o * 60 * 1000 in
  let o2 := tz utcGuess in
  if o =? o2 then utcGuess
  else
    let utcGuess := utcGuess - (o2 - o) * 60 * 1000 in
    let o3 := tz utcGuess in
    if o2 =? o3 then utcGuess
    else localTS - Z.min o2 o3 * 60 * 1000.

(** [DateTime.now().plus({ days: n }).toJSDate()]: luxon adds the days to
    the calendar date of the local time, keeping the time of day, and
    converts the result back to an instant. *)
Definition plus_days (tz : Zone) (now n : Z) : Z :=
  let o := tz now in
  let localTS := now + o * 60 * 1000 + n * 24 * 60 * 60 * 1000 in
  fixOffset localTS o tz.

(** ** Documents *)

(** A user document.  [emailConfirmed], [emailConfirmationTokenExpires] and
    [refreshTokenExpires] are date paths: what is read from them is a
    JavaScript [Date] (or nothing), kept here as its epoch milliseconds. *)
Record User := {
  _id : string;
  email : option string;
  username : option string;
  firstName : option string;
  lastName : option string;
  displayName : option string;
  password : option string;
  salt : option string;
  roles : list string;
  provider : option string;
  emailConfirmed : option Z;
  emailConfirmationToken : option string;
  emailConfirmationTokenExpires : option Z;
  refreshToken : option jwt.Token;
  refreshTokenExpires : option Z
}.

(** [user.refreshToken = t; user.refreshTokenExpires = e] *)
Definition set_refresh (u : User) (t : option jwt.Token) (e : option Z) : User :=
  {| _id := _id u; email := email u; username := username u;
     firstName := firstName u; lastName := lastName u; displayName := displayName u;
     password := password u; salt := salt u; roles := roles u; provider := provider u;
     emailConfirmed := emailConfirmed u;
     emailConfirmationToken := emailConfirmationToken u;
     emailConfirmationTokenExpires := emailConfirmationTokenExpires u;
     refreshToken := t; refreshTokenExpires := e |}.

(** [user.emailConfirmationToken = t; user.emailConfirmationTokenExpires = e;
    user.emailConfirmed = c] *)
Definition set_confirmation (u : User) (t : option string) (e c : option Z) : User :=
  {| _id := _id u; email := email u; username := username u;
     firstName := firstName u; lastName := lastName u; displayName := displayName u;
     password := password u; salt := salt u; roles := roles u; provider := provider u;
     emailConfirmed := c;
     emailConfirmationToken := t;
     emailConfirmationTokenExpires := e;
     refreshToken := refreshToken u; refreshTokenExpires := refreshTokenExpires u |}.

(** [user.provider = p] *)
Definition set_provider (u : User) (p : string) : User :=
  {| _id := _id u; email := email u; username := username u;
     firstName := firstName u; lastName := lastName u; displayName := displayName u;
     password := password u; salt := salt u; roles := roles u; provider := Some p;
     emailConfirmed := emailConfirmed u;
     emailConfirmationToken := emailConfirmationToken u;
     emailConfirmationTokenExpires := emailConfirmationTokenExpires u;
     refreshToken := refreshToken u; refreshTokenExpires := refreshTokenExpires u |}.

(** [user.displayName = d] *)
Definition set_displayName (u : User) (d : string) : User :=
  {| _id := _id u; email := email u; username := username u;
     firstName := firstName u; lastName := lastName u; displayName := Some d;
     password := password u; salt := salt u; roles := roles u; provider := provider u;
     emailConfirmed := emailConfirmed u;
     emailConfirmationToken := emailConfirmationToken u;
     emailConfirmationTokenExpires := emailConfirmationTokenExpires u;
     refreshToken := refreshToken u; refreshTokenExpires := refreshTokenExpires u |}.

(** An invitation: it names an e-mail address until it is claimed by a user. *)
Record Registration := {
  reg_id : string;
  reg_email : option string;
  reg_user : option string
}.

(** The argument of [smtpTransport.sendMail]. *)
Record Mail := {
  mail_to : option string;
  mail_from : string;
  mail_subject : string;
  mail_html : string
}.

(** ** The world of a resolver call *)

(** What persists between calls: the two collections, what was reported to
    Bugsnag and the mails handed to the SMTP transport (latest first). *)
Record State := {
  users : list User;
  registrations : list Registration;
  reported : list JsError;
  outbox : list Mail
}.

(** What the surroundings decide during one call: the time and the local
    zone, whether the write of the user document, the sending of the mail and
    the write of each invitation are rejected (and with which error), the
    identifier given to a new document and the random bytes drawn by the user
    model. *)
Record Call := {
  now : Z;
  zone : Zone;
  save_fault : option JsError;
  sendMail_fault : option JsError;
  registration_fault : string -> option JsError;
  fresh_id : string;
  nonce : string
}.

(** A resolver body: it reads the call, updates the state and returns or
    throws.  The state reached when an exception is thrown is kept: nothing
    is rolled back. *)
Definition M (A : Type) : Type := Call -> State -> Result A * State.

Definition ret {A} (a : A) : M A := fun _ s => (Returned a, s).

Definition bind {A B} (m : M A) (k : A -> M B) : M B :=
  fun c s =>
    match m c s with
    | (Returned a, s') => k a c s'
    | (Thrown e, s') => (Thrown e, s')
    end.

Definition throw {A} (e : JsError) : M A := fun _ s => (Thrown e, s).

(** [try { body } catch (err) { handler }] *)
Definition try_catch {A} (body : M A) (handler : JsError -> M A) : M A :=
  fun c s =>
    match body c s with
    | (Returned a, s') => (Returned a, s')
    | (Thrown e, s') => handler e c s'
    end.

Notation "x <- m ;; k" := (bind m (fun x => k))
  (at level 61, m at next level, right associativity).
Notation "m ;; k" := (bind m (fun _ => k))
  (at level 61, right associativity).
Notation "' pat <- m ;; k" := (bind m (fun x => match x with pat => k end))
  (at level 61, pat pattern, m at next level, right associativity).

(** [DateTime.now()], [new Date()] *)
Definition clock : M Z := fun c s => (Returned (now c), s).

(** The zone in which luxon computes. *)
Definition local_zone : M Zone := fun c s => (Returned (zone c), s).

(** *** The store *)

Definition set_users (s : State) (l : list User) : State :=
  {| users := l; registrations := registrations s;
     reported := reported s; outbox := outbox s |}.

Definition set_registrations (s : State) (l : list Registration) : State :=
  {| users := users s; registrations := l;
     reported := reported s; outbox := outbox s |}.

(** The state after [err] has been reported to Bugsnag. *)
Definition reporting (err : JsError) (s : State) : State :=
  {| users := users s; registrations := registrations s;
     reported := err :: reported s; outbox := outbox s |}.

(** The state after [mail] has been handed to the transport. *)
Definition mailing (mail : Mail) (s : State) : State :=
  {| users := users s; registrations := registrations s;
     reported := reported s; outbox := mail :: outbox s |}.

(** The document with the [_id] of [u] is replaced by [u]. *)
Fixpoint updateOne (u : User) (l : list User) : list User :=
  match l with
  | [] => []
  | d :: r => if (_id d =? _id u)%string then u :: r else d :: updateOne u r
  end.

Fixpoint updateRegistration (g : Registration) (l : list Registration) : list Registration :=
  match l with
  | [] => []
  | d :: r =>
      if (reg_id d =? reg_id g)%string then g :: r else d :: updateRegistration g r
  end.

(** [User.findOne(filter, projection)]: the first document that matches.
    The projection is left out: the resolvers read projected paths only. *)
Definition User_findOne (filter : User -> bool) : M (option User) :=
  fun _ s => (Returned (find filter (users s)), s).

(** [user.save()] on a document loaded from the store.  Mongoose writes the
    modified paths of the document with this [_id]; in a run without
    interleaving that is the loaded document with its changes.  A rejected
    write changes nothing. *)
Definition save (u : User) : M unit :=
  fun c s =>
    match save_fault c with
    | Some e => (Thrown e, s)
    | None => (Returned tt, set_users s (updateOne u (users s)))
    end.

(** [user.save()] on a document made by [new User(...)]: an insertion. *)
Definition create (u : User) : M unit :=
  fun c s =>
    match save_fault c with
    | Some e => (Thrown e, s)
    | None => (Returned tt, set_users s (users s ++ [u])%list)
    end.

(** [Registration.find(filter)] *)
Definition Registration_find (filter : Registration -> bool) : M (list Registration) :=
  fun _ s => (Returned (List.filter filter (registrations s)), s).

(** [registration.save()] *)
Definition Registration_save (g : Registration) : M unit :=
  fun c s =>
    match registration_fault c (reg_id g) with
    | Some e => (Thrown e, s)
    | None => (Returned tt, set_registrations s (updateRegistration g (registrations s)))
    end.

(** [Promise.all] over asynchronous callbacks that were all started: each of
    them runs, and the promise is rejected with the first rejection (taken in
    the order of the array). *)
Fixpoint Promise_all (ps : list (M unit)) : M unit :=
  match ps with
  | [] => ret tt
  | p :: rest =>
      fun c s =>
        let (r, s1) := p c s in
        let (r', s2) := Promise_all rest c s1 in
        (match r with Thrown e => Thrown e | Returned _ => r' end, s2)
  end.

(** [Bugsnag.notify(err)] *)
Definition Bugsnag_notify (err : JsError) : M unit :=
  fun _ s => (Returned tt, reporting err s).

(** [smtpTransport.sendMail(mail)] *)
Definition sendMail (mail : Mail) : M unit :=
  fun c s =>
    match sendMail_fault c with
    | Some e => (Thrown e, s)
    | None => (Returned tt, mailing mail s)
    end.

(** *** The context of a resolver *)

Record Env := {
  JWT_ACCESS_TOKEN_SECRET : string;
  JWT_REFRESH_TOKEN_SECRET : string
}.

(** The arguments of [signUp]. *)
Record SignUpArgs := {
  args_firstName : option string;
  args_lastName : option string;
  args_email : option string;
  args_password : option string
}.

(** The user model ([user-model.js], not part of the sources at hand): its
    constructor and the two methods that the resolvers call.
    [authenticate user password] compares the salted hash of [password] with
    the stored one; [construct id args] is [new User(args)] with the
    identifier given to it; [updateEmail nonce now user email] sets the
    address, a confirmation token drawn from [nonce] and its expiry. *)
Record UserModel := {
  authenticate : User -> string -> bool;
  construct : string -> SignUpArgs -> User;
  updateEmail : string -> Z -> User -> option string -> User
}.

(** The identity that the server puts in the context of an authenticated
    request. *)
Record Identity := { identity_id : string }.

Record Context := {
  env : Env;
  models : UserModel;
  user : option Identity
}.

(** A value inside a template literal or a string concatenation. *)
Definition js_string (v : option string) : string :=
  match v with
  | Some x => x
  | None => "undefined"
  end.

(** Truthiness of an optional string: [undefined] and [''] are falsy. *)
Definition truthy (v : option string) : bool :=
  match v with
  | Some x => negb (x =? "")%string
  | None => false
  end.

Definition option_eqb {A} (eqb : A -> A -> bool) (a b : option A) : bool :=
  match a, b with
  | Some x, Some y => eqb x y
  | None, None => true
  | _, _ => false
  end.

(** Query filters: [{ _id: i }], [{ username: n }], [{ email: e }] and
    [{ $or: [{ email: x }, { username: x }] }]. *)
Definition by_id (i : string) (u : User) : bool := (_id u =? i)%string.

Definition by_username (n : string) (u : User) : bool :=
  option_eqb String.eqb (username u) (Some n).

Definition by_email (e : option string) (u : User) : bool :=
  option_eqb String.eqb (email u) e.

Definition email_or_username (x : string) (u : User) : bool :=
  option_eqb String.eqb (email u) (Some x)
  || option_eqb String.eqb (username u) (Some x).

Module TokenPair.
Record t := { token : jwt.Token; refreshToken : jwt.Token }.
End TokenPair.

(** ** src/users/resolvers.js *)

Module UsersResolvers.

(** Create the access and the refresh tokens.  The document is changed in
    place by the source; here the changed document is returned with them. *)
Definition getTokens (user : User) (env : Env) : M (User * TokenPair.t) :=
  t <- clock ;;
  let userinfo := {| jwt.id := _id user; jwt.roles := Some (roles user) |} in
  let token :=
    jwt.sign t userinfo (JWT_ACCESS_TOKEN_SECRET env) (Some (jwt.minutes 15)) in
  let refreshToken :=
    jwt.sign t userinfo (JWT_REFRESH_TOKEN_SECRET env) (Some (jwt.days 14)) in
  tz <- local_zone ;;
  let user := set_refresh user (Some refreshToken) (Some (plus_days tz t 14)) in
  ret (user, {| TokenPair.token := token; TokenPair.refreshToken := refreshToken |}).

(** [jwt.verify(token, secret)] at the time of the call. *)
Definition jwt_verify (token : jwt.Token) (secret : string) : M (option jwt.Payload) :=
  fun c s => (jwt.verify (now c) token secret, s).

Definition INVALID_REFRESH_TOKEN : JsError := UserInputError "INVALID_REFRESH_TOKEN".
Definition INVALID_CREDENTIALS : JsError := UserInputError "INVALID_CREDENTIALS".
Definition UNCONFIRMED_EMAIL_ADDRESS : JsError := UserInputError "UNCONFIRMED_EMAIL_ADDRESS".
Definition EXISTING_EMAIL_ADDRESS : JsError := UserInputError "EXISTING_EMAIL_ADDRESS".
Definition INVALID_EMAIL_ADDRESS : JsError := UserInputError "INVALID_EMAIL_ADDRESS".
Definition INVALID_PASSWORD : JsError := UserInputError "INVALID_PASSWORD".
Definition USER_NOT_FOUND : JsError := UserInputError "USER_NOT_FOUND".

(** [user.refreshToken !== args.token] *)
Definition token_differs (stored : option jwt.Token) (presented : jwt.Token) : bool :=
  negb (option_eqb jwt.Token_eqb stored (Some presented)).

(** [DateTime.now() > DateTime.fromISO(date)] *)
Definition expired (t : Z) (date : option Z) : bool :=
  DateTime_gt (Valid t) (fromISO date).

Definition refreshToken (args_token : jwt.Token) (ctx : Context)
  : M (option TokenPair.t) :=
  (* Check the refresh token validity. *)
  decoded <- jwt_verify args_token (JWT_REFRESH_TOKEN_SECRET (env ctx)) ;;
  match decoded with
  | None => throw INVALID_REFRESH_TOKEN
  | Some decoded =>
      (* Find a user with the given refresh token. *)
      user <- User_findOne (by_id (jwt.id (jwt.claims decoded))) ;;
      t <- clock ;;
      match user with
      | None => throw INVALID_REFRESH_TOKEN
      | Some user =>
          if token_differs (refreshToken user) args_token
             || expired t (refreshTokenExpires user)
          then throw INVALID_REFRESH_TOKEN
          else
            (* Create the access and the refresh tokens. *)
            ' (user, tokens) <- getTokens user (env ctx) ;;
            (* Save the refresh token into the database. *)
            try_catch
              (save user ;; ret (Some tokens))
              (fun err => Bugsnag_notify err ;; ret None)
      end
  end.

Definition signIn (args_usernameOrEmail args_password : string) (ctx : Context)
  : M (option TokenPair.t) :=
  (* Find a user who has either the specified email address
     or the specified username. *)
  user <- User_findOne (email_or_username args_usernameOrEmail) ;;
  match user with
  | None => throw INVALID_CREDENTIALS
  | Some user =>
      if negb (authenticate (models ctx) user args_password)
      then throw INVALID_CREDENTIALS
      else
        match emailConfirmed user with
        | None => throw UNCONFIRMED_EMAIL_ADDRESS
        | Some _ =>
            (* Create the access and the refresh tokens. *)
            ' (user, tokens) <- getTokens user (env ctx) ;;
            (* Save the refresh token into the database. *)
            try_catch
              (save user ;; ret (Some tokens))
              (fun err => Bugsnag_notify err ;; ret None)
        end
  end.

Definition signOut (ctx : Context) : M bool :=
  match user ctx with
  | None => throw (TypeError "Cannot read properties of undefined (reading 'id')")
  | Some identity =>
      (* Find the connected user. *)
      loggedUser <- User_findOne (by_id (identity_id identity)) ;;
      match loggedUser with
      | None => throw (TypeError "Cannot set properties of null (setting 'refreshToken')")
      | Some loggedUser =>
          (* Remove his/her refresh token. *)
          let loggedUser := set_refresh loggedUser None None in
          (* Save the refresh token into the database. *)
          try_catch
            (save loggedUser ;; ret true)
            (fun err => Bugsnag_notify err ;; ret false)
      end
  end.

(** The [switch] of the [catch] block of [signUp]: it throws the named
    error that the shape of [err] calls for, or falls out. *)
Definition signUp_switch (err : JsError) : M unit :=
  if (name err =? "MongoServerError")%string then
    match code err with
    | Some 11000 => throw EXISTING_EMAIL_ADDRESS
    | _ => ret tt
    end
  else if (name err =? "ValidationError")%string then
    match errors err with
    | None => throw (TypeError "Cannot read properties of undefined (reading 'email')")
    | Some paths =>
        if existsb (String.eqb "email") paths then throw INVALID_EMAIL_ADDRESS
        else if existsb (String.eqb "password") paths then throw INVALID_PASSWORD
        else ret tt
    end
  else ret tt.

Definition validationURL (user : User) : string :=
  "https://www.tlca.eu/profiles/" ++ js_string (username user) ++ "/"
    ++ js_string (emailConfirmationToken user).

Definition dquote : string := String (Ascii.ascii_of_nat 34) EmptyString.

Definition confirmation_mail (args : SignUpArgs) (user : User) : Mail :=
  {| mail_to := args_email args;
     mail_from := "sebastien@combefis.be";
     mail_subject := "[TLCA] Email address validation";
     mail_html :=
       "<p>Hello,</p>"
       ++ "<p>Thank you for creating an account on the TLCA platform.</p>"
       ++ "<p>In order to be able to connect on the platform, you first need to validate your email address. You can do so by visiting the following page:</p><p><a href="
       ++ dquote ++ validationURL user ++ dquote ++ ">" ++ validationURL user ++ "</a></p>"
       ++ "<p>The TLCA team</p>" |}.

(** [registration.email = undefined; registration.user = user._id] *)
Definition claim (user : User) (registration : Registration) : Registration :=
  {| reg_id := reg_id registration; reg_email := None; reg_user := Some (_id user) |}.

(** The document that [signUp] builds before it saves it. *)
Definition signUp_user (args : SignUpArgs) (ctx : Context) (c : Call) : User :=
  (* Create the user Mongoose object. *)
  let user := construct (models ctx) (fresh_id c) args in
  let user := set_provider user "local" in
  updateEmail (models ctx) (nonce c) (now c) user (args_email args).

(** [{ email: args.email }] on the invitations. *)
Definition invited (args : SignUpArgs) (g : Registration) : bool :=
  option_eqb String.eqb (reg_email g) (args_email args).

(** The [catch] block of [signUp]. *)
Definition signUp_catch (err : JsError) : M bool :=
  signUp_switch err ;; Bugsnag_notify err ;; ret false.

Definition signUp (args : SignUpArgs) (ctx : Context) : M bool :=
  fun c =>
  let user := signUp_user args ctx c in
  (* Save the user into the database. *)
  try_catch
    (create user ;;
     (* Send a confirmation email to the new user. *)
     sendMail (confirmation_mail args user) ;;
     (* Update any invitation that have been sent to this user. *)
     registrations <- Registration_find (invited args) ;;
     Promise_all (map (fun registration => Registration_save (claim user registration))
                      registrations) ;;
     ret true)
    signUp_catch
    c.

(** Validate the email address of a new account. *)
Definition validateAccount (args_username args_emailConfirmationToken : string)
  : M bool :=
  (* Retrieve the user to validate. *)
  user <- User_findOne (by_username args_username) ;;
  t <- clock ;;
  match user with
  | None => throw USER_NOT_FOUND
  | Some user =>
      if negb (option_eqb String.eqb (emailConfirmationToken user)
                          (Some args_emailConfirmationToken))
         || expired t (emailConfirmationTokenExpires user)
      then throw USER_NOT_FOUND
      else
        (* Validate the user. *)
        let user := set_confirmation user None None (Some t) in
        (* Save the user into the database. *)
        try_catch
          (save user ;; ret true)
          (fun err => Bugsnag_notify err ;; ret false)
  end.

End UsersResolvers.

(** ** src/data/resolvers.js *)

Module DataResolvers.

Definition MISSING_FIELDS : JsError := UserInputError "MISSING_FIELDS".
Definition INVALID_CREDENTIALS : JsError := UserInputError "INVALID_CREDENTIALS".
Definition EXISTING_EMAIL_ADDRESS : JsError := UserInputError "EXISTING_EMAIL_ADDRESS".
Definition INVALID_EMAIL_ADDRESS : JsError := UserInputError "INVALID_EMAIL_ADDRESS".

(** The value returned by this [signIn]: [{ token }]. *)
Record Session := { token : jwt.Token }.

(** [User] is the imported user model and [JWT_SECRET] is
    [process.env.JWT_SECRET]. *)
Definition signIn (User : UserModel) (JWT_SECRET : string)
           (args_email args_password : option string) : M Session :=
  if negb (truthy args_email) || negb (truthy args_password)
  then throw MISSING_FIELDS
  else
    user <- User_findOne (by_email args_email) ;;
    t <- clock ;;
    match user with
    | Some user =>
        if authenticate User user (js_string args_password)
        then
          ret {| token :=
                   jwt.sign t {| jwt.id := "CouCou"; jwt.roles := None |} JWT_SECRET None |}
        else throw INVALID_CREDENTIALS
    | None => throw INVALID_CREDENTIALS
    end.

Definition signOut : M bool := ret true.

(** The [catch] block of [signUp].  Its [switch] has no [break]: a
    MongoServerError goes on into the case of a ValidationError. *)
Definition signUp_switch (err : JsError) : M unit :=
  let validation :=
    match errors err with
    | None => throw (TypeError "Cannot read properties of undefined (reading 'email')")
    | Some paths =>
        if existsb (String.eqb "email") paths then throw INVALID_EMAIL_ADDRESS
        else ret tt
    end in
  if (name err =? "MongoServerError")%string then
    match code err with
    | Some 11000 => throw EXISTING_EMAIL_ADDRESS
    | _ => validation
    end
  else if (name err =? "ValidationError")%string then validation
  else ret tt.

Definition signUp (User : UserModel) (args : SignUpArgs) : M bool :=
  fun c =>
  (if negb (truthy (args_firstName args)) || negb (truthy (args_lastName args))
      || negb (truthy (args_email args)) || negb (truthy (args_password args))
   then throw MISSING_FIELDS
   else
     let user := construct User (fresh_id c) args in
     let user :=
       set_displayName user
         (js_string (firstName user) ++ " " ++ js_string (lastName user)) in
     let user := set_provider user "local" in
     let user := updateEmail User (nonce c) (now c) user (args_email args) in
     try_catch
       (create user ;; ret true)
       (fun err => signUp_switch err ;; ret false))
    c.

End DataResolvers.

(** ** Running a resolver *)

Definition run {A} (m : M A) (c : Call) (s : State) : Result A * State := m c s.

(** ** src/users/resolvers.js: the field resolver and the queries *)

(** [a ?? b] *)
Definition nullish {A} (v : option A) (d : A) : A :=
  match v with
  | Some x => x
  | None => d
  end.

(** [new AuthenticationError(msg)] of apollo-server. *)
Definition AuthenticationError (msg : string) : JsError := mkError "AuthenticationError" msg.

(** [User.find(filter)]: the matching documents in natural order. *)
Definition User_find (filter : User -> bool) : M (list User) :=
  fun _ s => (Returned (List.filter filter (users s)), s).

(** What a cursor returns under the [limit] option: no limit when it is
    absent or 0, the first [n] documents for a positive [n]; a negative
    limit asks for that many documents in a single batch, so that at most
    [first_batch] of them come back, [first_batch] being the number of
    documents that the server puts in one batch. *)
Definition cursor_limit {A} (first_batch : nat) (limit : option Z) (l : list A) : list A :=
  match limit with
  | None => l
  | Some n =>
      if n =? 0 then l
      else if 0 <? n then firstn (Z.to_nat n) l
      else firstn (Nat.min (Z.to_nat (- n)) first_batch) l
  end.

(** [User.find({}, null, { skip, limit })] *)
Definition User_find_page (first_batch : nat) (skip : Z) (limit : option Z)
  : M (list User) :=
  fun _ s => (Returned (cursor_limit first_batch limit (skipn (Z.to_nat skip) (users s))), s).

(** What [me] returns: the selected fields except [_id]. *)
Module Profile.
Record t := {
  firstName : option string;
  lastName : option string;
  roles : list string;
  username : option string
}.
End Profile.

Module UsersQueries.

(** An entry of [users]: [{ ...user.toJSON(), id: user.id, isValidated }]. *)
Record UserView := { json : User; id : string; isValidated : bool }.

(** [User.displayName] *)
Definition displayName (user : User) : option string :=
  if negb (truthy (firstName user) && truthy (lastName user))
  then username user
  else Some (js_string (firstName user) ++ " " ++ js_string (lastName user)).

(** [{ roles: 'teacher' }]: the array of roles holds ['teacher']. *)
Definition teacher (u : User) : bool := existsb (String.eqb "teacher") (roles u).

Definition colleagues : M (list User) := User_find teacher.

Definition me (ctx : Context) : M Profile.t :=
  (* Retrieve the logged in user, if any. *)
  loggedUser <-
    User_findOne (fun u => match user ctx with
                           | Some identity => by_id (identity_id identity) u
                           | None => false
                           end) ;;
  match user ctx with
  | None => throw (AuthenticationError "Not authorized")
  | Some _ =>
      (* Return all the selected field except '_id' *)
      match loggedUser with
      | None => throw (TypeError "Cannot destructure property '_id' of 'object null' as it is null.")
      | Some loggedUser =>
          ret {| Profile.firstName := firstName loggedUser;
                 Profile.lastName := lastName loggedUser;
                 Profile.roles := roles loggedUser;
                 Profile.username := username loggedUser |}
      end
  end.

(** [first_batch] is the size of a batch of the server (see [cursor_limit]). *)
Definition users (first_batch : nat) (args_offset args_limit : option Z)
  : M (list UserView) :=
  (* Set up offset and limit. *)
  let skip := Z.max 0 (nullish args_offset 0) in
  let limit := args_limit in
  (* Retrieve all the users satisfying the conditions defined hereabove. *)
  users <- User_find_page first_batch skip limit ;;
  ret (map (fun user =>
              {| json := user;
                 id := _id user;
                 isValidated := negb (truthy (emailConfirmationToken user)) |})
           users).

End UsersQueries.

(** ** src/data/resolvers.js: the queries *)

(** [array.slice(start, end)]: a negative index counts from the end, and
    both indices are clamped to the array. *)
Definition js_slice {A} (l : list A) (start end_ : Z) : list A :=
  let len := Z.of_nat (List.length l) in
  let k := if start <? 0 then Z.max (len + start) 0 else Z.min start len in
  let final := if end_ <? 0 then Z.max (len + end_) 0 else Z.min end_ len in
  firstn (Z.to_nat (final - k)) (skipn (Z.to_nat k) l).

Module Course.
Record t := {
  _id : string;
  code : string;
  name : string;
  type : option string;
  banner : option string;
  partners : option (list string);
  published : option Z;
  archived : option Z;
  visibility : option string
}.
End Course.

Module Partner.
Record t := {
  _id : string;
  abbreviation : option string;
  code : string;
  description : option string;
  logo : option string;
  name : option string;
  website : option string
}.
End Partner.

(** A course as the [$project] stage of [partner] leaves it. *)
Module CourseCard.
Record t := {
  banner : option string;
  code : string;
  name : string;
  type : option string
}.
End CourseCard.

(** What [partner] returns: the projected partner without its [_id]. *)
Module PartnerView.
Record t := {
  abbreviation : option string;
  code : string;
  courses : list CourseCard.t;
  description : option string;
  logo : option string;
  name : option string;
  website : option string
}.
End PartnerView.

(** [{ $exists: true }] on a field. *)
Definition field_exists {A} (v : option A) : bool :=
  match v with
  | Some _ => true
  | None => false
  end.

Module DataQueries.

(** [start = args.offset ?? 0; end = start + (args.limit ?? list.length);
    list.slice(start, end)] *)
Definition page {A} (l : list A) (args_offset args_limit : option Z) : list A :=
  let start := nullish args_offset 0 in
  let end_ := start + nullish args_limit (Z.of_nat (List.length l)) in
  js_slice l start end_.

(** Generate full path for the banner *)
Definition with_banner_path (course : Course.t) : Course.t :=
  if truthy (Course.banner course)
  then {| Course._id := Course._id course; Course.code := Course.code course;
          Course.name := Course.name course; Course.type := Course.type course;
          Course.banner :=
            Some ("/uploads/courses/" ++ Course._id course ++ "/"
                    ++ js_string (Course.banner course));
          Course.partners := Course.partners course;
          Course.published := Course.published course;
          Course.archived := Course.archived course;
          Course.visibility := Course.visibility course |}
  else course.

(** The resolvers below only read: each is a function of what [find] or
    [aggregate] reads from the collection. *)
Definition courses (stored : list Course.t) (args_offset args_limit : option Z)
  : list Course.t :=
  page (map with_banner_path stored) args_offset args_limit.

Definition programs {Program} (stored : list Program) (args_offset args_limit : option Z)
  : list Program :=
  page stored args_offset args_limit.

Definition partners (stored : list Partner.t) (args_offset args_limit : option Z)
  : list Partner.t :=
  page stored args_offset args_limit.

(** Step 2 of the pipeline of [partner]: the published and non-archived
    courses associated to this partner, private ones excluded. *)
Definition associated (partnerId : string) (course : Course.t) : bool :=
  existsb (String.eqb partnerId) (nullish (Course.partners course) [])
  && field_exists (Course.published course)
  && negb (field_exists (Course.archived course))
  && negb (option_eqb String.eqb (Course.visibility course) (Some "private")).

(** Step 3: the fields kept for a course. *)
Definition card (course : Course.t) : CourseCard.t :=
  {| CourseCard.banner := Course.banner course; CourseCard.code := Course.code course;
     CourseCard.name := Course.name course; CourseCard.type := Course.type course |}.

(** [Partner.aggregate(pipeline)]: the partners with the given code, each
    with its courses. *)
Definition aggregate (stored : list Partner.t) (stored_courses : list Course.t)
           (args_code : string) : list (Partner.t * list CourseCard.t) :=
  map (fun partner =>
         (partner, map card (filter (associated (Partner._id partner)) stored_courses)))
      (filter (fun partner => (Partner.code partner =? args_code)%string) stored).

Definition partner (stored : list Partner.t) (stored_courses : list Course.t)
           (args_code : string) : Result PartnerView.t :=
  (* Retrieve the partners satisfying the conditions defined hereabove *)
  match aggregate stored stored_courses args_code with
  | [(partner, courses)] =>
      Returned
        {| PartnerView.abbreviation := Partner.abbreviation partner;
           PartnerView.code := Partner.code partner;
           PartnerView.courses := courses;
           PartnerView.description := Partner.description partner;
           (* Generate full path for the logo *)
           PartnerView.logo :=
             if truthy (Partner.logo partner)
             then Some ("/uploads/partners/" ++ Partner._id partner ++ "/"
                          ++ js_string (Partner.logo partner))
             else Partner.logo partner;
           PartnerView.name := Partner.name partner;
           PartnerView.website := Partner.website partner |}
  | _ => Thrown (UserInputError "Partner not found.")
  end.

End DataQueries.

(** ** src/users/resolvers.js: the evaluations *)

Module Evaluation.
Record t := {
  _id : string;
  assessment : option string;
  course : option string;
  user : option string;
  evaluator : option string;
  comment : option string;
  evalDate : option Z;
  date : option Z;
  published : option Z
}.
End Evaluation.

Module Assessment.
Record t := { _id : string; course : option string }.
End Assessment.

(** The collections that the evaluation resolvers read. *)
Module Db.
Record t := {
  users : list User;
  courses : list Course.t;
  assessments : list Assessment.t;
  evaluations : list Evaluation.t
}.
End Db.

Module EvaluationsResolvers.

(** What the resolvers take from Mongoose and from the JavaScript runtime,
    none of which is part of the sources at hand: whether a string casts to
    an ObjectId ([castable]); what the query [{ id: x }] on the assessments
    selects ([has_id]); [String.prototype.trim]; and [new Evaluation(args)]
    with the identifier given to the new document ([construct]). *)
Record Runtime (Args : Type) := {
  castable : string -> bool;
  has_id : option string -> Assessment.t -> bool;
  trim : string -> string;
  construct : string -> Args -> Evaluation.t
}.
Arguments castable {Args} _ _.
Arguments has_id {Args} _ _ _.
Arguments trim {Args} _ _.
Arguments construct {Args} _ _ _.

(** The error of Mongoose when a value of a query does not cast. *)
Definition CastError : JsError := mkError "CastError" "Cast to ObjectId failed".

(** The arguments of [evaluations]. *)
Record EvaluationsArgs := {
  args_assessment : option string;
  args_courseCode : option string;
  args_learner : option string
}.

(** The [filter] object that [evaluations] builds. *)
Record Filter := {
  filter_assessment : option string;
  filter_course : option string;
  filter_user : option string
}.

(** A criterion that is set must be met by the field. *)
Definition meets (criterion field : option string) : bool :=
  match criterion with
  | None => true
  | Some x => option_eqb String.eqb field (Some x)
  end.

Definition matches (filter : Filter) (evaluation : Evaluation.t) : bool :=
  meets (filter_assessment filter) (Evaluation.assessment evaluation)
  && meets (filter_course filter) (Evaluation.course evaluation)
  && meets (filter_user filter) (Evaluation.user evaluation).

(** [r] then [k], an exception of [r] going through. *)
Definition and_then {A B} (r : Result A) (k : A -> Result B) : Result B :=
  match r with
  | Returned a => k a
  | Thrown e => Thrown e
  end.

(** Retrieve the date the evaluation was taken. *)
Definition date (evaluation : Evaluation.t) : option Z :=
  match Evaluation.evalDate evaluation with
  | Some d => Some d
  | None => Evaluation.date evaluation
  end.

(** Retrieve the 'id' of the evaluation from the MongoDB '_id'. *)
Definition id (evaluation : Evaluation.t) : string := Evaluation._id evaluation.

(** Retrieve whether this evaluation is published or not. *)
Definition isPublished (evaluation : Evaluation.t) : bool :=
  field_exists (Evaluation.published evaluation).

(** Retrieve the status of this evaluation according to it's publication
    date. *)
Definition status (evaluation : Evaluation.t) : string :=
  if field_exists (Evaluation.published evaluation) then "published" else "unpublished".

(** Retrieve the assessment that this evaluation is for. *)
Definition assessment (db : Db.t) (evaluation : Evaluation.t) : option Assessment.t :=
  find (fun a => option_eqb String.eqb (Some (Assessment._id a))
                            (Evaluation.assessment evaluation))
       (Db.assessments db).

(** Retrieve the learner who took this evaluation. *)
Definition learner (db : Db.t) (evaluation : Evaluation.t) : option User :=
  find (fun u => option_eqb String.eqb (Some (_id u)) (Evaluation.user evaluation))
       (Db.users db).

(** Retrieve one given evaluation given its 'id'. *)
Definition evaluation {Args} (rt : Runtime Args) (db : Db.t) (args_id : string)
  : Result Evaluation.t :=
  if negb (castable rt args_id) then Thrown CastError
  else
    match find (fun e => (Evaluation._id e =? args_id)%string) (Db.evaluations db) with
    | None => Thrown (UserInputError "EVALUATION_NOT_FOUND")
    | Some evaluation => Returned evaluation
    end.

(** [Course.exists({ code })] *)
Definition Course_exists (db : Db.t) (code : option string) : option Course.t :=
  find (fun c => option_eqb String.eqb (Some (Course.code c)) code) (Db.courses db).

(** [User.exists({ username })] *)
Definition User_exists (db : Db.t) (name : option string) : option User :=
  find (fun u => option_eqb String.eqb (username u) name) (Db.users db).

(** [Evaluation.find(filter)]: the assessment of the filter, the only value
    that comes from the client, has to cast. *)
Definition Evaluation_find {Args} (rt : Runtime Args) (db : Db.t) (filter : Filter)
  : Result (list Evaluation.t) :=
  match filter_assessment filter with
  | Some x =>
      if negb (castable rt x) then Thrown CastError
      else Returned (List.filter (matches filter) (Db.evaluations db))
  | None => Returned (List.filter (matches filter) (Db.evaluations db))
  end.

(** Retrieve all the evaluations that are available to the connected
    user. *)
Definition evaluations {Args} (rt : Runtime Args) (db : Db.t) (args : EvaluationsArgs)
  : Result (list Evaluation.t) :=
  let filter :=
    {| filter_assessment := None; filter_course := None; filter_user := None |} in
  let filter :=
    if truthy (args_assessment args)
    then {| filter_assessment := args_assessment args;
            filter_course := filter_course filter; filter_user := filter_user filter |}
    else filter in
  and_then
    (if truthy (args_courseCode args)
     then match Course_exists db (args_courseCode args) with
          | None => Thrown (UserInputError "COURSE_NOT_FOUND")
          | Some course =>
              Returned {| filter_assessment := filter_assessment filter;
                          filter_course := Some (Course._id course);
                          filter_user := filter_user filter |}
          end
     else Returned filter)
    (fun filter =>
       and_then
         (if truthy (args_learner args)
          then match User_exists db (args_learner args) with
               | None => Thrown (UserInputError "LEARNER_NOT_FOUND")
               | Some learner =>
                   Returned {| filter_assessment := filter_assessment filter;
                               filter_course := filter_course filter;
                               filter_user := Some (_id learner) |}
               end
          else Returned filter)
         (fun filter => Evaluation_find rt db filter)).

(** The arguments of [createEvaluation]. *)
Record CreateArgs := {
  create_comment : option string;
  create_evalDate : option Z;
  create_learner : option string;
  create_assessment : option string
}.

(** An error with the [formErrors] that [createEvaluation] attaches to
    VALIDATION_ERROR. *)
Record Failure := { error : JsError; formErrors : option (list (string * string)) }.

Inductive Outcome (A : Type) : Type :=
| Done (a : A)
| Failed (f : Failure).
Arguments Done {A} a.
Arguments Failed {A} f.

Definition plain (e : JsError) : Failure := {| error := e; formErrors := None |}.

(** A rejection of [evaluation.save()]: its name and, for each key of
    [err.errors], [properties.message] if the entry has [properties]. *)
Record SaveFault := {
  fault_name : string;
  fault_errors : option (list (string * option string))
}.

(** [Object.keys(err.errors).forEach(e => formErrors[e] =
    err.errors[e].properties.message)]: it stops with a TypeError at the
    first entry without [properties]. *)
Fixpoint collect (entries : list (string * option string))
  : option (list (string * string)) :=
  match entries with
  | [] => Some []
  | (path, Some msg) :: rest => option_map (cons (path, msg)) (collect rest)
  | (_, None) :: _ => None
  end.

Definition set_db_evaluations (db : Db.t) (l : list Evaluation.t) : Db.t :=
  {| Db.users := Db.users db; Db.courses := Db.courses db;
     Db.assessments := Db.assessments db; Db.evaluations := l |}.

(** Create a new evaluation from the specified assessment and learner.
    [ctx_user] is the user of the context, [fresh] the identifier of the new
    document and [fault] the rejection of the write, if it is rejected.
    ([delete args.evalDate] for an absent date changes nothing.) *)
Definition createEvaluation (rt : Runtime CreateArgs) (ctx_user : option Identity)
           (fresh : string) (fault : option SaveFault) (db : Db.t) (args : CreateArgs)
  : Outcome (option Evaluation.t) * Db.t :=
  (* Clean up the optional args. *)
  let args :=
    if negb (match create_comment args with
             | Some text => negb (String.length (trim rt text) =? 0)%nat
             | None => false
             end)
    then {| create_comment := None; create_evalDate := create_evalDate args;
            create_learner := create_learner args;
            create_assessment := create_assessment args |}
    else args in
  (* Retrieve the learner for which to create an evaluation. *)
  match User_exists db (create_learner args) with
  | None => (Failed (plain (UserInputError "LEARNER_NOT_FOUND")), db)
  | Some learner =>
      (* Retrieve the assessment for which to create an evaluation. *)
      match find (has_id rt (create_assessment args)) (Db.assessments db) with
      | None => (Failed (plain (UserInputError "ASSESSMENT_NOT_FOUND")), db)
      | Some assessment =>
          (* Create the evaluation Mongoose object. *)
          let evaluation := construct rt fresh args in
          match ctx_user with
          | None =>
              (Failed (plain (TypeError "Cannot read properties of undefined (reading 'id')")),
               db)
          | Some ctx_user =>
              let evaluation :=
                {| Evaluation._id := Evaluation._id evaluation;
                   Evaluation.assessment := Some (Assessment._id assessment);
                   Evaluation.course := Assessment.course assessment;
                   Evaluation.user := Some (_id learner);
                   Evaluation.evaluator := Some (identity_id ctx_user);
                   Evaluation.comment := Evaluation.comment evaluation;
                   Evaluation.evalDate := Evaluation.evalDate evaluation;
                   Evaluation.date := Evaluation.date evaluation;
                   Evaluation.published := Evaluation.published evaluation |} in
              (* Save the evaluation into the database. *)
              match fault with
              | None =>
                  (Done (Some evaluation),
                   set_db_evaluations db (Db.evaluations db ++ [evaluation])%list)
              | Some err =>
                  if (fault_name err =? "ValidationError")%string
                  then
                    match fault_errors err with
                    | None =>
                        (Failed (plain (TypeError "Cannot convert undefined or null to object")),
                         db)
                    | Some entries =>
                        match collect entries with
                        | None =>
                            (Failed (plain (TypeError "Cannot read properties of undefined (reading 'message')")),
                             db)
                        | Some formErrors =>
                            (Failed {| error := UserInputError "VALIDATION_ERROR";
                                       formErrors := Some formErrors |},
                             db)
                        end
                    end
                  else (Done None, db)
              end
          end
      end
  end.

End EvaluationsResolvers.

(** ** Well-formed stores *)

(** The token [t] names the user with identifier [i]: it is a signed token
    whose [id] claim is [i]. *)
Definition token_names (t : jwt.Token) (i : string) : Prop :=
  exists k p, t = jwt.Signed k p /\ jwt.id (jwt.claims p) = i.

(** Every stored refresh token names the user on whose document it is
    stored, as the tokens written by [getTokens] do. *)
Definition tokens_carry_owner (l : list User) : Prop :=
  forall u t, In u l -> refreshToken u = Some t -> token_names t (_id u).

(** Identifiers are unique and stored tokens name their owner. *)
Definition well_formed (l : list User) : Prop :=
  NoDup (map _id l) /\ tokens_carry_owner l.

(** A rotation: a call of [signIn] or of [refreshToken] that returns a pair
    of tokens, for the user [u] that the call looked up. *)
Inductive rotates (ctx : Context) (c : Call) (s : State)
  : User -> TokenPair.t -> State -> Prop :=
| rotates_signIn (login pw : string) (u : User) (tokens : TokenPair.t) (s' : State) :
    find (email_or_username login) (users s) = Some u ->
    run (UsersResolvers.signIn login pw ctx) c s = (Returned (Some tokens), s') ->
    rotates ctx c s u tokens s'
| rotates_refreshToken (tok : jwt.Token) (p : jwt.Payload) (u : User)
                       (tokens : TokenPair.t) (s' : State) :
    jwt.verify (now c) tok (JWT_REFRESH_TOKEN_SECRET (env ctx)) = Returned (Some p) ->
    find (by_id (jwt.id (jwt.claims p))) (users s) = Some u ->
    run (UsersResolvers.refreshToken tok ctx) c s = (Returned (Some tokens), s') ->
    rotates ctx c s u tokens s'.

(** ** Sample data

    A small world on which the statements below are exercised: a password
    check that compares with the stored password, two confirmed users and an
    unconfirmed one. *)

Definition sample_model : UserModel :=
  {| authenticate := fun u p => option_eqb String.eqb (password u) (Some p);
     construct := fun i a =>
       {| _id := i; email := None; username := args_email a;
          firstName := args_firstName a; lastName := args_lastName a;
          displayName := None; password := args_password a; salt := None;
          roles := []; provider := None; emailConfirmed := None;
          emailConfirmationToken := None; emailConfirmationTokenExpires := None;
          refreshToken := None; refreshTokenExpires := None |};
     updateEmail := fun n t u e =>
       {| _id := _id u; email := e; username := username u;
          firstName := firstName u; lastName := lastName u;
          displayName := displayName u; password := password u; salt := salt u;
          roles := roles u; provider := provider u; emailConfirmed := None;
          emailConfirmationToken := Some n;
          emailConfirmationTokenExpires := Some (t + 86400000);
          refreshToken := refreshToken u; refreshTokenExpires := refreshTokenExpires u |} |}.

Definition sample_env : Env :=
  {| JWT_ACCESS_TOKEN_SECRET := "access-secret";
     JWT_REFRESH_TOKEN_SECRET := "refresh-secret" |}.

Definition sample_ctx (who : option string) : Context :=
  {| env := sample_env; models := sample_model;
     user := option_map (fun i => {| identity_id := i |}) who |}.

Definition sample_user (i : string) (confirmed : option Z) (tok : option string) : User :=
  {| _id := i; email := Some (i ++ "@tlca.eu"); username := Some i;
     firstName := None; lastName := None; displayName := None;
     password := Some ("pw-" ++ i); salt := None; roles := ["learner"];
     provider := Some "local"; emailConfirmed := confirmed;
     emailConfirmationToken := tok;
     emailConfirmationTokenExpires := option_map (fun _ => 5000) tok;
     refreshToken := None; refreshTokenExpires := None |}.

Definition alice : User := sample_user "alice" (Some 10) None.
Definition bob : User := sample_user "bob" None (Some "tok-bob").
Definition carol : User := sample_user "carol" (Some 20) None.

Definition sample_state : State :=
  {| users := [alice; bob; carol];
     registrations :=
       [ {| reg_id := "r1"; reg_email := Some "dave@tlca.eu"; reg_user := None |};
         {| reg_id := "r2"; reg_email := Some "dave@tlca.eu"; reg_user := None |} ];
     reported := []; outbox := [] |}.

(** A zone whose offset never changes: one hour ahead of UTC. *)
Definition utc_plus_one : Zone := fun _ => 60.

(** The zone of Brussels around its change to summer time in 2026: one hour
    ahead of UTC until 29 March 2026 at 01:00 UTC, two hours from then on. *)
Definition brussels : Zone := fun t => if t <? 1774746000000 then 60 else 120.

(** A call at instant [t] in which every write goes through. *)
Definition call_at (t : Z) : Call :=
  {| now := t; zone := utc_plus_one; save_fault := None; sendMail_fault := None;
     registration_fault := fun _ => None; fresh_id := "dave"; nonce := "tok-dave" |}.

(** The same in Brussels. *)
Definition call_in_brussels (t : Z) : Call :=
  {| now := t; zone := brussels; save_fault := None; sendMail_fault := None;
     registration_fault := fun _ => None; fresh_id := "dave"; nonce := "tok-dave" |}.

Definition network_down : JsError := mkError "MongoNetworkError" "connection closed".

(** A call at instant [t] in which the write of the user document fails. *)
Definition failing_call_at (t : Z) : Call :=
  {| now := t; zone := utc_plus_one; save_fault := Some network_down;
     sendMail_fault := None;
     registration_fault := fun _ => None; fresh_id := "dave"; nonce := "tok-dave" |}.

Definition smtp_down : JsError := mkError "Error" "connect ECONNREFUSED".

(** A call at instant [t] in which the user is written and the mail is not
    sent. *)
Definition call_without_mail (t : Z) : Call :=
  {| now := t; zone := utc_plus_one; save_fault := None;
     sendMail_fault := Some smtp_down;
     registration_fault := fun _ => None; fresh_id := "dave"; nonce := "tok-dave" |}.

(** A call at instant [t] in which the write of the invitation [r1] fails. *)
Definition call_without_r1 (t : Z) : Call :=
  {| now := t; zone := utc_plus_one; save_fault := None; sendMail_fault := None;
     registration_fault := fun i => if (i =? "r1")%string then Some network_down else None;
     fresh_id := "dave"; nonce := "tok-dave" |}.

(** A call at instant [t] in which the store rejects the user document
    because its password is invalid. *)
Definition call_with_invalid_password (t : Z) : Call :=
  {| now := t; zone := utc_plus_one;
     save_fault :=
       Some {| name := "ValidationError"; message := "User validation failed";
               code := None; errors := Some ["password"] |};
     sendMail_fault := None; registration_fault := fun _ => None;
     fresh_id := "dave"; nonce := "tok-dave" |}.

Definition dave_args : SignUpArgs :=
  {| args_firstName := Some "Dave"; args_lastName := Some "Doe";
     args_email := Some "dave@tlca.eu"; args_password := Some "Secret123" |}.

(** The refresh token that [alice] gets when she signs in at instant 1000,
    and the state after she did. *)
Definition alice_token : jwt.Token :=
  jwt.sign 1000 {| jwt.id := "alice"; jwt.roles := Some ["learner"] |}
           "refresh-secret" (Some (jwt.days 14)).

Definition session_state : State :=
  snd (run (UsersResolvers.signIn "alice" "pw-alice" (sample_ctx None))
           (call_at 1000) sample_state).

(** A catalogue for the queries: two partners, four courses, and the
    evaluations of two learners. *)
Definition sample_course (i code : string) (banner : option string)
           (partners : option (list string)) (published archived : option Z)
           (visibility : option string) : Course.t :=
  {| Course._id := i; Course.code := code; Course.name := "Course " ++ code;
     Course.type := Some "training"; Course.banner := banner;
     Course.partners := partners; Course.published := published;
     Course.archived := archived; Course.visibility := visibility |}.

Definition sample_courses : list Course.t :=
  [ sample_course "c1" "LSINF1101" (Some "b1.png") (Some ["p1"]) (Some 10) None None;
    sample_course "c2" "LSINF1102" None (Some ["p1"; "p2"]) (Some 10) None (Some "private");
    sample_course "c3" "LSINF1103" (Some "b3.png") (Some ["p1"]) None None None;
    sample_course "c4" "LSINF1104" None (Some ["p1"]) (Some 10) (Some 20) None;
    sample_course "c5" "LSINF1105" None None (Some 10) None None ].

Definition sample_partner (i code : string) (logo : option string) : Partner.t :=
  {| Partner._id := i; Partner.abbreviation := None; Partner.code := code;
     Partner.description := None; Partner.logo := logo; Partner.name := Some code;
     Partner.website := None |}.

Definition sample_partners : list Partner.t :=
  [ sample_partner "p1" "EPHEC" (Some "ephec.png"); sample_partner "p2" "UCL" None ].

Definition sample_evaluation (i a c u : string) (published : option Z) : Evaluation.t :=
  {| Evaluation._id := i; Evaluation.assessment := Some a; Evaluation.course := Some c;
     Evaluation.user := Some u; Evaluation.evaluator := Some "carol";
     Evaluation.comment := None; Evaluation.evalDate := None; Evaluation.date := Some 5;
     Evaluation.published := published |}.

Definition sample_db : Db.t :=
  {| Db.users := [alice; bob; carol];
     Db.courses := sample_courses;
     Db.assessments :=
       [ {| Assessment._id := "a1"; Assessment.course := Some "c1" |};
         {| Assessment._id := "a2"; Assessment.course := Some "c2" |} ];
     Db.evaluations :=
       [ sample_evaluation "e1" "a1" "c1" "alice" (Some 7);
         sample_evaluation "e2" "a1" "c1" "bob" None;
         sample_evaluation "e3" "a2" "c2" "alice" None ] |}.

(** A runtime in which every string casts, [{ id: x }] selects the
    assessment whose [_id] is [x], [trim] removes leading blanks only (enough
    for the samples) and the constructor copies the arguments. *)
Fixpoint drop_blanks (text : string) : string :=
  match text with
  | String a rest =>
      if Ascii.eqb a (Ascii.ascii_of_nat 32) then drop_blanks rest else text
  | EmptyString => text
  end.

Definition sample_runtime : EvaluationsResolvers.Runtime EvaluationsResolvers.CreateArgs :=
  {| EvaluationsResolvers.castable := fun _ => true;
     EvaluationsResolvers.has_id :=
       fun x a => option_eqb String.eqb (Some (Assessment._id a)) x;
     EvaluationsResolvers.trim := drop_blanks;
     EvaluationsResolvers.construct := fun i args =>
       {| Evaluation._id := i; Evaluation.assessment := None; Evaluation.course := None;
          Evaluation.user := None; Evaluation.evaluator := Some "forged";
          Evaluation.comment := EvaluationsResolvers.create_comment args;
          Evaluation.evalDate := EvaluationsResolvers.create_evalDate args;
          Evaluation.date := Some 0; Evaluation.published := None |} |}.

(** ** Proof automation *)

Ltac unfold_M :=
  unfold UsersResolvers.jwt_verify, UsersResolvers.getTokens in *;
  unfold run, bind, ret, throw, try_catch, clock, local_zone, User_findOne, save,
    create, Bugsnag_notify in *.

Ltac unfold_signIn := unfold UsersResolvers.signIn; unfold_M.

Ltac unfold_resolvers :=
  unfold UsersResolvers.signIn, UsersResolvers.refreshToken, UsersResolvers.signOut,
    UsersResolvers.validateAccount; unfold_M.

(** ** The store and the comparisons *)

Lemma option_eqb_string_Some (a : option string) (x : string) :
  option_eqb String.eqb a (Some x) = true <-> a = Some x.
Proof.
  destruct a as [y|]; simpl; split; intros H; try discriminate.
  - apply String.eqb_eq in H. now subst.
  - injection H as ->. apply String.eqb_refl.
Qed.

Lemma email_or_username_spec (x : string) (u : User) :
  email_or_username x u = true <-> email u = Some x \/ username u = Some x.
Proof.
  unfold email_or_username. rewrite orb_true_iff.
  now rewrite !option_eqb_string_Some.
Qed.

Lemma by_username_spec (n : string) (u : User) :
  by_username n u = true <-> username u = Some n.
Proof. apply option_eqb_string_Some. Qed.

Lemma by_id_spec (i : string) (u : User) : by_id i u = true <-> _id u = i.
Proof. apply String.eqb_eq. Qed.

Lemma find_no_match {A} (f : A -> bool) (l : list A) :
  (forall x, In x l -> f x = false) -> find f l = None.
Proof.
  induction l as [|a l IH]; simpl; intros H; [reflexivity|].
  rewrite (H a) by now left. apply IH. intros x Hx. apply H. now right.
Qed.

Lemma Userinfo_eqb_eq (a b : jwt.Userinfo) : jwt.Userinfo_eqb a b = true <-> a = b.
Proof.
  destruct a as [i r], b as [i' r']. unfold jwt.Userinfo_eqb. simpl.
  rewrite andb_true_iff, String.eqb_eq. split.
  - intros [-> H]. destruct r as [x|], r' as [y|]; try discriminate; [|reflexivity].
    destruct (list_eq_dec string_dec x y); [now subst|discriminate].
  - intros E. injection E as -> ->. split; [reflexivity|].
    destruct r' as [y|]; [|reflexivity].
    destruct (list_eq_dec string_dec y y); [reflexivity|contradiction].
Qed.

Lemma Payload_eqb_eq (a b : jwt.Payload) : jwt.Payload_eqb a b = true <-> a = b.
Proof.
  destruct a as [ca ia ea], b as [cb ib eb]. unfold jwt.Payload_eqb. simpl.
  rewrite !andb_true_iff, Userinfo_eqb_eq, Z.eqb_eq. split.
  - intros [[-> ->] H]. destruct ea as [x|], eb as [y|]; try discriminate; [|reflexivity].
    apply Z.eqb_eq in H. now subst.
  - intros E. injection E as -> -> ->. repeat split.
    destruct eb; [apply Z.eqb_refl|reflexivity].
Qed.

Lemma Token_eqb_eq (a b : jwt.Token) : jwt.Token_eqb a b = true <-> a = b.
Proof.
  destruct a as [k p|x], b as [k' p'|y]; simpl; try (split; discriminate).
  - rewrite andb_true_iff, String.eqb_eq, Payload_eqb_eq. split.
    + now intros [-> ->].
    + intros E. now injection E as -> ->.
  - rewrite String.eqb_eq. split; [now intros ->|intros E; now injection E].
Qed.

Lemma token_differs_false (stored : option jwt.Token) (presented : jwt.Token) :
  UsersResolvers.token_differs stored presented = false <-> stored = Some presented.
Proof.
  unfold UsersResolvers.token_differs. rewrite negb_false_iff.
  destruct stored as [t|]; simpl; [|split; discriminate].
  rewrite Token_eqb_eq. split; [now intros ->|intros E; now injection E].
Qed.

Lemma token_differs_true (stored : option jwt.Token) (presented : jwt.Token) :
  UsersResolvers.token_differs stored presented = true <-> stored <> Some presented.
Proof.
  rewrite <- token_differs_false.
  destruct (UsersResolvers.token_differs stored presented); split; congruence.
Qed.

(** The expiry test never holds: what a date path holds does not parse as
    ISO 8601, and every comparison with an invalid [DateTime] is false. *)
Lemma expired_never (t : Z) (d : option Z) : UsersResolvers.expired t d = false.
Proof. unfold UsersResolvers.expired. now destruct d. Qed.

(** Writing a document back puts it where the query by [_id] finds it. *)
Lemma find_by_id_updateOne (u' : User) (l : list User) :
  (exists d, In d l /\ _id d = _id u') ->
  find (by_id (_id u')) (updateOne u' l) = Some u'.
Proof.
  induction l as [|a l IH]; intros (d & Hin & Hid); [destruct Hin|].
  simpl. destruct (String.eqb_spec (_id a) (_id u')) as [E|N].
  - simpl. unfold by_id at 1. now rewrite String.eqb_refl.
  - simpl. unfold by_id at 1. apply String.eqb_neq in N. rewrite N.
    apply IH. destruct Hin as [->|Hin].
    + apply String.eqb_neq in N. contradiction.
    + now exists d.
Qed.

(** The documents with another [_id] are left alone. *)
Lemma find_by_id_updateOne_other (i : string) (u' : User) (l : list User) :
  i <> _id u' -> find (by_id i) (updateOne u' l) = find (by_id i) l.
Proof.
  intros N. induction l as [|a l IH]; [reflexivity|].
  simpl. destruct (String.eqb_spec (_id a) (_id u')) as [E|N'].
  - simpl. unfold by_id at 1 3. rewrite E.
    apply not_eq_sym in N. apply String.eqb_neq in N. now rewrite N.
  - simpl. now rewrite IH.
Qed.

(** When identifiers are unique, a changed document that still matches a
    query is found by it in the place of the old one. *)
Lemma find_updateOne (f : User -> bool) (u u' : User) (l : list User) :
  NoDup (map _id l) -> find f l = Some u -> _id u' = _id u -> f u' = true ->
  find f (updateOne u' l) = Some u'.
Proof.
  intros Hnd Hf Hid Hu'. induction l as [|a l IH]; [discriminate|].
  simpl in *. inversion Hnd as [|? ? Hnotin Hnd']; subst.
  destruct (f a) eqn:Fa.
  - injection Hf as ->. rewrite Hid, String.eqb_refl. simpl. now rewrite Hu'.
  - destruct (String.eqb_spec (_id a) (_id u')) as [E|N].
    + exfalso. apply Hnotin. rewrite E, Hid.
      apply in_map. now apply find_some in Hf.
    + simpl. rewrite Fa. now apply IH.
Qed.

(** ** The token issuer *)

(** In a zone whose offset is the same [n] times 24 hours later, [n] days
    later is that instant. *)
Lemma plus_days_same_offset (tz : Zone) (t n : Z) :
  tz (t + n * 24 * 60 * 60 * 1000) = tz t ->
  plus_days tz t n = t + n * 24 * 60 * 60 * 1000.
Proof.
  intros H. unfold plus_days, fixOffset. cbv zeta.
  replace (t + tz t * 60 * 1000 + n * 24 * 60 * 60 * 1000 - tz t * 60 * 1000)
    with (t + n * 24 * 60 * 60 * 1000) by lia.
  now rewrite H, Z.eqb_refl.
Qed.

Lemma getTokens_run (u : User) (e : Env) (c : Call) (s : State) :
  UsersResolvers.getTokens u e c s =
  (Returned
     (set_refresh u
        (Some (jwt.sign (now c) {| jwt.id := _id u; jwt.roles := Some (roles u) |}
                        (JWT_REFRESH_TOKEN_SECRET e) (Some (jwt.days 14))))
        (Some (plus_days (zone c) (now c) 14)),
      {| TokenPair.token :=
           jwt.sign (now c) {| jwt.id := _id u; jwt.roles := Some (roles u) |}
                    (JWT_ACCESS_TOKEN_SECRET e) (Some (jwt.minutes 15));
         TokenPair.refreshToken :=
           jwt.sign (now c) {| jwt.id := _id u; jwt.roles := Some (roles u) |}
                    (JWT_REFRESH_TOKEN_SECRET e) (Some (jwt.days 14)) |}),
   s).
Proof. reflexivity. Qed.

Lemma verify_signed (t : Z) (k : string) (p : jwt.Payload) (e : Z) :
  jwt.exp p = Some e ->
  jwt.verify t (jwt.Signed k p) k = Returned (Some p) <-> t / 1000 < e.
Proof.
  intros He. unfold jwt.verify, jwt.clockTimestamp.
  rewrite String.eqb_refl, He. simpl.
  destruct (Z.geb_spec (t / 1000) e) as [Hge | Hlt]; split; intros H;
    try discriminate; try lia.
  reflexivity.
Qed.

Lemma verify_other_secret (t : Z) (k k' : string) (p : jwt.Payload) :
  (k =? k')%string = false ->
  jwt.verify t (jwt.Signed k p) k' = Thrown (jwt.JsonWebTokenError "invalid signature").
Proof. intros H. unfold jwt.verify. now rewrite H. Qed.

(** C5 (amended).  [getTokens], which issues the tokens of the [signIn]
    and the [refreshToken] of [src/users/resolvers.js], yields an access token
    signed with the access secret and a refresh token signed with the refresh
    secret; both carry the identifier and the roles of the user; the access
    token is accepted for exactly 15 minutes and the refresh token for
    exactly 14 days (counted in seconds from the second of issuance).  On
    the document it sets [refreshToken] to the refresh token and
    [refreshTokenExpires] to the instant 14 calendar days later in the local
    zone, which is 14 times 24 hours after issuance when the offset of the
    zone is then what it is at issuance; every other field of the document
    is left as it was, and nothing is written to the store.  When the two
    secrets differ, neither token verifies against the secret of the other.
    The [signIn] of [src/data/resolvers.js] issues no such pair: whenever it
    returns, its one token is signed with [JWT_SECRET], carries a constant
    identifier and no roles, and has no expiry. *)
Theorem getTokens_issues (u : User) (e : Env) (c : Call) (s : State) :
  (exists (u' : User) (access refresh : jwt.Payload),
    let access_token := jwt.Signed (JWT_ACCESS_TOKEN_SECRET e) access in
    let refresh_token := jwt.Signed (JWT_REFRESH_TOKEN_SECRET e) refresh in
    run (UsersResolvers.getTokens u e) c s
    = (Returned
         (u', {| TokenPair.token := access_token; TokenPair.refreshToken := refresh_token |}),
       s)
    /\ refreshToken u' = Some refresh_token
    /\ refreshTokenExpires u' = Some (plus_days (zone c) (now c) 14)
    /\ (zone c (now c + 14 * 24 * 60 * 60 * 1000) = zone c (now c) ->
        refreshTokenExpires u' = Some (now c + 14 * 24 * 60 * 60 * 1000))
    /\ (_id u' = _id u /\ email u' = email u /\ username u' = username u
        /\ firstName u' = firstName u /\ lastName u' = lastName u
        /\ displayName u' = displayName u /\ password u' = password u
        /\ salt u' = salt u /\ roles u' = roles u /\ provider u' = provider u
        /\ emailConfirmed u' = emailConfirmed u
        /\ emailConfirmationToken u' = emailConfirmationToken u
        /\ emailConfirmationTokenExpires u' = emailConfirmationTokenExpires u)
    /\ jwt.claims access = {| jwt.id := _id u; jwt.roles := Some (roles u) |}
    /\ jwt.claims refresh = {| jwt.id := _id u; jwt.roles := Some (roles u) |}
    /\ jwt.iat access = now c / 1000
    /\ jwt.iat refresh = now c / 1000
    /\ jwt.exp access = Some (jwt.iat access + 15 * 60)
    /\ jwt.exp refresh = Some (jwt.iat refresh + 14 * 24 * 60 * 60)
    /\ (forall t, jwt.verify t access_token (JWT_ACCESS_TOKEN_SECRET e)
                  = Returned (Some access)
                  <-> t / 1000 < now c / 1000 + 15 * 60)
    /\ (forall t, jwt.verify t refresh_token (JWT_REFRESH_TOKEN_SECRET e)
                  = Returned (Some refresh)
                  <-> t / 1000 < now c / 1000 + 14 * 24 * 60 * 60)
    /\ ((JWT_ACCESS_TOKEN_SECRET e =? JWT_REFRESH_TOKEN_SECRET e)%string = false ->
        forall t,
          jwt.verify t access_token (JWT_REFRESH_TOKEN_SECRET e)
          = Thrown (jwt.JsonWebTokenError "invalid signature")
          /\ jwt.verify t refresh_token (JWT_ACCESS_TOKEN_SECRET e)
             = Thrown (jwt.JsonWebTokenError "invalid signature")))
  /\ (forall (User : UserModel) (JWT_SECRET : string) (mail pw : option string)
             (session : DataResolvers.Session),
         fst (run (DataResolvers.signIn User JWT_SECRET mail pw) c s) = Returned session ->
         DataResolvers.token session
         = jwt.Signed JWT_SECRET
             {| jwt.claims := {| jwt.id := "CouCou"; jwt.roles := None |};
                jwt.iat := now c / 1000; jwt.exp := None |}).
Proof.
  split.
  - eexists; eexists; eexists; cbv zeta.
    split; [unfold run; rewrite getTokens_run; unfold jwt.sign; reflexivity|].
    cbn [refreshToken refreshTokenExpires set_refresh].
    split; [reflexivity|]. split; [reflexivity|].
    split; [intros Hz; now rewrite (plus_days_same_offset _ _ _ Hz)|].
    split; [cbn; repeat split|].
    cbn [jwt.claims jwt.iat jwt.exp option_map jwt.seconds jwt.clockTimestamp].
    unfold jwt.clockTimestamp.
    do 6 (split; [reflexivity|]).
    split; [|split].
    + intros t. rewrite verify_signed by reflexivity. lia.
    + intros t. rewrite verify_signed by reflexivity. lia.
    + intros Hk t. split; apply verify_other_secret; [|rewrite String.eqb_sym]; exact Hk.
  - intros User JWT_SECRET mail pw session.
    unfold DataResolvers.signIn, run, bind, User_findOne, clock, throw, ret.
    destruct (negb (truthy mail) || negb (truthy pw)); [discriminate|].
    destruct (find _ _) as [v|]; [|discriminate].
    destruct (authenticate User v _); [|discriminate].
    cbn [fst]. intros E. injection E as <-. reflexivity.
Qed.

Lemma getTokens_issues_witness :
  (JWT_ACCESS_TOKEN_SECRET sample_env =? JWT_REFRESH_TOKEN_SECRET sample_env)%string = false
  /\ zone (call_at 1000) (1000 + 14 * 24 * 60 * 60 * 1000) = zone (call_at 1000) 1000
  /\ exists (u' : User) (access refresh : jwt.Payload),
       run (UsersResolvers.getTokens alice sample_env) (call_at 1000) sample_state
       = (Returned
            (u', {| TokenPair.token := jwt.Signed "access-secret" access;
                    TokenPair.refreshToken := jwt.Signed "refresh-secret" refresh |}),
          sample_state)
       /\ refreshToken u' = Some (jwt.Signed "refresh-secret" refresh)
       /\ refreshTokenExpires u' = Some 1209601000
       /\ (forall t,
             jwt.verify t (jwt.Signed "access-secret" access) "refresh-secret"
             = Thrown (jwt.JsonWebTokenError "invalid signature")
             /\ jwt.verify t (jwt.Signed "refresh-secret" refresh) "access-secret"
                = Thrown (jwt.JsonWebTokenError "invalid signature")).
Proof.
  split; [reflexivity|]. split; [reflexivity|].
  destruct (getTokens_issues alice sample_env (call_at 1000) sample_state)
    as ((u' & a & r & Hrun & Ht & _ & He & _ & _ & _ & _ & _ & _ & _ & _ & _ & Hsep) & _).
  exists u', a, r. split; [exact Hrun|]. split; [exact Ht|].
  split; [exact (He eq_refl)|]. apply Hsep. reflexivity.
Defined.

(** C5 as stated fails in two places.  In Brussels, a pair issued on 20
    March 2026 at 12:00 UTC carries a refresh token whose [exp] is 14 times
    24 hours later, while the stored [refreshTokenExpires] is the same time
    of day 14 calendar days later, which is one hour earlier: summer time
    began in between.  And the [signIn] of [src/data/resolvers.js] answers
    [alice] with a token that carries a constant identifier, not hers, no
    roles and no expiry. *)
Lemma issuance_not_as_stated :
  (exists (u' : User) (tokens : TokenPair.t) (p : jwt.Payload),
      run (UsersResolvers.getTokens alice sample_env) (call_in_brussels 1774008000000)
          sample_state
      = (Returned (u', tokens), sample_state)
      /\ TokenPair.refreshToken tokens = jwt.Signed "refresh-secret" p
      /\ jwt.exp p = Some (1774008000 + 14 * 24 * 60 * 60)
      /\ refreshTokenExpires u'
         = Some (1774008000000 + 14 * 24 * 60 * 60 * 1000 - 60 * 60 * 1000)
      /\ refreshTokenExpires u' <> Some (1774008000000 + 14 * 24 * 60 * 60 * 1000))
  /\ (exists (session : DataResolvers.Session) (p : jwt.Payload),
         run (DataResolvers.signIn sample_model "secret" (Some "alice@tlca.eu")
                (Some "pw-alice")) (call_at 1000) sample_state
         = (Returned session, sample_state)
         /\ DataResolvers.token session = jwt.Signed "secret" p
         /\ jwt.claims p = {| jwt.id := "CouCou"; jwt.roles := None |}
         /\ jwt.id (jwt.claims p) <> _id alice
         /\ jwt.exp p = None).
Proof.
  split.
  - eexists; eexists; eexists.
    split; [unfold run; rewrite getTokens_run; unfold jwt.sign; reflexivity|].
    split; [reflexivity|]. split; [reflexivity|]. split; [reflexivity|].
    vm_compute. discriminate.
  - eexists; eexists. split; [reflexivity|].
    split; [reflexivity|]. split; [reflexivity|]. split; [discriminate|reflexivity].
Qed.

(** ** Signing in *)

(** C6.  [signIn] fails with INVALID_CREDENTIALS when no user has the given
    e-mail address or username and when the password check rejects the
    password of the user found; it fails with UNCONFIRMED_EMAIL_ADDRESS when
    the password is right and [emailConfirmed] is not set; when the password
    is right, the address confirmed and the write goes through, it returns
    the pair of tokens issued for the user and stores the changed document.
    No other failure with a named code exists. *)
Theorem signIn_outcomes (ctx : Context) (c : Call) (s : State) (login pw : string) :
  let outcome := run (UsersResolvers.signIn login pw ctx) c s in
  let found := find (email_or_username login) (users s) in
  ((forall u, In u (users s) -> email u <> Some login /\ username u <> Some login) ->
   outcome = (Thrown UsersResolvers.INVALID_CREDENTIALS, s))
  /\ (forall u, found = Some u -> authenticate (models ctx) u pw = false ->
      outcome = (Thrown UsersResolvers.INVALID_CREDENTIALS, s))
  /\ (forall u, found = Some u -> authenticate (models ctx) u pw = true ->
      emailConfirmed u = None ->
      outcome = (Thrown UsersResolvers.UNCONFIRMED_EMAIL_ADDRESS, s))
  /\ (forall u, found = Some u -> authenticate (models ctx) u pw = true ->
      emailConfirmed u <> None -> save_fault c = None ->
      exists u' tokens,
        run (UsersResolvers.getTokens u (env ctx)) c s = (Returned (u', tokens), s)
        /\ outcome = (Returned (Some tokens), set_users s (updateOne u' (users s))))
  /\ (fst outcome = Thrown UsersResolvers.INVALID_CREDENTIALS
      \/ fst outcome = Thrown UsersResolvers.UNCONFIRMED_EMAIL_ADDRESS
      \/ (exists tokens, fst outcome = Returned (Some tokens))
      \/ (fst outcome = Returned None /\ save_fault c <> None)).
Proof.
  cbv zeta. repeat split.
  - intros Hnone. unfold_signIn. rewrite find_no_match; [reflexivity|].
    intros u Hu. destruct (email_or_username login u) eqn:E; [|reflexivity].
    apply email_or_username_spec in E. destruct (Hnone u Hu). tauto.
  - intros u Hf Ha. unfold_signIn. now rewrite Hf, Ha.
  - intros u Hf Ha Hc. unfold_signIn. now rewrite Hf, Ha, Hc.
  - intros u Hf Ha Hc Hs. unfold_signIn. rewrite Hf, Ha.
    destruct (emailConfirmed u); [|congruence]. simpl. rewrite Hs.
    eexists; eexists; split; reflexivity.
  - unfold_signIn. destruct (find _ _) as [u|]; [|now left].
    destruct (authenticate _ _ _); simpl; [|now left].
    destruct (emailConfirmed u); [|now (right; left)].
    destruct (save_fault c) eqn:Hs; simpl.
    + right; right; right. split; [reflexivity|discriminate].
    + right; right; left. eexists; reflexivity.
Qed.

Lemma signIn_outcomes_witness :
  run (UsersResolvers.signIn "nobody" "x" (sample_ctx None)) (call_at 1000) sample_state
  = (Thrown UsersResolvers.INVALID_CREDENTIALS, sample_state)
  /\ run (UsersResolvers.signIn "alice" "wrong" (sample_ctx None)) (call_at 1000) sample_state
     = (Thrown UsersResolvers.INVALID_CREDENTIALS, sample_state)
  /\ run (UsersResolvers.signIn "bob@tlca.eu" "pw-bob" (sample_ctx None)) (call_at 1000)
         sample_state
     = (Thrown UsersResolvers.UNCONFIRMED_EMAIL_ADDRESS, sample_state)
  /\ exists u' tokens,
       run (UsersResolvers.getTokens alice (env (sample_ctx None))) (call_at 1000)
           sample_state
       = (Returned (u', tokens), sample_state)
       /\ run (UsersResolvers.signIn "alice" "pw-alice" (sample_ctx None)) (call_at 1000)
              sample_state
          = (Returned (Some tokens),
             set_users sample_state (updateOne u' (users sample_state))).
Proof.
  split; [|split; [|split]].
  - destruct (signIn_outcomes (sample_ctx None) (call_at 1000) sample_state "nobody" "x")
      as (H & _).
    apply H. intros u Hu. simpl in Hu.
    destruct Hu as [<-|[<-|[<-|[]]]]; split; discriminate.
  - destruct (signIn_outcomes (sample_ctx None) (call_at 1000) sample_state "alice" "wrong")
      as (_ & H & _).
    apply (H alice); reflexivity.
  - destruct (signIn_outcomes (sample_ctx None) (call_at 1000) sample_state
                "bob@tlca.eu" "pw-bob") as (_ & _ & H & _).
    apply (H bob); reflexivity.
  - destruct (signIn_outcomes (sample_ctx None) (call_at 1000) sample_state
                "alice" "pw-alice") as (_ & _ & _ & H & _).
    apply (H alice); try reflexivity. discriminate.
Defined.

(** C10.  The password is checked before the confirmation status: when the
    password check rejects the password for the user found, [signIn] fails
    with INVALID_CREDENTIALS, never with UNCONFIRMED_EMAIL_ADDRESS, whether or
    not the address of that user is confirmed; the store is left as it was. *)
Theorem signIn_password_before_confirmation
        (ctx : Context) (c : Call) (s : State) (login pw : string) (u : User) :
  find (email_or_username login) (users s) = Some u ->
  authenticate (models ctx) u pw = false ->
  run (UsersResolvers.signIn login pw ctx) c s
  = (Thrown UsersResolvers.INVALID_CREDENTIALS, s)
  /\ fst (run (UsersResolvers.signIn login pw ctx) c s)
     <> Thrown UsersResolvers.UNCONFIRMED_EMAIL_ADDRESS.
Proof.
  intros Hf Ha.
  assert (E : run (UsersResolvers.signIn login pw ctx) c s
              = (Thrown UsersResolvers.INVALID_CREDENTIALS, s)).
  { unfold_signIn. now rewrite Hf, Ha. }
  split; [exact E|]. rewrite E. simpl. discriminate.
Qed.

Lemma signIn_password_before_confirmation_witness :
  emailConfirmed bob = None
  /\ run (UsersResolvers.signIn "bob" "guess" (sample_ctx None)) (call_at 1000) sample_state
     = (Thrown UsersResolvers.INVALID_CREDENTIALS, sample_state)
  /\ fst (run (UsersResolvers.signIn "bob" "guess" (sample_ctx None)) (call_at 1000)
              sample_state)
     <> Thrown UsersResolvers.UNCONFIRMED_EMAIL_ADDRESS.
Proof.
  split; [reflexivity|].
  apply (signIn_password_before_confirmation (sample_ctx None) (call_at 1000) sample_state
           "bob" "guess" bob); reflexivity.
Defined.

(** ** Failure of the write *)

(** C8.  When the write of the user document fails with [err] after the
    checks of [signIn], [refreshToken], [signOut] or [validateAccount] have
    let the request through, the resolver reports [err] to Bugsnag and
    returns [null] (the first two) or [false] (the last two); it throws
    nothing, and the collections are as they were before the call. *)
Theorem save_failure_is_neutral (ctx : Context) (c : Call) (s : State) (err : JsError) :
  save_fault c = Some err ->
  (forall login pw u,
      find (email_or_username login) (users s) = Some u ->
      authenticate (models ctx) u pw = true ->
      emailConfirmed u <> None ->
      run (UsersResolvers.signIn login pw ctx) c s = (Returned None, reporting err s))
  /\ (forall tok decoded u,
      jwt.verify (now c) tok (JWT_REFRESH_TOKEN_SECRET (env ctx)) = Returned (Some decoded) ->
      find (by_id (jwt.id (jwt.claims decoded))) (users s) = Some u ->
      refreshToken u = Some tok ->
      (forall e, refreshTokenExpires u = Some e -> now c <= e) ->
      run (UsersResolvers.refreshToken tok ctx) c s = (Returned None, reporting err s))
  /\ (forall identity u,
      user ctx = Some identity ->
      find (by_id (identity_id identity)) (users s) = Some u ->
      run (UsersResolvers.signOut ctx) c s = (Returned false, reporting err s))
  /\ (forall n tok u,
      find (by_username n) (users s) = Some u ->
      emailConfirmationToken u = Some tok ->
      (forall e, emailConfirmationTokenExpires u = Some e -> now c <= e) ->
      run (UsersResolvers.validateAccount n tok) c s = (Returned false, reporting err s))
  /\ users (reporting err s) = users s
  /\ registrations (reporting err s) = registrations s
  /\ reported (reporting err s) = err :: reported s.
Proof.
  intros Hs. repeat split.
  - intros login pw u Hf Ha Hc. unfold_resolvers. rewrite Hf, Ha.
    destruct (emailConfirmed u); [|congruence]. simpl. now rewrite Hs.
  - intros tok decoded u Hv Hf Ht He. unfold_resolvers. rewrite Hv, Hf.
    apply token_differs_false in Ht.
    rewrite Ht, expired_never. simpl. now rewrite Hs.
  - intros identity u Hu Hf. unfold_resolvers. rewrite Hu, Hf. now rewrite Hs.
  - intros n tok u Hf Ht He. unfold_resolvers. rewrite Hf.
    apply option_eqb_string_Some in Ht.
    rewrite Ht, expired_never. simpl. now rewrite Hs.
Qed.

Lemma save_failure_is_neutral_witness :
  save_fault (failing_call_at 2000) = Some network_down
  /\ run (UsersResolvers.signIn "alice" "pw-alice" (sample_ctx (Some "alice")))
         (failing_call_at 2000) session_state
     = (Returned None, reporting network_down session_state)
  /\ run (UsersResolvers.refreshToken alice_token (sample_ctx (Some "alice")))
         (failing_call_at 2000) session_state
     = (Returned None, reporting network_down session_state)
  /\ run (UsersResolvers.signOut (sample_ctx (Some "alice")))
         (failing_call_at 2000) session_state
     = (Returned false, reporting network_down session_state)
  /\ run (UsersResolvers.validateAccount "bob" "tok-bob")
         (failing_call_at 2000) session_state
     = (Returned false, reporting network_down session_state).
Proof.
  split; [reflexivity|].
  destruct (save_failure_is_neutral (sample_ctx (Some "alice")) (failing_call_at 2000)
              session_state network_down eq_refl) as (H1 & H2 & H3 & H4 & _).
  split; [|split; [|split]].
  - apply (H1 "alice" "pw-alice" (set_refresh alice (Some alice_token) (Some 1209601000)));
      try reflexivity. discriminate.
  - apply (H2 alice_token
              {| jwt.claims := {| jwt.id := "alice"; jwt.roles := Some ["learner"] |};
                 jwt.iat := 1; jwt.exp := Some 1209601 |}
              (set_refresh alice (Some alice_token) (Some 1209601000)));
      try reflexivity.
    intros e E. injection E as <-. simpl. lia.
  - apply (H3 {| identity_id := "alice" |}
              (set_refresh alice (Some alice_token) (Some 1209601000))); reflexivity.
  - apply (H4 "bob" "tok-bob" bob); try reflexivity.
    intros e E. injection E as <-. simpl. lia.
Defined.

(** ** Confirming an account *)

(** What [validateAccount] does once the user is found: a helper that
    exposes the three branches of the resolver. *)
Lemma validateAccount_found (c : Call) (s : State) (n tok : string) (u : User) :
  find (by_username n) (users s) = Some u ->
  run (UsersResolvers.validateAccount n tok) c s =
  if negb (option_eqb String.eqb (emailConfirmationToken u) (Some tok))
     || UsersResolvers.expired (now c) (emailConfirmationTokenExpires u)
  then (Thrown UsersResolvers.USER_NOT_FOUND, s)
  else match save_fault c with
       | Some err => (Returned false, reporting err s)
       | None =>
           (Returned true,
            set_users s (updateOne (set_confirmation u None None (Some (now c))) (users s)))
       end.
Proof.
  intros Hf. unfold_resolvers. rewrite Hf.
  destruct (negb _ || _); [reflexivity|]. now destruct (save_fault c).
Qed.

Lemma validateAccount_not_found (c : Call) (s : State) (n tok : string) :
  find (by_username n) (users s) = None ->
  run (UsersResolvers.validateAccount n tok) c s
  = (Thrown UsersResolvers.USER_NOT_FOUND, s).
Proof. intros Hf. unfold_resolvers. now rewrite Hf. Qed.

(** Once the user is found under the username with the given token,
    [validateAccount] does not fail, whatever the stored expiry is: the
    outcome is decided by the write alone. *)
Lemma validateAccount_matching (c : Call) (s : State) (n tok : string) (u : User) :
  find (by_username n) (users s) = Some u ->
  emailConfirmationToken u = Some tok ->
  run (UsersResolvers.validateAccount n tok) c s =
  match save_fault c with
  | Some err => (Returned false, reporting err s)
  | None =>
      (Returned true,
       set_users s (updateOne (set_confirmation u None None (Some (now c))) (users s)))
  end.
Proof.
  intros Hf Ht. rewrite (validateAccount_found c s n tok u Hf).
  apply option_eqb_string_Some in Ht. now rewrite Ht, expired_never.
Qed.

(** C3.  The claim has [validateAccount] succeed only while the current
    time is not past [emailConfirmationTokenExpires].  The code asks
    [DateTime.now() > DateTime.fromISO(user.emailConfirmationTokenExpires)],
    which is never true of the [Date] the document holds.  Here [bob] holds
    the token [tok-bob] with an expiry at instant 5000, and the call is made
    at instant 6000: the account is confirmed all the same, with the token
    and its expiry cleared and [emailConfirmed] set to 6000. *)
Theorem validateAccount_accepts_expired_token :
  let outcome :=
    run (UsersResolvers.validateAccount "bob" "tok-bob") (call_at 6000) sample_state in
  find (by_username "bob") (users sample_state) = Some bob
  /\ emailConfirmationToken bob = Some "tok-bob"
  /\ emailConfirmationTokenExpires bob = Some 5000
  /\ now (call_at 6000) > 5000
  /\ fst outcome = Returned true
  /\ fst outcome <> Thrown UsersResolvers.USER_NOT_FOUND
  /\ find (by_id "bob") (users (snd outcome))
     = Some (set_confirmation bob None None (Some 6000)).
Proof.
  cbv zeta.
  rewrite (validateAccount_matching (call_at 6000) sample_state "bob" "tok-bob" bob
             eq_refl eq_refl).
  repeat split; try reflexivity. discriminate.
Qed.


(** ** Rotating the refresh token *)

Lemma verify_returned (t : Z) (tok : jwt.Token) (k : string) (r : option jwt.Payload) :
  jwt.verify t tok k = Returned r ->
  exists p, r = Some p /\ tok = jwt.Signed k p
            /\ (forall e, jwt.exp p = Some e -> t / 1000 < e).
Proof.
  unfold jwt.verify, jwt.clockTimestamp. destruct tok as [k' p|x]; [|discriminate].
  destruct (String.eqb_spec k' k) as [->|N]; cbn [negb]; [|discriminate].
  destruct (jwt.exp p) as [e|] eqn:He.
  - destruct (Z.geb_spec (t / 1000) e) as [G|G]; [discriminate|].
    intros E. exists p. split; [congruence|]. split; [reflexivity|].
    intros e' E'. rewrite He in E'. injection E' as <-. exact G.
  - intros E. exists p. split; [congruence|]. split; [reflexivity|].
    intros e' E'. rewrite He in E'. discriminate.
Qed.

(** The library never hands a falsy payload to the caller: the guard
    [if (!decoded)] of [refreshToken] is never taken. *)
Lemma verify_never_falsy (t : Z) (tok : jwt.Token) (k : string) :
  jwt.verify t tok k <> Returned None.
Proof.
  intros H. apply verify_returned in H as (p & E & _). discriminate.
Qed.

(** An exception of [jwt.verify] leaves [refreshToken] as it is. *)
Lemma refreshToken_verify_throws (ctx : Context) (c : Call) (s : State)
      (tok : jwt.Token) (err : JsError) :
  jwt.verify (now c) tok (JWT_REFRESH_TOKEN_SECRET (env ctx)) = Thrown err ->
  run (UsersResolvers.refreshToken tok ctx) c s = (Thrown err, s).
Proof. intros H. unfold_resolvers. now rewrite H. Qed.

(** The branches of [refreshToken] on a token that [jwt.verify] accepts. *)
Lemma refreshToken_verified (ctx : Context) (c : Call) (s : State)
      (tok : jwt.Token) (p : jwt.Payload) :
  jwt.verify (now c) tok (JWT_REFRESH_TOKEN_SECRET (env ctx)) = Returned (Some p) ->
  run (UsersResolvers.refreshToken tok ctx) c s =
  match find (by_id (jwt.id (jwt.claims p))) (users s) with
  | None => (Thrown UsersResolvers.INVALID_REFRESH_TOKEN, s)
  | Some u =>
      if UsersResolvers.token_differs (refreshToken u) tok
         || UsersResolvers.expired (now c) (refreshTokenExpires u)
      then (Thrown UsersResolvers.INVALID_REFRESH_TOKEN, s)
      else
        match UsersResolvers.getTokens u (env ctx) c s with
        | (Returned (u', tokens), _) =>
            match save_fault c with
            | Some err => (Returned None, reporting err s)
            | None => (Returned (Some tokens), set_users s (updateOne u' (users s)))
            end
        | (Thrown err, _) => (Thrown err, s)
        end
  end.
Proof.
  intros H. unfold_resolvers. rewrite H.
  destruct (find _ _) as [u|]; [|reflexivity].
  destruct (_ || _); [reflexivity|]. now destruct (save_fault c).
Qed.

(** In a well-formed store the user that [refreshToken] looks up by the [id]
    claim is the only one that can hold the token. *)
Lemma holder_is_found (l : list User) (k : string) (p : jwt.Payload) (u : User) :
  well_formed l -> In u l -> refreshToken u = Some (jwt.Signed k p) ->
  find (by_id (jwt.id (jwt.claims p))) l = Some u.
Proof.
  intros [Hnd Hown] Hin Ht.
  destruct (Hown u _ Hin Ht) as (k' & p' & E & Hid). injection E as <- <-.
  rewrite Hid. clear Hown Ht Hid.
  induction l as [|a l IH]; [destruct Hin|].
  simpl in *. inversion Hnd as [|? ? Hnotin Hnd']; subst.
  destruct Hin as [->|Hin].
  - unfold by_id. now rewrite String.eqb_refl.
  - unfold by_id at 1. destruct (String.eqb_spec (_id a) (_id u)) as [E|N].
    + exfalso. apply Hnotin. rewrite E. now apply in_map.
    + now apply IH.
Qed.

(** C1 (amended).  Let [tok] be a token that [jwt.verify] accepts against the
    refresh secret at the instant of the call, presented while the
    [refreshTokenExpires] of the user found under the [id] claim of the
    token has not passed.  Then [refreshToken] fails with
    INVALID_REFRESH_TOKEN exactly when no user found under the [id] claim
    stores exactly [tok]; in a well-formed store this is to say that no user
    at all stores [tok].  The failure changes nothing.  Otherwise a new pair
    is issued for that user, and the document carries the new refresh token
    and its expiry: when the write goes through the document is stored and
    the pair returned; when the write fails with [err], [err] is reported,
    the store is left as it was and [null] is returned. *)
Theorem refreshToken_rotates (ctx : Context) (c : Call) (s : State)
        (tok : jwt.Token) (p : jwt.Payload) :
  jwt.verify (now c) tok (JWT_REFRESH_TOKEN_SECRET (env ctx)) = Returned (Some p) ->
  let outcome := run (UsersResolvers.refreshToken tok ctx) c s in
  let found := find (by_id (jwt.id (jwt.claims p))) (users s) in
  (forall u e, found = Some u -> refreshTokenExpires u = Some e -> now c <= e) ->
  (fst outcome = Thrown UsersResolvers.INVALID_REFRESH_TOKEN <->
   (forall u, found = Some u -> refreshToken u <> Some tok))
  /\ (well_formed (users s) ->
      (fst outcome = Thrown UsersResolvers.INVALID_REFRESH_TOKEN <->
       (forall u, In u (users s) -> refreshToken u <> Some tok)))
  /\ (fst outcome = Thrown UsersResolvers.INVALID_REFRESH_TOKEN -> snd outcome = s)
  /\ (forall u, found = Some u -> refreshToken u = Some tok ->
      exists u' tokens,
        run (UsersResolvers.getTokens u (env ctx)) c s = (Returned (u', tokens), s)
        /\ refreshToken u' = Some (TokenPair.refreshToken tokens)
        /\ refreshTokenExpires u' = Some (plus_days (zone c) (now c) 14)
        /\ (save_fault c = None ->
            outcome = (Returned (Some tokens), set_users s (updateOne u' (users s))))
        /\ (forall err, save_fault c = Some err ->
            outcome = (Returned None, reporting err s))).
Proof.
  intros Hv. cbv zeta. intros _.
  assert (Hiff : fst (run (UsersResolvers.refreshToken tok ctx) c s)
                 = Thrown UsersResolvers.INVALID_REFRESH_TOKEN <->
                 (forall u, find (by_id (jwt.id (jwt.claims p))) (users s) = Some u ->
                            refreshToken u <> Some tok)).
  { rewrite (refreshToken_verified ctx c s tok p Hv).
    destruct (find _ _) as [u|]; [|split; [discriminate|reflexivity]].
    rewrite expired_never, orb_false_r.
    destruct (UsersResolvers.token_differs (refreshToken u) tok) eqn:Ht; cbn [fst].
    - apply token_differs_true in Ht. split; [|reflexivity].
      intros _ u' E. now injection E as <-.
    - apply token_differs_false in Ht. rewrite getTokens_run. split.
      + destruct (save_fault c); discriminate.
      + intros H. now destruct (H u eq_refl). }
  split; [exact Hiff|]. split; [|split].
  - intros Hwf. rewrite Hiff. split.
    + intros H u Hin Ht. apply (H u); [|exact Ht].
      destruct (verify_returned _ _ _ _ Hv) as (p' & E & -> & _). injection E as <-.
      eapply holder_is_found; eassumption.
    + intros H u Hf. apply H. now apply find_some in Hf.
  - rewrite (refreshToken_verified ctx c s tok p Hv).
    destruct (find _ _) as [u|]; [|reflexivity].
    destruct (_ || _); [reflexivity|]. rewrite getTokens_run.
    destruct (save_fault c); discriminate.
  - intros u Hf Ht. rewrite (refreshToken_verified ctx c s tok p Hv), Hf.
    apply token_differs_false in Ht. rewrite Ht, expired_never.
    unfold run. rewrite getTokens_run. cbn [orb].
    eexists; eexists. split; [reflexivity|]. split; [reflexivity|].
    split; [reflexivity|]. split.
    + now intros ->.
    + now intros err ->.
Qed.

Lemma sample_state_well_formed : well_formed (users sample_state).
Proof.
  split.
  - simpl. repeat constructor; simpl; intuition discriminate.
  - intros u t Hu Ht. simpl in Hu. destruct Hu as [<-|[<-|[<-|[]]]]; discriminate.
Qed.

Lemma refreshToken_rotates_witness :
  let p := {| jwt.claims := {| jwt.id := "alice"; jwt.roles := Some ["learner"] |};
              jwt.iat := 1; jwt.exp := Some 1209601 |} in
  jwt.verify (now (call_at 2000)) alice_token
             (JWT_REFRESH_TOKEN_SECRET (env (sample_ctx None))) = Returned (Some p)
  /\ (exists u' tokens,
        run (UsersResolvers.getTokens
               (set_refresh alice (Some alice_token) (Some 1209601000))
               (env (sample_ctx None))) (call_at 2000) session_state
        = (Returned (u', tokens), session_state)
        /\ run (UsersResolvers.refreshToken alice_token (sample_ctx None)) (call_at 2000)
               session_state
           = (Returned (Some tokens),
              set_users session_state (updateOne u' (users session_state))))
  /\ fst (run (UsersResolvers.refreshToken alice_token (sample_ctx None)) (call_at 2000)
              sample_state)
     = Thrown UsersResolvers.INVALID_REFRESH_TOKEN.
Proof.
  cbv zeta. split; [reflexivity|]. split.
  - destruct (refreshToken_rotates (sample_ctx None) (call_at 2000) session_state
                alice_token _ eq_refl) as (_ & _ & _ & H).
    + intros u e E He. vm_compute in E. injection E as <-.
      vm_compute in He. injection He as <-. vm_compute. discriminate.
    + destruct (H (set_refresh alice (Some alice_token) (Some 1209601000)) eq_refl eq_refl)
        as (u' & tokens & Hg & _ & _ & Hok & _).
      exists u', tokens. split; [exact Hg|]. apply Hok. reflexivity.
  - destruct (refreshToken_rotates (sample_ctx None) (call_at 2000) sample_state
                alice_token _ eq_refl) as (_ & H & _).
    + intros u e E He. vm_compute in E. injection E as <-. discriminate He.
    + apply (H sample_state_well_formed).
      intros u Hu. simpl in Hu. destruct Hu as [<-|[<-|[<-|[]]]]; discriminate.
Defined.

(** C1 as stated fails: the token verifies, the user it names stores exactly
    this token and its expiry has not passed, yet no pair is returned and the
    stored token is not overwritten, because the write failed. *)
Lemma refreshToken_null_when_write_fails :
  let outcome :=
    run (UsersResolvers.refreshToken alice_token (sample_ctx None)) (failing_call_at 2000)
        session_state in
  jwt.verify 2000 alice_token "refresh-secret"
  = Returned (Some {| jwt.claims := {| jwt.id := "alice"; jwt.roles := Some ["learner"] |};
                      jwt.iat := 1; jwt.exp := Some 1209601 |})
  /\ (exists u, In u (users session_state)
                /\ refreshToken u = Some alice_token
                /\ refreshTokenExpires u = Some 1209601000
                /\ 2000 <= 1209601000)
  /\ outcome = (Returned None, reporting network_down session_state)
  /\ fst outcome <> Thrown UsersResolvers.INVALID_REFRESH_TOKEN
  /\ (forall tokens, fst outcome <> Returned (Some tokens))
  /\ users (snd outcome) = users session_state.
Proof.
  cbv zeta. split; [reflexivity|]. split.
  - exists (set_refresh alice (Some alice_token) (Some 1209601000)).
    split; [now left|]. split; [reflexivity|]. split; [reflexivity|]. lia.
  - split; [reflexivity|]. split; [discriminate|]. split; [discriminate|reflexivity].
Qed.

(** The defect next to C1: a token that does not verify makes [jwt.verify]
    throw, and [refreshToken] lets that exception out instead of failing
    with INVALID_REFRESH_TOKEN.  So do a malformed token, a token signed with
    another secret and a token past its own [exp]. *)
Lemma refreshToken_unverified_token (ctx : Context) (c : Call) (s : State)
      (tok : jwt.Token) :
  (forall p, jwt.verify (now c) tok (JWT_REFRESH_TOKEN_SECRET (env ctx))
             <> Returned (Some p)) ->
  exists err,
    run (UsersResolvers.refreshToken tok ctx) c s = (Thrown err, s)
    /\ (name err = "JsonWebTokenError" \/ name err = "TokenExpiredError")
    /\ err <> UsersResolvers.INVALID_REFRESH_TOKEN.
Proof.
  intros Hno.
  destruct (jwt.verify (now c) tok (JWT_REFRESH_TOKEN_SECRET (env ctx))) as [r|err] eqn:Hv.
  - destruct (verify_returned _ _ _ _ Hv) as (p & -> & _). now destruct (Hno p).
  - exists err. split; [now apply refreshToken_verify_throws|].
    unfold jwt.verify in Hv. destruct tok as [k p|x].
    + destruct (negb _); [injection Hv as <-; split; [now left|discriminate]|].
      destruct (jwt.exp p); [|discriminate].
      destruct (_ >=? _); [|discriminate].
      injection Hv as <-. split; [now right|discriminate].
    + injection Hv as <-. split; [now left|discriminate].
Qed.

Lemma refreshToken_malformed_token :
  run (UsersResolvers.refreshToken (jwt.Garbage "not-a-jwt") (sample_ctx None))
      (call_at 2000) session_state
  = (Thrown (jwt.JsonWebTokenError "jwt malformed"), session_state).
Proof. reflexivity. Qed.

(** ** One active refresh token *)

(** What a successful [signIn] has done. *)
Lemma signIn_success (ctx : Context) (c : Call) (s s' : State) (login pw : string)
      (tokens : TokenPair.t) :
  run (UsersResolvers.signIn login pw ctx) c s = (Returned (Some tokens), s') ->
  exists u u',
    find (email_or_username login) (users s) = Some u
    /\ authenticate (models ctx) u pw = true
    /\ emailConfirmed u <> None
    /\ save_fault c = None
    /\ UsersResolvers.getTokens u (env ctx) c s = (Returned (u', tokens), s)
    /\ s' = set_users s (updateOne u' (users s)).
Proof.
  unfold UsersResolvers.signIn, run, bind, User_findOne, throw.
  destruct (find _ _) as [u|]; [|discriminate].
  destruct (authenticate _ _ _) eqn:Ha; cbn [negb]; [|discriminate].
  destruct (emailConfirmed u) eqn:Hc; [|discriminate].
  rewrite getTokens_run. unfold try_catch, bind, save, ret, Bugsnag_notify.
  destruct (save_fault c); [discriminate|].
  intros E. injection E as <- <-.
  exists u. eexists.
  split; [reflexivity|]. split; [exact Ha|]. split; [congruence|].
  split; [reflexivity|]. split; [apply getTokens_run|reflexivity].
Qed.

(** What a successful [refreshToken] has done. *)
Lemma refreshToken_success (ctx : Context) (c : Call) (s s' : State) (tok : jwt.Token)
      (tokens : TokenPair.t) :
  run (UsersResolvers.refreshToken tok ctx) c s = (Returned (Some tokens), s') ->
  exists p u u',
    jwt.verify (now c) tok (JWT_REFRESH_TOKEN_SECRET (env ctx)) = Returned (Some p)
    /\ find (by_id (jwt.id (jwt.claims p))) (users s) = Some u
    /\ refreshToken u = Some tok
    /\ save_fault c = None
    /\ UsersResolvers.getTokens u (env ctx) c s = (Returned (u', tokens), s)
    /\ s' = set_users s (updateOne u' (users s)).
Proof.
  intros H.
  destruct (jwt.verify (now c) tok (JWT_REFRESH_TOKEN_SECRET (env ctx))) as [r|err] eqn:Hv.
  - destruct (verify_returned _ _ _ _ Hv) as (p & -> & _).
    rewrite (refreshToken_verified ctx c s tok p Hv) in H.
    destruct (find _ _) as [u|] eqn:Hf; [|discriminate].
    destruct (UsersResolvers.token_differs (refreshToken u) tok) eqn:Ht;
      cbn [orb] in H; [discriminate|].
    rewrite expired_never in H.
    rewrite getTokens_run in H. destruct (save_fault c) eqn:Hs; [discriminate|].
    injection H as <- <-. exists p, u. eexists.
    apply token_differs_false in Ht.
    repeat (split; [reflexivity || assumption|]).
    split; [apply getTokens_run|reflexivity].
  - rewrite (refreshToken_verify_throws ctx c s tok err Hv) in H. discriminate.
Qed.

(** A token that names a user and is not the token stored on the document of
    that user does not refresh anything. *)
Lemma stale_token_rejected (ctx : Context) (c : Call) (s : State) (i : string)
      (u : User) (stale : jwt.Token) :
  find (by_id i) (users s) = Some u ->
  token_names stale i ->
  refreshToken u <> Some stale ->
  (forall tokens s', run (UsersResolvers.refreshToken stale ctx) c s
                     <> (Returned (Some tokens), s'))
  /\ (forall p, jwt.verify (now c) stale (JWT_REFRESH_TOKEN_SECRET (env ctx))
                = Returned (Some p) ->
                run (UsersResolvers.refreshToken stale ctx) c s
                = (Thrown UsersResolvers.INVALID_REFRESH_TOKEN, s)).
Proof.
  intros Hf (k & p0 & -> & Hid) Hneq.
  assert (Hrej : forall p, jwt.verify (now c) (jwt.Signed k p0)
                                      (JWT_REFRESH_TOKEN_SECRET (env ctx))
                           = Returned (Some p) ->
                           run (UsersResolvers.refreshToken (jwt.Signed k p0) ctx) c s
                           = (Thrown UsersResolvers.INVALID_REFRESH_TOKEN, s)).
  { intros p Hv. rewrite (refreshToken_verified ctx c s _ p Hv).
    destruct (verify_returned _ _ _ _ Hv) as (p' & E & E' & _).
    injection E as <-. injection E' as _ <-. rewrite Hid, Hf.
    apply token_differs_true in Hneq. now rewrite Hneq. }
  split; [|exact Hrej].
  intros tokens s' H.
  destruct (refreshToken_success _ _ _ _ _ _ H) as (p & _ & _ & Hv & _).
  rewrite (Hrej p Hv) in H. discriminate.
Qed.

(** The token that [getTokens] issues for a user names that user. *)
Lemma getTokens_names_user (u u' : User) (e : Env) (c : Call) (s : State)
      (tokens : TokenPair.t) :
  UsersResolvers.getTokens u e c s = (Returned (u', tokens), s) ->
  _id u' = _id u
  /\ refreshToken u' = Some (TokenPair.refreshToken tokens)
  /\ token_names (TokenPair.refreshToken tokens) (_id u).
Proof.
  rewrite getTokens_run. intros E. injection E as <- <-.
  split; [reflexivity|]. split; [reflexivity|].
  eexists; eexists. split; reflexivity.
Qed.

(** C2 (amended).  Every call of [signIn] or [refreshToken] that returns a
    pair is a rotation for the user it looked up; after a rotation the
    document of that user stores the refresh token just issued, which names
    the user; from then on the only token naming the user that [refreshToken]
    accepts is that stored one; and the token stored before the rotation, if
    it is not the very token just issued, is refused: never accepted, and
    refused with INVALID_REFRESH_TOKEN whenever [jwt.verify] accepts it. *)
Theorem rotation_invalidates_previous_token (ctx : Context) (c : Call) (s : State) :
  (forall login pw tokens s',
      run (UsersResolvers.signIn login pw ctx) c s = (Returned (Some tokens), s') ->
      exists u, rotates ctx c s u tokens s')
  /\ (forall tok tokens s',
      run (UsersResolvers.refreshToken tok ctx) c s = (Returned (Some tokens), s') ->
      exists u, rotates ctx c s u tokens s' /\ refreshToken u = Some tok)
  /\ (forall u tokens s',
      rotates ctx c s u tokens s' ->
      (exists u', find (by_id (_id u)) (users s') = Some u'
                  /\ refreshToken u' = Some (TokenPair.refreshToken tokens))
      /\ token_names (TokenPair.refreshToken tokens) (_id u)
      /\ (forall tok c' tokens' s'',
             token_names tok (_id u) ->
             run (UsersResolvers.refreshToken tok ctx) c' s'
             = (Returned (Some tokens'), s'') ->
             tok = TokenPair.refreshToken tokens)
      /\ (forall previous c',
             tokens_carry_owner (users s) ->
             refreshToken u = Some previous ->
             previous <> TokenPair.refreshToken tokens ->
             (forall tokens' s'',
                 run (UsersResolvers.refreshToken previous ctx) c' s'
                 <> (Returned (Some tokens'), s''))
             /\ (forall p,
                    jwt.verify (now c') previous (JWT_REFRESH_TOKEN_SECRET (env ctx))
                    = Returned (Some p) ->
                    run (UsersResolvers.refreshToken previous ctx) c' s'
                    = (Thrown UsersResolvers.INVALID_REFRESH_TOKEN, s')))).
Proof.
  split; [|split].
  - intros login pw tokens s' H.
    destruct (signIn_success _ _ _ _ _ _ _ H) as (u & u' & Hf & _).
    exists u. now apply rotates_signIn with login pw.
  - intros tok tokens s' H.
    destruct (refreshToken_success _ _ _ _ _ _ H) as (p & u & u' & Hv & Hf & Ht & _).
    exists u. split; [now apply rotates_refreshToken with tok p|exact Ht].
  - intros u tokens s' Hrot.
    assert (Hstate : In u (users s) /\ exists u',
               UsersResolvers.getTokens u (env ctx) c s = (Returned (u', tokens), s)
               /\ s' = set_users s (updateOne u' (users s))).
    { destruct Hrot as [login pw u tokens s' Hf H | tok p u tokens s' Hv Hf H].
      - destruct (signIn_success _ _ _ _ _ _ _ H) as (v & v' & Hf' & _ & _ & _ & Hg & ->).
        rewrite Hf in Hf'. injection Hf' as <-.
        split; [now apply find_some in Hf|]. now exists v'.
      - destruct (refreshToken_success _ _ _ _ _ _ H)
          as (p' & v & v' & Hv' & Hf' & _ & _ & Hg & ->).
        rewrite Hv in Hv'. injection Hv' as <-. rewrite Hf in Hf'. injection Hf' as <-.
        split; [now apply find_some in Hf|]. now exists v'. }
    destruct Hstate as (Hin & u' & Hg & ->).
    destruct (getTokens_names_user _ _ _ _ _ _ Hg) as (Hid & Hnew & Hnames).
    assert (Hfound : find (by_id (_id u)) (users (set_users s (updateOne u' (users s))))
                     = Some u').
    { simpl. rewrite <- Hid. apply find_by_id_updateOne. exists u. now split. }
    split; [now exists u'|]. split; [exact Hnames|]. split.
    + intros tok c' tokens' s'' Hn H.
      destruct (jwt.Token_eqb tok (TokenPair.refreshToken tokens)) eqn:E.
      * now apply Token_eqb_eq in E.
      * exfalso.
        destruct (stale_token_rejected ctx c' _ (_id u) u' tok Hfound Hn) as (Hnever & _).
        -- rewrite Hnew. intros E'. injection E' as E'. symmetry in E'.
           apply Token_eqb_eq in E'. congruence.
        -- exact (Hnever _ _ H).
    + intros previous c' Hown Hprev Hneq.
      apply (stale_token_rejected ctx c' _ (_id u) u' previous Hfound).
      * exact (Hown u previous Hin Hprev).
      * rewrite Hnew. congruence.
Qed.

Lemma session_state_carries_owner : tokens_carry_owner (users session_state).
Proof.
  intros u t Hu Ht. vm_compute in Hu.
  destruct Hu as [<-|[<-|[<-|[]]]]; try discriminate.
  injection Ht as <-. eexists; eexists. split; reflexivity.
Qed.

Lemma rotation_invalidates_previous_token_witness :
  let holder := set_refresh alice (Some alice_token) (Some 1209601000) in
  let second := run (UsersResolvers.signIn "alice" "pw-alice" (sample_ctx None))
                    (call_at 5000) session_state in
  refreshToken holder = Some alice_token
  /\ (exists tokens, fst second = Returned (Some tokens)
                     /\ alice_token <> TokenPair.refreshToken tokens)
  /\ run (UsersResolvers.refreshToken alice_token (sample_ctx None)) (call_at 6000)
         (snd second)
     = (Thrown UsersResolvers.INVALID_REFRESH_TOKEN, snd second).
Proof.
  cbv zeta. split; [reflexivity|].
  destruct (run (UsersResolvers.signIn "alice" "pw-alice" (sample_ctx None))
                (call_at 5000) session_state) as [r s2] eqn:E.
  vm_compute in E. injection E as <- <-.
  split; [eexists; split; [reflexivity|discriminate]|].
  destruct (rotation_invalidates_previous_token (sample_ctx None) (call_at 5000)
              session_state) as (_ & _ & H).
  match goal with
  | |- run _ _ ?s2 = _ =>
      destruct (H (set_refresh alice (Some alice_token) (Some 1209601000))
                  {| TokenPair.token :=
                       jwt.sign 5000 {| jwt.id := "alice"; jwt.roles := Some ["learner"] |}
                                "access-secret" (Some (jwt.minutes 15));
                     TokenPair.refreshToken :=
                       jwt.sign 5000 {| jwt.id := "alice"; jwt.roles := Some ["learner"] |}
                                "refresh-secret" (Some (jwt.days 14)) |}
                  s2) as (_ & _ & _ & Hprev)
  end.
  - apply rotates_signIn with "alice" "pw-alice"; reflexivity.
  - destruct (Hprev alice_token (call_at 6000) session_state_carries_owner eq_refl)
      as (_ & Hrej).
    + discriminate.
    + apply (Hrej {| jwt.claims := {| jwt.id := "alice"; jwt.roles := Some ["learner"] |};
                     jwt.iat := 1; jwt.exp := Some 1209601 |}).
      reflexivity.
Defined.

(** C2 as stated fails: [alice] holds the token issued at instant 1000; she
    signs in again at instant 1500, within the same second; the token issued
    then is the same token, so that the token she held before this sign-in
    still refreshes her session afterwards. *)
Lemma rotation_within_one_second_keeps_token :
  let holder := set_refresh alice (Some alice_token) (Some 1209601000) in
  let second := run (UsersResolvers.signIn "alice" "pw-alice" (sample_ctx None))
                    (call_at 1500) session_state in
  let third := run (UsersResolvers.refreshToken alice_token (sample_ctx None))
                   (call_at 1600) (snd second) in
  find (by_id "alice") (users session_state) = Some holder
  /\ refreshToken holder = Some alice_token
  /\ (exists tokens, fst second = Returned (Some tokens))
  /\ (exists tokens, fst third = Returned (Some tokens))
  /\ fst third <> Thrown UsersResolvers.INVALID_REFRESH_TOKEN.
Proof.
  cbv zeta. split; [reflexivity|]. split; [reflexivity|].
  split; [eexists; reflexivity|]. split; [eexists; reflexivity|].
  vm_compute. discriminate.
Qed.

(** ** Signing out *)

Lemma updateOne_idempotent (v : User) (l : list User) :
  updateOne v (updateOne v l) = updateOne v l.
Proof.
  induction l as [|a l IH]; [reflexivity|].
  simpl. destruct (String.eqb_spec (_id a) (_id v)) as [E|N]; simpl.
  - now rewrite String.eqb_refl.
  - apply String.eqb_neq in N. now rewrite N, IH.
Qed.

(** The branches of [signOut] for a user that is found. *)
Lemma signOut_found (ctx : Context) (c : Call) (s : State) (identity : Identity) (u : User) :
  user ctx = Some identity ->
  find (by_id (identity_id identity)) (users s) = Some u ->
  run (UsersResolvers.signOut ctx) c s =
  match save_fault c with
  | Some err => (Returned false, reporting err s)
  | None => (Returned true, set_users s (updateOne (set_refresh u None None) (users s)))
  end.
Proof.
  intros Hu Hf. unfold_resolvers. rewrite Hu, Hf. now destruct (save_fault c).
Qed.

(** C9 (amended).  [signOut] never fails with a named error.  For a signed-in
    user whose document is found: when the write goes through, [signOut]
    returns [true] and stores the document without [refreshToken] and
    [refreshTokenExpires]; when the write fails with [err], it reports [err],
    returns [false] and leaves the store as it was.  Signing out again from
    the cleared state returns [true] and leaves that same state.  In the
    cleared state, the token that the document stored before is never
    accepted by [refreshToken], and is refused with INVALID_REFRESH_TOKEN
    whenever [jwt.verify] accepts it. *)
Theorem signOut_clears_session (ctx : Context) (c : Call) (s : State) :
  (forall msg, fst (run (UsersResolvers.signOut ctx) c s) <> Thrown (UserInputError msg))
  /\ (forall identity u,
      user ctx = Some identity ->
      find (by_id (identity_id identity)) (users s) = Some u ->
      let cleared := set_users s (updateOne (set_refresh u None None) (users s)) in
      (save_fault c = None -> run (UsersResolvers.signOut ctx) c s = (Returned true, cleared))
      /\ (forall err, save_fault c = Some err ->
          run (UsersResolvers.signOut ctx) c s = (Returned false, reporting err s))
      /\ (exists u', find (by_id (identity_id identity)) (users cleared) = Some u'
                     /\ refreshToken u' = None /\ refreshTokenExpires u' = None)
      /\ (forall c', save_fault c' = None ->
          run (UsersResolvers.signOut ctx) c' cleared = (Returned true, cleared))
      /\ (forall last c',
          tokens_carry_owner (users s) ->
          refreshToken u = Some last ->
          (forall tokens s', run (UsersResolvers.refreshToken last ctx) c' cleared
                             <> (Returned (Some tokens), s'))
          /\ (forall p, jwt.verify (now c') last (JWT_REFRESH_TOKEN_SECRET (env ctx))
                        = Returned (Some p) ->
                        run (UsersResolvers.refreshToken last ctx) c' cleared
                        = (Thrown UsersResolvers.INVALID_REFRESH_TOKEN, cleared)))).
Proof.
  split.
  - intros msg. unfold_resolvers.
    destruct (user ctx) as [identity|]; [|discriminate].
    destruct (find _ _) as [u|]; [|discriminate].
    destruct (save_fault c); discriminate.
  - intros identity u Hu Hf. cbv zeta.
    pose proof (find_some _ _ Hf) as [Hin Hid]. apply by_id_spec in Hid.
    assert (Hfound : find (by_id (identity_id identity))
                          (updateOne (set_refresh u None None) (users s))
                     = Some (set_refresh u None None)).
    { rewrite <- Hid. change (_id u) with (_id (set_refresh u None None)) at 1.
      apply find_by_id_updateOne. now exists u. }
    split; [|split; [|split; [|split]]].
    + intros Hs. now rewrite (signOut_found ctx c s identity u Hu Hf), Hs.
    + intros err Hs. now rewrite (signOut_found ctx c s identity u Hu Hf), Hs.
    + exists (set_refresh u None None). now split.
    + intros c' Hs.
      rewrite (signOut_found ctx c'
                 (set_users s (updateOne (set_refresh u None None) (users s)))
                 identity (set_refresh u None None) Hu Hfound), Hs.
      unfold set_users. simpl. f_equal. f_equal.
      change (set_refresh (set_refresh u None None) None None)
        with (set_refresh u None None).
      apply updateOne_idempotent.
    + intros last c' Hown Hlast.
      apply (stale_token_rejected ctx c'
               (set_users s (updateOne (set_refresh u None None) (users s)))
               (identity_id identity) (set_refresh u None None) last Hfound).
      * rewrite <- Hid. exact (Hown u last Hin Hlast).
      * discriminate.
Qed.

Lemma signOut_clears_session_witness :
  let ctx := sample_ctx (Some "alice") in
  let holder := set_refresh alice (Some alice_token) (Some 1209601000) in
  let cleared :=
    set_users session_state (updateOne (set_refresh holder None None) (users session_state)) in
  run (UsersResolvers.signOut ctx) (call_at 2000) session_state = (Returned true, cleared)
  /\ run (UsersResolvers.signOut ctx) (call_at 3000) cleared = (Returned true, cleared)
  /\ run (UsersResolvers.refreshToken alice_token ctx) (call_at 4000) cleared
     = (Thrown UsersResolvers.INVALID_REFRESH_TOKEN, cleared).
Proof.
  cbv zeta.
  destruct (signOut_clears_session (sample_ctx (Some "alice")) (call_at 2000) session_state)
    as (_ & H).
  destruct (H {| identity_id := "alice" |}
              (set_refresh alice (Some alice_token) (Some 1209601000)) eq_refl eq_refl)
    as (Hok & _ & _ & Hidem & Hlast).
  split; [apply Hok; reflexivity|]. split; [apply Hidem; reflexivity|].
  destruct (Hlast alice_token (call_at 4000) session_state_carries_owner eq_refl)
    as (_ & Hrej).
  apply (Hrej {| jwt.claims := {| jwt.id := "alice"; jwt.roles := Some ["learner"] |};
                 jwt.iat := 1; jwt.exp := Some 1209601 |}).
  reflexivity.
Defined.

(** C9 as stated fails: when the write fails, [signOut] returns [false], the
    document keeps its refresh token, and that token still refreshes the
    session afterwards. *)
Lemma signOut_keeps_token_when_write_fails :
  let ctx := sample_ctx (Some "alice") in
  let out := run (UsersResolvers.signOut ctx) (failing_call_at 2000) session_state in
  fst out = Returned false
  /\ users (snd out) = users session_state
  /\ (exists u, find (by_id "alice") (users (snd out)) = Some u
                /\ refreshToken u = Some alice_token)
  /\ (exists tokens,
        fst (run (UsersResolvers.refreshToken alice_token ctx) (call_at 3000) (snd out))
        = Returned (Some tokens)).
Proof.
  cbv zeta. split; [reflexivity|]. split; [reflexivity|].
  split; [eexists; split; reflexivity|]. eexists. reflexivity.
Qed.

(** ** Signing up *)

(** The [catch] block of [signUp] never returns [true]: it reports the error
    and returns [false], or it throws one of three named errors (or the
    TypeError of reading [err.errors.email] on an error without [errors]). *)
Lemma signUp_catch_run (err : JsError) (c : Call) (s : State) :
  run (UsersResolvers.signUp_catch err) c s = (Returned false, reporting err s)
  \/ exists named,
       run (UsersResolvers.signUp_catch err) c s = (Thrown named, s)
       /\ (name err = "MongoServerError" \/ name err = "ValidationError")
       /\ (named = UsersResolvers.EXISTING_EMAIL_ADDRESS
           \/ named = UsersResolvers.INVALID_EMAIL_ADDRESS
           \/ named = UsersResolvers.INVALID_PASSWORD
           \/ name named = "TypeError").
Proof.
  unfold UsersResolvers.signUp_catch, UsersResolvers.signUp_switch.
  unfold run, bind, ret, throw, Bugsnag_notify.
  destruct (String.eqb_spec (name err) "MongoServerError") as [E|N].
  - destruct (code err) as [z|]; [|now left].
    destruct (Z.eq_dec z 11000) as [->|Nz].
    + right. eexists. split; [reflexivity|]. split; [now left|now left].
    + left. destruct z as [|q|q]; try reflexivity.
      do 14 (destruct q as [q|q|]; try reflexivity). now destruct Nz.
  - destruct (String.eqb_spec (name err) "ValidationError") as [E'|N']; [|now left].
    destruct (errors err) as [paths|].
    + destruct (existsb (String.eqb "email") paths).
      * right. eexists. split; [reflexivity|]. split; [now right|]. right. now left.
      * destruct (existsb (String.eqb "password") paths); [|now left].
        right. eexists. split; [reflexivity|]. split; [now right|]. right. right. now left.
    + right. eexists. split; [reflexivity|]. split; [now right|]. right. right. now right.
Qed.

Lemma NoDup_map_injective {A B} (f : A -> B) (l : list A) (x y : A) :
  NoDup (map f l) -> In x l -> In y l -> f x = f y -> x = y.
Proof.
  induction l as [|a l IH]; [intros _ []|].
  simpl. intros Hnd Hx Hy E. inversion Hnd as [|? ? Hnotin Hnd']; subst.
  destruct Hx as [->|Hx], Hy as [->|Hy].
  - reflexivity.
  - exfalso. apply Hnotin. rewrite E. now apply in_map.
  - exfalso. apply Hnotin. rewrite <- E. now apply in_map.
  - now apply IH.
Qed.

(** With unique identifiers, writing back the claimed form of an invitation
    claims the invitation with that identifier; the others are left alone. *)
Lemma updateRegistration_claims (u : User) (g : Registration) (l : list Registration) :
  NoDup (map reg_id l) ->
  updateRegistration (UsersResolvers.claim u g) l
  = map (fun x => if (reg_id x =? reg_id g)%string then UsersResolvers.claim u x else x) l.
Proof.
  induction l as [|a l IH]; [reflexivity|].
  intros Hnd. inversion Hnd as [|? ? Hnotin Hnd']; subst.
  cbn [updateRegistration map UsersResolvers.claim reg_id].
  destruct (String.eqb_spec (reg_id a) (reg_id g)) as [E|N].
  - unfold UsersResolvers.claim. rewrite E. f_equal.
    symmetry. transitivity (map (fun x : Registration => x) l); [|apply map_id].
    apply map_ext_in.
    intros x Hx. destruct (String.eqb_spec (reg_id x) (reg_id g)) as [E'|_]; [|reflexivity].
    exfalso. apply Hnotin. rewrite E, <- E'. now apply in_map.
  - f_equal. apply (IH Hnd').
Qed.

(** All the writes of [Promise.all] going through, the invitations end up
    as after writing them one after the other. *)
Lemma Promise_all_fulfilled (c : Call) (u : User) (gs : list Registration) (s : State) :
  (forall g, In g gs -> registration_fault c (reg_id g) = None) ->
  Promise_all (map (fun g => Registration_save (UsersResolvers.claim u g)) gs) c s
  = (Returned tt,
     set_registrations s
       (fold_left (fun l g => updateRegistration (UsersResolvers.claim u g) l) gs
                  (registrations s))).
Proof.
  revert s. induction gs as [|g gs IH]; intros s H.
  - destruct s; reflexivity.
  - cbn [map Promise_all fold_left]. unfold Registration_save at 1.
    cbn [UsersResolvers.claim reg_id]. rewrite (H g) by now left.
    rewrite IH by (intros g' Hg'; apply H; now right). reflexivity.
Qed.

Lemma claims_in_turn (u : User) (gs l : list Registration) :
  NoDup (map reg_id l) ->
  fold_left (fun l g => updateRegistration (UsersResolvers.claim u g) l) gs l
  = map (fun x => if existsb (fun g => (reg_id x =? reg_id g)%string) gs
                  then UsersResolvers.claim u x else x) l.
Proof.
  revert l. induction gs as [|g gs IH]; intros l Hnd.
  - simpl. symmetry. apply map_id.
  - cbn [fold_left]. rewrite (updateRegistration_claims u g l Hnd).
    rewrite IH.
    + rewrite map_map. apply map_ext. intros x. cbn [existsb].
      destruct (reg_id x =? reg_id g)%string; cbn [orb]; [|reflexivity].
      cbn [UsersResolvers.claim reg_id].
      now destruct (existsb _ gs).
    + rewrite map_map.
      erewrite map_ext; [exact Hnd|].
      intros x. now destruct (reg_id x =? reg_id g)%string.
Qed.

(** Whatever fails, [Promise.all] leaves the invitations as after writing,
    one after the other, those whose write is not rejected. *)
Lemma Promise_all_written (c : Call) (u : User) (gs : list Registration) (s : State) :
  registrations
    (snd (Promise_all (map (fun g => Registration_save (UsersResolvers.claim u g)) gs) c s))
  = fold_left (fun l g => updateRegistration (UsersResolvers.claim u g) l)
      (filter (fun g => match registration_fault c (reg_id g) with
                        | None => true
                        | Some _ => false
                        end) gs)
      (registrations s).
Proof.
  revert s. induction gs as [|g gs IH]; intros s; [reflexivity|].
  cbn [map Promise_all filter]. unfold Registration_save at 1.
  cbn [UsersResolvers.claim reg_id].
  destruct (registration_fault c (reg_id g)) as [err|].
  - specialize (IH s). destruct (Promise_all _ c s) as [r s2]. exact IH.
  - specialize (IH (set_registrations s
                      (updateRegistration (UsersResolvers.claim u g) (registrations s)))).
    destruct (Promise_all _ c _) as [r s2]. exact IH.
Qed.

(** [Promise.all] over the writes of the invitations: every write is tried;
    users, reports and mails are untouched; the promise is fulfilled exactly
    when no write fails, and is rejected with the fault of one of them
    otherwise. *)
Lemma Promise_all_saves (c : Call) (u : User) (gs : list Registration) (s : State) :
  let out :=
    Promise_all (map (fun g => Registration_save (UsersResolvers.claim u g)) gs) c s in
  users (snd out) = users s
  /\ reported (snd out) = reported s
  /\ outbox (snd out) = outbox s
  /\ (fst out = Returned tt <-> forall g, In g gs -> registration_fault c (reg_id g) = None)
  /\ (forall err, fst out = Thrown err ->
                  exists g, In g gs /\ registration_fault c (reg_id g) = Some err).
Proof.
  cbv zeta. revert s. induction gs as [|g gs IH]; intros s.
  - simpl. repeat split; try discriminate. intros _ g [].
  - cbn [map Promise_all].
    unfold Registration_save at 1 3 5 7 9. cbn [UsersResolvers.claim reg_id].
    destruct (registration_fault c (reg_id g)) as [err|] eqn:Hg.
    + specialize (IH s).
      destruct (Promise_all _ c s) as [r s2]. cbn [fst snd] in *.
      destruct IH as (Hu & Hr & Ho & _ & _).
      repeat (split; [assumption|]). split.
      * split; [discriminate|]. intros H. rewrite (H g) in Hg by now left. discriminate.
      * intros err' E. injection E as <-. exists g. split; [now left|exact Hg].
    + specialize (IH (set_registrations s
                        (updateRegistration (UsersResolvers.claim u g) (registrations s)))).
      cbn [UsersResolvers.claim reg_id] in IH.
      destruct (Promise_all _ c _) as [r s2]. cbn [fst snd] in *.
      destruct IH as (Hu & Hr & Ho & Hiff & Herr).
      repeat (split; [assumption|]). split.
      * rewrite Hiff. split.
        -- intros H g' [<-|Hg']; [exact Hg|now apply H].
        -- intros H g' Hg'. apply H. now right.
      * intros err E. destruct (Herr err E) as (g' & Hin & Hf). exists g'.
        split; [now right|exact Hf].
Qed.

(** The run of [signUp] once the user document is written. *)
Lemma signUp_run (ctx : Context) (c : Call) (s : State) (args : SignUpArgs) :
  save_fault c = None ->
  run (UsersResolvers.signUp args ctx) c s =
  let u := UsersResolvers.signUp_user args ctx c in
  let s1 := set_users s (users s ++ [u])%list in
  match sendMail_fault c with
  | Some err => run (UsersResolvers.signUp_catch err) c s1
  | None =>
      let s2 := mailing (UsersResolvers.confirmation_mail args u) s1 in
      match
        Promise_all
          (map (fun g => Registration_save (UsersResolvers.claim u g))
               (filter (UsersResolvers.invited args) (registrations s)))
          c s2
      with
      | (Returned _, s3) => (Returned true, s3)
      | (Thrown err, s3) => run (UsersResolvers.signUp_catch err) c s3
      end
  end.
Proof.
  intros Hs. unfold UsersResolvers.signUp, run, try_catch, bind, create, sendMail,
               Registration_find, ret.
  rewrite Hs. cbv zeta. destruct (sendMail_fault c); [reflexivity|].
  cbn [registrations mailing set_users].
  destruct (Promise_all _ c _) as [[[]|err] s3]; reflexivity.
Qed.

(** What [signUp] returns once the new user document is written: the
    first part of C4 as amended. *)
Lemma signUp_after_write (ctx : Context) (c : Call) (s : State) (args : SignUpArgs) :
  save_fault c = None ->
  let u := UsersResolvers.signUp_user args ctx c in
  let outcome := run (UsersResolvers.signUp args ctx) c s in
  let failure err :=
    sendMail_fault c = Some err
    \/ exists g, In g (registrations s) /\ UsersResolvers.invited args g = true
                 /\ registration_fault c (reg_id g) = Some err in
  users (snd outcome) = (users s ++ [u])%list
  /\ (fst outcome = Returned true <->
      sendMail_fault c = None
      /\ forall g, In g (registrations s) -> UsersResolvers.invited args g = true ->
                   registration_fault c (reg_id g) = None)
  /\ (forall err, sendMail_fault c = Some err ->
      outcome = run (UsersResolvers.signUp_catch err) c (set_users s (users s ++ [u])%list))
  /\ (fst outcome <> Returned true ->
      exists err,
        failure err
        /\ ((fst outcome = Returned false /\ reported (snd outcome) = err :: reported s)
            \/ (exists named,
                   fst outcome = Thrown named
                   /\ reported (snd outcome) = reported s
                   /\ (name err = "MongoServerError" \/ name err = "ValidationError")
                   /\ (named = UsersResolvers.EXISTING_EMAIL_ADDRESS
                       \/ named = UsersResolvers.INVALID_EMAIL_ADDRESS
                       \/ named = UsersResolvers.INVALID_PASSWORD
                       \/ name named = "TypeError"))))
  /\ (fst outcome <> Returned true ->
      (forall err, failure err ->
                   name err <> "MongoServerError" /\ name err <> "ValidationError") ->
      fst outcome = Returned false).
Proof.
  intros Hs. cbv zeta.
  rewrite (signUp_run ctx c s args Hs). cbv zeta.
  set (u := UsersResolvers.signUp_user args ctx c).
  set (s1 := set_users s (users s ++ [u])%list).
  destruct (sendMail_fault c) as [err|] eqn:Hm.
  - (* the mail is not sent *)
    destruct (signUp_catch_run err c s1) as [E | (named & E & Hname & Hnamed)]; rewrite E.
    + split; [reflexivity|]. split; [split; [discriminate|intros [H _]; discriminate]|].
      split; [intros err' H; injection H as <-; now rewrite E|]. split.
      * intros _. exists err. split; [now left|]. left. now split.
      * reflexivity.
    + split; [reflexivity|]. split; [split; [discriminate|intros [H _]; discriminate]|].
      split; [intros err' H; injection H as <-; now rewrite E|]. split.
      * intros _. exists err. split; [now left|]. right. now exists named.
      * intros _ H. destruct (H err (or_introl eq_refl)) as [N1 N2].
        destruct Hname; contradiction.
  - (* the mail is sent *)
    set (s2 := mailing (UsersResolvers.confirmation_mail args u) s1).
    pose proof (Promise_all_saves c u
                  (filter (UsersResolvers.invited args) (registrations s)) s2) as HP.
    cbv zeta in HP.
    destruct (Promise_all _ c s2) as [[[]|err] s3]; cbn [fst snd] in HP;
      destruct HP as (Hu & Hr & Ho & Hiff & Herr).
    + (* every invitation is written *)
      split; [exact Hu|]. split.
      * split; [|reflexivity]. intros _. split; [reflexivity|].
        intros g Hin Hinv. apply (proj1 Hiff eq_refl). apply filter_In. now split.
      * split; [discriminate|]. split; intros H; now destruct H.
    + (* an invitation is not written *)
      destruct (Herr err eq_refl) as (g & Hg & Hfault). apply filter_In in Hg as [Hin Hinv].
      assert (Hfail : exists g, In g (registrations s)
                                /\ UsersResolvers.invited args g = true
                                /\ registration_fault c (reg_id g) = Some err)
        by now exists g.
      destruct (signUp_catch_run err c s3) as [E | (named & E & Hname & Hnamed)]; rewrite E.
      * split; [exact Hu|]. split.
        -- split; [discriminate|]. intros [_ H]. rewrite (H g Hin Hinv) in Hfault.
           discriminate.
        -- split; [discriminate|]. split; [|reflexivity].
           intros _. exists err. split; [now right|]. left. split; [reflexivity|].
           cbn [snd reporting reported]. now rewrite Hr.
      * split; [exact Hu|]. split.
        -- split; [discriminate|]. intros [_ H]. rewrite (H g Hin Hinv) in Hfault.
           discriminate.
        -- split; [discriminate|]. split.
           ++ intros _. exists err. split; [now right|]. right. exists named.
              cbn [fst snd]. now rewrite Hr.
           ++ intros _ H. destruct (H err (or_intror Hfail)) as [N1 N2].
              destruct Hname; contradiction.
Qed.

(** What [signUp] leaves in the invitations and in the outbox once the new
    user document is written. *)
Lemma signUp_invitations (ctx : Context) (c : Call) (s : State) (args : SignUpArgs) :
  save_fault c = None ->
  let u := UsersResolvers.signUp_user args ctx c in
  let outcome := run (UsersResolvers.signUp args ctx) c s in
  (forall err, sendMail_fault c = Some err ->
      registrations (snd outcome) = registrations s /\ outbox (snd outcome) = outbox s)
  /\ (sendMail_fault c = None -> NoDup (map reg_id (registrations s)) ->
      outbox (snd outcome) = UsersResolvers.confirmation_mail args u :: outbox s
      /\ registrations (snd outcome)
         = map (fun g => if UsersResolvers.invited args g
                            && match registration_fault c (reg_id g) with
                               | None => true
                               | Some _ => false
                               end
                         then {| reg_id := reg_id g; reg_email := None;
                                 reg_user := Some (_id u) |}
                         else g)
               (registrations s)).
Proof.
  intros Hs. cbv zeta.
  rewrite (signUp_run ctx c s args Hs). cbv zeta.
  set (u := UsersResolvers.signUp_user args ctx c).
  set (s1 := set_users s (users s ++ [u])%list).
  assert (Hcatch : forall err s0,
             registrations (snd (run (UsersResolvers.signUp_catch err) c s0))
             = registrations s0
             /\ outbox (snd (run (UsersResolvers.signUp_catch err) c s0)) = outbox s0).
  { intros err s0.
    destruct (signUp_catch_run err c s0) as [E | (named & E & _)]; rewrite E; now split. }
  destruct (sendMail_fault c) as [err|] eqn:Hm.
  - split; [|discriminate]. intros err' _. apply (Hcatch err s1).
  - split; [discriminate|]. intros _ Hnd.
    set (s2 := mailing (UsersResolvers.confirmation_mail args u) s1).
    set (written := fun g : Registration =>
                      match registration_fault c (reg_id g) with
                      | None => true
                      | Some _ => false
                      end).
    set (gs := filter (UsersResolvers.invited args) (registrations s)).
    pose proof (Promise_all_saves c u gs s2) as HP. cbv zeta in HP.
    pose proof (Promise_all_written c u gs s2) as HW.
    assert (Hmap : fold_left (fun l g => updateRegistration (UsersResolvers.claim u g) l)
                     (filter written gs) (registrations s)
                   = map (fun g => if UsersResolvers.invited args g && written g
                                   then {| reg_id := reg_id g; reg_email := None;
                                           reg_user := Some (_id u) |}
                                   else g)
                         (registrations s)).
    { rewrite (claims_in_turn u (filter written gs) (registrations s) Hnd).
      apply map_ext_in. intros x Hx.
      assert (Hb : existsb (fun g => (reg_id x =? reg_id g)%string) (filter written gs)
                   = UsersResolvers.invited args x && written x).
      { apply eq_true_iff_eq. rewrite existsb_exists, andb_true_iff. split.
        - intros (g & Hg & E). apply filter_In in Hg as [Hg Hw].
          apply filter_In in Hg as [Hg Hi]. apply String.eqb_eq in E.
          assert (x = g) by (apply (NoDup_map_injective reg_id (registrations s)); assumption).
          subst g. now split.
        - intros [Hi Hw]. exists x. split; [|apply String.eqb_refl].
          apply filter_In. split; [|exact Hw]. apply filter_In. now split. }
      rewrite Hb. reflexivity. }
    fold written in HW. change (registrations s2) with (registrations s) in HW.
    rewrite Hmap in HW.
    destruct (Promise_all _ c s2) as [[[]|err] s3]; cbn [fst snd] in HP, HW;
      destruct HP as (_ & _ & Ho & _).
    + cbn [snd]. split; [exact Ho|exact HW].
    + destruct (Hcatch err s3) as [Hr Hob]. rewrite Hr, Hob. split; [exact Ho|exact HW].
Qed.

(** C4 (amended).  Once the new user document is written, it stays in the
    store whatever happens next, and [signUp] returns [true] exactly when the
    confirmation mail is sent and every invitation for the address is
    written.  A failure of the mail or of an invitation is handled by the
    [catch] block that handles the failures of the first write: [signUp] then
    does not return [true]; it reports the error and returns [false], or,
    when the error has the name of a MongoServerError or of a ValidationError,
    it may throw the named error instead without reporting anything.  An
    error with another name is always reported and answered with [false].
    When the mail is not sent, no invitation is touched.  When it is sent,
    every invitation for the address whose own write is accepted is handed
    over to the new user, also when the write of another one is rejected;
    the invitations whose write is rejected and those for other addresses
    are left as they were (invitations having unique identifiers). *)
Theorem signUp_after_persistence (ctx : Context) (c : Call) (s : State) (args : SignUpArgs) :
  save_fault c = None ->
  let u := UsersResolvers.signUp_user args ctx c in
  let outcome := run (UsersResolvers.signUp args ctx) c s in
  let failure err :=
    sendMail_fault c = Some err
    \/ exists g, In g (registrations s) /\ UsersResolvers.invited args g = true
                 /\ registration_fault c (reg_id g) = Some err in
  users (snd outcome) = (users s ++ [u])%list
  /\ (fst outcome = Returned true <->
      sendMail_fault c = None
      /\ forall g, In g (registrations s) -> UsersResolvers.invited args g = true ->
                   registration_fault c (reg_id g) = None)
  /\ (forall err, sendMail_fault c = Some err ->
      outcome = run (UsersResolvers.signUp_catch err) c (set_users s (users s ++ [u])%list))
  /\ (fst outcome <> Returned true ->
      exists err,
        failure err
        /\ ((fst outcome = Returned false /\ reported (snd outcome) = err :: reported s)
            \/ (exists named,
                   fst outcome = Thrown named
                   /\ reported (snd outcome) = reported s
                   /\ (name err = "MongoServerError" \/ name err = "ValidationError")
                   /\ (named = UsersResolvers.EXISTING_EMAIL_ADDRESS
                       \/ named = UsersResolvers.INVALID_EMAIL_ADDRESS
                       \/ named = UsersResolvers.INVALID_PASSWORD
                       \/ name named = "TypeError"))))
  /\ (fst outcome <> Returned true ->
      (forall err, failure err ->
                   name err <> "MongoServerError" /\ name err <> "ValidationError") ->
      fst outcome = Returned false)
  /\ (forall err, sendMail_fault c = Some err ->
      registrations (snd outcome) = registrations s /\ outbox (snd outcome) = outbox s)
  /\ (sendMail_fault c = None -> NoDup (map reg_id (registrations s)) ->
      outbox (snd outcome) = UsersResolvers.confirmation_mail args u :: outbox s
      /\ registrations (snd outcome)
         = map (fun g => if UsersResolvers.invited args g
                            && match registration_fault c (reg_id g) with
                               | None => true
                               | Some _ => false
                               end
                         then {| reg_id := reg_id g; reg_email := None;
                                 reg_user := Some (_id u) |}
                         else g)
               (registrations s)).
Proof.
  intros Hs. cbv zeta.
  destruct (signUp_after_write ctx c s args Hs) as (H1 & H2 & H3 & H4 & H5).
  destruct (signUp_invitations ctx c s args Hs) as (H6 & H7).
  repeat (split; [assumption|]). assumption.
Qed.

Lemma signUp_after_persistence_witness :
  let out := run (UsersResolvers.signUp dave_args (sample_ctx None)) (call_without_r1 1000)
                 sample_state in
  save_fault (call_without_r1 1000) = None
  /\ users (snd out)
     = (users sample_state
          ++ [UsersResolvers.signUp_user dave_args (sample_ctx None) (call_without_r1 1000)])%list
  /\ fst out = Returned false
  /\ registrations (snd out)
     = [ {| reg_id := "r1"; reg_email := Some "dave@tlca.eu"; reg_user := None |};
         {| reg_id := "r2"; reg_email := None; reg_user := Some "dave" |} ].
Proof.
  cbv zeta. split; [reflexivity|].
  destruct (signUp_after_persistence (sample_ctx None) (call_without_r1 1000) sample_state
              dave_args eq_refl) as (Hu & _ & _ & _ & Hfalse & _ & Hinv).
  split; [exact Hu|]. split.
  - apply Hfalse.
    + vm_compute. discriminate.
    + intros err [E | (g & _ & _ & E)]; [discriminate|].
      unfold call_without_r1 in E. cbn [registration_fault] in E.
      destruct (reg_id g =? "r1")%string; [|discriminate].
      injection E as <-. split; discriminate.
  - destruct (Hinv eq_refl) as (_ & Hregs).
    + simpl. repeat constructor; simpl; intuition discriminate.
    + rewrite Hregs. reflexivity.
Defined.

(** C4 as stated fails: the user document is written, the mail cannot be
    sent, and [signUp] returns [false]; likewise when one of two invitations
    cannot be written, although the other one is handed over to the new
    user. *)
Lemma signUp_false_when_side_effect_fails :
  let ctx := sample_ctx None in
  let dave := UsersResolvers.signUp_user dave_args ctx (call_without_mail 1000) in
  let out := run (UsersResolvers.signUp dave_args ctx) (call_without_mail 1000)
                 sample_state in
  let out' := run (UsersResolvers.signUp dave_args ctx) (call_without_r1 1000)
                  sample_state in
  save_fault (call_without_mail 1000) = None
  /\ In dave (users (snd out))
  /\ fst out = Returned false
  /\ fst out <> Returned true
  /\ reported (snd out) = [smtp_down]
  /\ save_fault (call_without_r1 1000) = None
  /\ In dave (users (snd out'))
  /\ fst out' = Returned false
  /\ reported (snd out') = [network_down]
  /\ registrations (snd out')
     = [ {| reg_id := "r1"; reg_email := Some "dave@tlca.eu"; reg_user := None |};
         {| reg_id := "r2"; reg_email := None; reg_user := Some "dave" |} ].
Proof.
  cbv zeta. repeat split; try reflexivity.
  - vm_compute. tauto.
  - vm_compute. discriminate.
  - vm_compute. tauto.
Qed.

(** The run of [signUp] when the user document is not written. *)
Lemma signUp_not_persisted (ctx : Context) (c : Call) (s : State) (args : SignUpArgs)
      (err : JsError) :
  save_fault c = Some err ->
  run (UsersResolvers.signUp args ctx) c s = run (UsersResolvers.signUp_catch err) c s.
Proof.
  intros Hs. unfold UsersResolvers.signUp, run, try_catch, bind, create.
  now rewrite Hs.
Qed.

(** C7 (amended).  The [signUp] of [src/data/resolvers.js] fails with
    MISSING_FIELDS, before anything else is done, whenever one of
    [firstName], [lastName], [email] and [password] is absent or empty.  The
    [signUp] of [src/users/resolvers.js] has no such check: it never fails
    with MISSING_FIELDS. *)
Theorem signUp_missing_fields :
  (forall (User : UserModel) (args : SignUpArgs) (c : Call) (s : State),
      let missing (v : option string) := v = None \/ v = Some "" in
      missing (args_firstName args) \/ missing (args_lastName args)
      \/ missing (args_email args) \/ missing (args_password args) ->
      run (DataResolvers.signUp User args) c s = (Thrown DataResolvers.MISSING_FIELDS, s))
  /\ (forall (args : SignUpArgs) (ctx : Context) (c : Call) (s : State),
      fst (run (UsersResolvers.signUp args ctx) c s) <> Thrown (UserInputError "MISSING_FIELDS")).
Proof.
  split.
  - intros User args c s missing H.
    assert (Hfalsy : forall v, missing v -> truthy v = false).
    { intros v [-> | ->]; reflexivity. }
    unfold DataResolvers.signUp, run.
    destruct H as [H | [H | [H | H]]]; apply Hfalsy in H; rewrite H; cbn [negb orb].
    + reflexivity.
    + now rewrite orb_true_r.
    + now rewrite orb_true_r.
    + now rewrite orb_true_r.
  - intros args ctx c s.
    assert (Hcatch : forall err s0,
               fst (run (UsersResolvers.signUp_catch err) c s0)
               <> Thrown (UserInputError "MISSING_FIELDS")).
    { intros err s0.
      destruct (signUp_catch_run err c s0) as [E | (named & E & _ & Hnamed)]; rewrite E.
      - discriminate.
      - cbn [fst]. intros H. injection H as ->.
        destruct Hnamed as [H | [H | [H | H]]]; discriminate. }
    destruct (save_fault c) as [err|] eqn:Hs.
    + rewrite (signUp_not_persisted ctx c s args err Hs). apply Hcatch.
    + rewrite (signUp_run ctx c s args Hs). cbv zeta.
      destruct (sendMail_fault c); [apply Hcatch|].
      destruct (Promise_all _ c _) as [[[]|err] s3]; [discriminate|apply Hcatch].
Qed.

Lemma signUp_missing_fields_witness :
  run (DataResolvers.signUp sample_model
         {| args_firstName := Some "Dave"; args_lastName := None;
            args_email := Some "dave@tlca.eu"; args_password := Some "Secret123" |})
      (call_at 1000) sample_state
  = (Thrown DataResolvers.MISSING_FIELDS, sample_state).
Proof.
  destruct signUp_missing_fields as (H & _).
  apply H. right. left. now left.
Defined.

(** C7 as stated fails on the [signUp] of [src/users/resolvers.js]: without
    first and last name the sign-up goes through when the store accepts the
    document; without a password that the store requires, the failure is
    INVALID_PASSWORD. *)
Lemma signUp_without_required_fields :
  let nameless :=
    {| args_firstName := None; args_lastName := None;
       args_email := Some "dave@tlca.eu"; args_password := Some "Secret123" |} in
  let passwordless :=
    {| args_firstName := Some "Dave"; args_lastName := Some "Doe";
       args_email := Some "dave@tlca.eu"; args_password := None |} in
  fst (run (UsersResolvers.signUp nameless (sample_ctx None)) (call_at 1000) sample_state)
  = Returned true
  /\ fst (run (UsersResolvers.signUp passwordless (sample_ctx None))
              (call_with_invalid_password 1000) sample_state)
     = Thrown UsersResolvers.INVALID_PASSWORD
  /\ UsersResolvers.INVALID_PASSWORD <> UserInputError "MISSING_FIELDS".
Proof.
  cbv zeta. split; [reflexivity|]. split; [reflexivity|]. discriminate.
Qed.

(** ** Remarks on the token library and on the other sign-in *)

(** A refresh token presented fifteen days after it was issued is past its
    own [exp]: [jwt.verify] throws, and the call fails with that exception. *)
Lemma refreshToken_expired_token :
  run (UsersResolvers.refreshToken alice_token (sample_ctx None))
      (call_at (1000 + 15 * 24 * 60 * 60 * 1000)) session_state
  = (Thrown jwt.TokenExpiredError, session_state).
Proof. reflexivity. Qed.

(** The [signIn] of [src/data/resolvers.js] does not go through [getTokens]:
    it returns one token, signed with [JWT_SECRET], with the constant
    identifier ['CouCou'], without roles and without expiry. *)
Lemma data_signIn_token (User : UserModel) (JWT_SECRET : string)
      (mail pw : option string) (c : Call) (s : State) (session : DataResolvers.Session) :
  fst (run (DataResolvers.signIn User JWT_SECRET mail pw) c s) = Returned session ->
  DataResolvers.token session
  = jwt.Signed JWT_SECRET
      {| jwt.claims := {| jwt.id := "CouCou"; jwt.roles := None |};
         jwt.iat := now c / 1000; jwt.exp := None |}.
Proof.
  unfold DataResolvers.signIn, run, bind, User_findOne, clock, throw, ret.
  destruct (negb (truthy mail) || negb (truthy pw)); [discriminate|].
  destruct (find _ _) as [u|]; [|discriminate].
  destruct (authenticate User u _); [|discriminate].
  cbn [fst]. intros E. injection E as <-. reflexivity.
Qed.

(** ** The store stays well formed *)

Lemma map_id_updateOne (u : User) (l : list User) : map _id (updateOne u l) = map _id l.
Proof.
  induction l as [|a l IH]; [reflexivity|].
  simpl. destruct (String.eqb_spec (_id a) (_id u)) as [E|N]; simpl.
  - now rewrite E.
  - now rewrite IH.
Qed.

Lemma in_updateOne (u v : User) (l : list User) :
  In v (updateOne u l) -> v = u \/ In v l.
Proof.
  induction l as [|a l IH]; [intros []|].
  simpl. destruct (_id a =? _id u)%string; simpl.
  - intros [<-|H]; [now left|right; now right].
  - intros [<-|H]; [right; now left|].
    destruct (IH H) as [->|H']; [now left|right; now right].
Qed.

Lemma well_formed_updateOne (u : User) (l : list User) :
  well_formed l ->
  (forall t, refreshToken u = Some t -> token_names t (_id u)) ->
  well_formed (updateOne u l).
Proof.
  intros [Hnd Hown] Hu. split.
  - now rewrite map_id_updateOne.
  - intros v t Hv Ht. destruct (in_updateOne _ _ _ Hv) as [->|Hin].
    + now apply Hu.
    + now apply Hown with (u := v).
Qed.

(** X3.  The four resolvers that write a loaded document back keep identifiers
    unique and leave on every document a refresh token that names its user,
    whatever they return. *)
Lemma resolvers_preserve_well_formed (ctx : Context) (c : Call) (s : State) :
  well_formed (users s) ->
  (forall login pw, well_formed (users (snd (run (UsersResolvers.signIn login pw ctx) c s))))
  /\ (forall tok,
         well_formed (users (snd (run (UsersResolvers.refreshToken tok ctx) c s))))
  /\ well_formed (users (snd (run (UsersResolvers.signOut ctx) c s)))
  /\ (forall n tok,
         well_formed (users (snd (run (UsersResolvers.validateAccount n tok) c s)))).
Proof.
  intros Hwf.
  assert (Hissue : forall u t,
             refreshToken
               (set_refresh u
                  (Some (jwt.sign (now c) {| jwt.id := _id u; jwt.roles := Some (roles u) |}
                                  (JWT_REFRESH_TOKEN_SECRET (env ctx)) (Some (jwt.days 14))))
                  (Some (plus_days (zone c) (now c) 14))) = Some t ->
             token_names t (_id u)).
  { intros u t E. injection E as <-. eexists; eexists. split; reflexivity. }
  split; [|split; [|split]].
  - intros login pw. unfold_resolvers.
    destruct (find _ _) as [u|]; [|exact Hwf].
    destruct (authenticate _ _ _); cbn [negb]; [|exact Hwf].
    destruct (emailConfirmed u); [|exact Hwf].
    destruct (save_fault c); [exact Hwf|].
    apply well_formed_updateOne; [exact Hwf|apply Hissue].
  - intros tok. unfold_resolvers.
    destruct (jwt.verify _ _ _) as [[p|]|err]; try exact Hwf.
    destruct (find _ _) as [u|]; [|exact Hwf].
    destruct (_ || _); [exact Hwf|].
    destruct (save_fault c); [exact Hwf|].
    apply well_formed_updateOne; [exact Hwf|apply Hissue].
  - unfold_resolvers.
    destruct (user ctx) as [identity|]; [|exact Hwf].
    destruct (find _ _) as [u|]; [|exact Hwf].
    destruct (save_fault c); [exact Hwf|].
    apply well_formed_updateOne; [exact Hwf|discriminate].
  - intros n tok. unfold_resolvers.
    destruct (find _ _) as [u|] eqn:Hf; [|exact Hwf].
    destruct (_ || _); [exact Hwf|].
    destruct (save_fault c); [exact Hwf|].
    apply well_formed_updateOne; [exact Hwf|].
    intros t Ht. cbn [refreshToken set_confirmation _id] in *.
    apply find_some in Hf as [Hin _]. destruct Hwf as [_ Hown]. exact (Hown u t Hin Ht).
Qed.

(** ** Sessions across calls *)

(** What a rotation has done to the store. *)
Lemma rotates_state (ctx : Context) (c : Call) (s s' : State) (u : User)
      (tokens : TokenPair.t) :
  rotates ctx c s u tokens s' ->
  In u (users s)
  /\ exists u', UsersResolvers.getTokens u (env ctx) c s = (Returned (u', tokens), s)
                /\ s' = set_users s (updateOne u' (users s)).
Proof.
  intros [login pw v tk t' Hf H | tok p v tk t' Hv Hf H].
  - destruct (signIn_success _ _ _ _ _ _ _ H) as (w & w' & Hf' & _ & _ & _ & Hg & ->).
    rewrite Hf in Hf'. injection Hf' as <-.
    split; [now apply find_some in Hf|]. now exists w'.
  - destruct (refreshToken_success _ _ _ _ _ _ H)
      as (p' & w & w' & Hv' & Hf' & _ & _ & Hg & ->).
    rewrite Hv in Hv'. injection Hv' as <-. rewrite Hf in Hf'. injection Hf' as <-.
    split; [now apply find_some in Hf|]. now exists w'.
Qed.

(** X1.  The refresh token returned by a successful [signIn] or
    [refreshToken] is accepted by a later [refreshToken] call made before the
    [exp] claim of the token is reached (14 days of seconds after the second
    of issuance), provided the write goes through: the call returns the pair
    that [getTokens] issues at that instant for the stored document and
    stores the rotated document. *)
Theorem issued_token_refreshes (ctx : Context) (c c' : Call) (s s' : State) (u : User)
        (tokens : TokenPair.t) :
  rotates ctx c s u tokens s' ->
  now c' / 1000 < now c / 1000 + 14 * 24 * 60 * 60 ->
  save_fault c' = None ->
  exists u' u'' tokens',
    find (by_id (_id u)) (users s') = Some u'
    /\ refreshToken u' = Some (TokenPair.refreshToken tokens)
    /\ run (UsersResolvers.getTokens u' (env ctx)) c' s' = (Returned (u'', tokens'), s')
    /\ run (UsersResolvers.refreshToken (TokenPair.refreshToken tokens) ctx) c' s'
       = (Returned (Some tokens'), set_users s' (updateOne u'' (users s'))).
Proof.
  intros Hrot Hexp Hs.
  destruct (rotates_state _ _ _ _ _ _ Hrot) as (Hin & u' & Hg & ->).
  rewrite getTokens_run in Hg. injection Hg as <- <-.
  set (T := jwt.sign (now c) {| jwt.id := _id u; jwt.roles := Some (roles u) |}
                     (JWT_REFRESH_TOKEN_SECRET (env ctx)) (Some (jwt.days 14))).
  set (u' := set_refresh u (Some T) (Some (plus_days (zone c) (now c) 14))).
  assert (Hfound : find (by_id (_id u)) (users (set_users s (updateOne u' (users s))))
                   = Some u').
  { cbn [users set_users]. change (_id u) with (_id u') at 1.
    apply find_by_id_updateOne. now exists u. }
  assert (Hv : jwt.verify (now c') T (JWT_REFRESH_TOKEN_SECRET (env ctx))
               = Returned (Some {| jwt.claims := {| jwt.id := _id u;
                                                    jwt.roles := Some (roles u) |};
                                   jwt.iat := now c / 1000;
                                   jwt.exp := Some (now c / 1000 + 14 * 24 * 60 * 60) |})).
  { unfold T, jwt.sign, jwt.clockTimestamp. apply verify_signed with
      (e := now c / 1000 + 14 * 24 * 60 * 60); [reflexivity|exact Hexp]. }
  exists u'. eexists. eexists.
  split; [exact Hfound|]. split; [reflexivity|]. split; [unfold run; apply getTokens_run|].
  rewrite (refreshToken_verified ctx c' _ T _ Hv).
  cbn [jwt.id jwt.claims]. rewrite Hfound.
  assert (Ht : UsersResolvers.token_differs (refreshToken u') T = false)
    by now apply token_differs_false.
  rewrite Ht, expired_never. cbn [orb]. rewrite getTokens_run, Hs. reflexivity.
Qed.

Lemma issued_token_refreshes_witness :
  exists u' u'' tokens',
    find (by_id "alice") (users session_state) = Some u'
    /\ refreshToken u' = Some alice_token
    /\ run (UsersResolvers.getTokens u' sample_env) (call_at 900000) session_state
       = (Returned (u'', tokens'), session_state)
    /\ run (UsersResolvers.refreshToken alice_token (sample_ctx None)) (call_at 900000)
           session_state
       = (Returned (Some tokens'),
          set_users session_state (updateOne u'' (users session_state))).
Proof.
  apply (issued_token_refreshes (sample_ctx None) (call_at 1000) (call_at 900000)
           sample_state session_state alice
           {| TokenPair.token :=
                jwt.sign 1000 {| jwt.id := "alice"; jwt.roles := Some ["learner"] |}
                         "access-secret" (Some (jwt.minutes 15));
              TokenPair.refreshToken := alice_token |}).
  - apply rotates_signIn with "alice" "pw-alice"; reflexivity.
  - vm_compute. reflexivity.
  - reflexivity.
Defined.

(** X2.  Whatever they return, [signIn], [refreshToken], [signOut] and
    [validateAccount] never add, remove or reorder user documents, never
    touch the invitations or send a mail, and change at most one document:
    the one they looked up.  On that document the first three change nothing
    but [refreshToken] and [refreshTokenExpires], and [validateAccount]
    nothing but the three confirmation fields; a query by another [_id] gives
    what it gave before. *)
Theorem session_resolvers_frame (ctx : Context) (c : Call) (s : State) :
  let frame (same : User -> User -> Prop) (s' : State) :=
    map _id (users s') = map _id (users s)
    /\ registrations s' = registrations s
    /\ outbox s' = outbox s
    /\ (users s' = users s
        \/ exists u u',
             In u (users s) /\ same u u' /\ users s' = updateOne u' (users s)
             /\ forall j, j <> _id u ->
                          find (by_id j) (users s') = find (by_id j) (users s)) in
  let session u u' := u' = set_refresh u (refreshToken u') (refreshTokenExpires u') in
  let confirmation u u' :=
    u' = set_confirmation u (emailConfirmationToken u')
                          (emailConfirmationTokenExpires u') (emailConfirmed u') in
  (forall login pw, frame session (snd (run (UsersResolvers.signIn login pw ctx) c s)))
  /\ (forall tok, frame session (snd (run (UsersResolvers.refreshToken tok ctx) c s)))
  /\ frame session (snd (run (UsersResolvers.signOut ctx) c s))
  /\ (forall n tok,
         frame confirmation (snd (run (UsersResolvers.validateAccount n tok) c s))).
Proof.
  cbv zeta.
  assert (Hsame : forall same : User -> User -> Prop,
             map _id (users s) = map _id (users s)
             /\ registrations s = registrations s /\ outbox s = outbox s
             /\ (users s = users s
                 \/ exists u u',
                      In u (users s) /\ same u u' /\ users s = updateOne u' (users s)
                      /\ forall j, j <> _id u ->
                                   find (by_id j) (users s) = find (by_id j) (users s))).
  { intros same. repeat split. now left. }
  assert (Hwrite : forall (same : User -> User -> Prop) u u',
             In u (users s) -> same u u' -> _id u' = _id u ->
             map _id (updateOne u' (users s)) = map _id (users s)
             /\ registrations s = registrations s /\ outbox s = outbox s
             /\ (updateOne u' (users s) = users s
                 \/ exists v v',
                      In v (users s) /\ same v v'
                      /\ updateOne u' (users s) = updateOne v' (users s)
                      /\ forall j, j <> _id v ->
                                   find (by_id j) (updateOne u' (users s))
                                   = find (by_id j) (users s))).
  { intros same u u' Hin Hs Hid. split; [apply map_id_updateOne|].
    split; [reflexivity|]. split; [reflexivity|]. right. exists u, u'.
    repeat split; try assumption.
    intros j Hj. apply find_by_id_updateOne_other. now rewrite Hid. }
  split; [|split; [|split]].
  - intros login pw. unfold_resolvers.
    destruct (find _ _) as [u|] eqn:Hf; [|apply Hsame].
    destruct (authenticate _ _ _); cbn [negb]; [|apply Hsame].
    destruct (emailConfirmed u); [|apply Hsame].
    destruct (save_fault c); [apply Hsame|].
    apply find_some in Hf as [Hin _]. now apply Hwrite with (u := u).
  - intros tok. unfold_resolvers.
    destruct (jwt.verify _ _ _) as [[p|]|err]; try apply Hsame.
    destruct (find _ _) as [u|] eqn:Hf; [|apply Hsame].
    destruct (_ || _); [apply Hsame|].
    destruct (save_fault c); [apply Hsame|].
    apply find_some in Hf as [Hin _]. now apply Hwrite with (u := u).
  - unfold_resolvers.
    destruct (user ctx) as [identity|]; [|apply Hsame].
    destruct (find _ _) as [u|] eqn:Hf; [|apply Hsame].
    destruct (save_fault c); [apply Hsame|].
    apply find_some in Hf as [Hin _]. now apply Hwrite with (u := u).
  - intros n tok. unfold_resolvers.
    destruct (find _ _) as [u|] eqn:Hf; [|apply Hsame].
    destruct (_ || _); [apply Hsame|].
    destruct (save_fault c); [apply Hsame|].
    apply find_some in Hf as [Hin _]. now apply Hwrite with (u := u).
Qed.

Lemma resolvers_preserve_well_formed_witness :
  well_formed (users sample_state)
  /\ well_formed
       (users (snd (run (UsersResolvers.signIn "alice" "pw-alice" (sample_ctx None))
                        (call_at 1000) sample_state)))
  /\ well_formed
       (users (snd (run (UsersResolvers.validateAccount "bob" "tok-bob")
                        (call_at 1000) sample_state))).
Proof.
  split; [exact sample_state_well_formed|].
  destruct (resolvers_preserve_well_formed (sample_ctx None) (call_at 1000) sample_state
              sample_state_well_formed) as (H1 & _ & _ & H4).
  split; [apply H1|apply H4].
Defined.

(** X6.  Confirmation is what unlocks sign-in.  Let the login designate the
    account that [validateAccount] looks up under the username.  While
    [emailConfirmed] is unset, [signIn] with the right password fails with
    UNCONFIRMED_EMAIL_ADDRESS; once [validateAccount] has returned [true]
    (identifiers being unique), [signIn] with the right password returns a
    pair of tokens when the write goes through. *)
Theorem confirmed_account_signs_in (ctx : Context) (c c' : Call) (s s' : State)
        (n tok login pw : string) (v : User) :
  NoDup (map _id (users s)) ->
  find (by_username n) (users s) = Some v ->
  find (email_or_username login) (users s) = Some v ->
  authenticate (models ctx) v pw = true ->
  authenticate (models ctx) (set_confirmation v None None (Some (now c))) pw = true ->
  run (UsersResolvers.validateAccount n tok) c s = (Returned true, s') ->
  save_fault c' = None ->
  (emailConfirmed v = None ->
   run (UsersResolvers.signIn login pw ctx) c' s
   = (Thrown UsersResolvers.UNCONFIRMED_EMAIL_ADDRESS, s))
  /\ exists tokens,
       fst (run (UsersResolvers.signIn login pw ctx) c' s') = Returned (Some tokens).
Proof.
  intros Hnd Hn Hl Ha Ha' Hval Hs. split.
  - intros Hc. unfold_signIn. now rewrite Hl, Ha, Hc.
  - rewrite (validateAccount_found c s n tok v Hn) in Hval.
    destruct (negb _ || _); [discriminate|].
    destruct (save_fault c); [discriminate|]. injection Hval as <-.
    set (v' := set_confirmation v None None (Some (now c))) in *.
    assert (Hl' : find (email_or_username login) (updateOne v' (users s)) = Some v').
    { apply find_updateOne with (u := v); try assumption; [reflexivity|].
      apply find_some in Hl as [_ Hm]. exact Hm. }
    unfold_signIn. cbn [users set_users]. rewrite Hl', Ha'. cbn [negb].
    cbn [emailConfirmed v' set_confirmation]. rewrite Hs.
    eexists. reflexivity.
Qed.

Lemma confirmed_account_signs_in_witness :
  run (UsersResolvers.signIn "bob" "pw-bob" (sample_ctx None)) (call_at 3000) sample_state
  = (Thrown UsersResolvers.UNCONFIRMED_EMAIL_ADDRESS, sample_state)
  /\ exists tokens,
       fst (run (UsersResolvers.signIn "bob" "pw-bob" (sample_ctx None)) (call_at 3000)
                (snd (run (UsersResolvers.validateAccount "bob" "tok-bob") (call_at 2000)
                          sample_state)))
       = Returned (Some tokens).
Proof.
  destruct (confirmed_account_signs_in (sample_ctx None) (call_at 2000) (call_at 3000)
              sample_state
              (snd (run (UsersResolvers.validateAccount "bob" "tok-bob") (call_at 2000)
                        sample_state))
              "bob" "tok-bob" "bob" "pw-bob" bob) as (H1 & H2); try reflexivity.
  - simpl. repeat constructor; simpl; intuition discriminate.
  - split; [apply H1; reflexivity|exact H2].
Defined.

(** ** More on signing up *)

(** X7.  When the store rejects the new user document, [signUp] writes
    nothing, sends no mail and claims no invitation, and answers by the shape
    of the error: a MongoServerError with code 11000 gives
    EXISTING_EMAIL_ADDRESS; a ValidationError gives INVALID_EMAIL_ADDRESS
    when [email] is among the invalid paths (even if [password] is too),
    else INVALID_PASSWORD when [password] is; every other error is reported
    to Bugsnag and answered with [false]. *)
Theorem signUp_rejected_document (ctx : Context) (c : Call) (s : State)
        (args : SignUpArgs) (err : JsError) :
  save_fault c = Some err ->
  let outcome := run (UsersResolvers.signUp args ctx) c s in
  users (snd outcome) = users s
  /\ registrations (snd outcome) = registrations s
  /\ outbox (snd outcome) = outbox s
  /\ (name err = "MongoServerError" -> code err = Some 11000 ->
      outcome = (Thrown UsersResolvers.EXISTING_EMAIL_ADDRESS, s))
  /\ (name err = "MongoServerError" -> code err <> Some 11000 ->
      outcome = (Returned false, reporting err s))
  /\ (forall paths, name err = "ValidationError" -> errors err = Some paths ->
      In "email" paths ->
      outcome = (Thrown UsersResolvers.INVALID_EMAIL_ADDRESS, s))
  /\ (forall paths, name err = "ValidationError" -> errors err = Some paths ->
      ~ In "email" paths -> In "password" paths ->
      outcome = (Thrown UsersResolvers.INVALID_PASSWORD, s))
  /\ (forall paths, name err = "ValidationError" -> errors err = Some paths ->
      ~ In "email" paths -> ~ In "password" paths ->
      outcome = (Returned false, reporting err s))
  /\ (name err <> "MongoServerError" -> name err <> "ValidationError" ->
      outcome = (Returned false, reporting err s)).
Proof.
  intros Hs. cbv zeta. rewrite (signUp_not_persisted ctx c s args err Hs).
  assert (Hin : forall x paths, existsb (String.eqb x) paths = true <-> In x paths).
  { intros x paths. rewrite existsb_exists. split.
    - intros (y & Hy & E). apply String.eqb_eq in E. now subst.
    - intros H. exists x. split; [exact H|apply String.eqb_refl]. }
  assert (Hnin : forall x paths, ~ In x paths -> existsb (String.eqb x) paths = false).
  { intros x paths H. destruct (existsb (String.eqb x) paths) eqn:E; [|reflexivity].
    apply Hin in E. contradiction. }
  split; [|split; [|split; [|split; [|split; [|split; [|split; [|split]]]]]]].
  - destruct (signUp_catch_run err c s) as [E | (named & E & _)]; now rewrite E.
  - destruct (signUp_catch_run err c s) as [E | (named & E & _)]; now rewrite E.
  - destruct (signUp_catch_run err c s) as [E | (named & E & _)]; now rewrite E.
  - intros Hn Hc. unfold UsersResolvers.signUp_catch, UsersResolvers.signUp_switch.
    unfold run, bind, throw. now rewrite Hn, Hc.
  - intros Hn Hc. unfold UsersResolvers.signUp_catch, UsersResolvers.signUp_switch.
    unfold run, bind, throw, ret, Bugsnag_notify. rewrite Hn, String.eqb_refl.
    destruct (code err) as [z|]; [|reflexivity].
    destruct z as [|q|q]; try reflexivity.
    do 14 (destruct q as [q|q|]; try reflexivity). now destruct Hc.
  - intros paths Hn He Hemail.
    unfold UsersResolvers.signUp_catch, UsersResolvers.signUp_switch.
    unfold run, bind, throw. rewrite Hn, He.
    change ("ValidationError" =? "MongoServerError")%string with false.
    rewrite String.eqb_refl.
    now rewrite (proj2 (Hin "email" paths) Hemail).
  - intros paths Hn He Hemail Hpw.
    unfold UsersResolvers.signUp_catch, UsersResolvers.signUp_switch.
    unfold run, bind, throw. rewrite Hn, He.
    change ("ValidationError" =? "MongoServerError")%string with false.
    rewrite String.eqb_refl.
    now rewrite (Hnin "email" paths Hemail), (proj2 (Hin "password" paths) Hpw).
  - intros paths Hn He Hemail Hpw.
    unfold UsersResolvers.signUp_catch, UsersResolvers.signUp_switch.
    unfold run, bind, throw, ret, Bugsnag_notify. rewrite Hn, He.
    change ("ValidationError" =? "MongoServerError")%string with false.
    rewrite String.eqb_refl.
    now rewrite (Hnin "email" paths Hemail), (Hnin "password" paths Hpw).
  - intros N1 N2. unfold UsersResolvers.signUp_catch, UsersResolvers.signUp_switch.
    unfold run, bind, throw, ret, Bugsnag_notify.
    apply String.eqb_neq in N1, N2. now rewrite N1, N2.
Qed.

Lemma signUp_rejected_document_witness :
  let outcome := run (UsersResolvers.signUp dave_args (sample_ctx None))
                     (call_with_invalid_password 1000) sample_state in
  users (snd outcome) = users sample_state
  /\ outbox (snd outcome) = outbox sample_state
  /\ outcome = (Thrown UsersResolvers.INVALID_PASSWORD, sample_state).
Proof.
  cbv zeta.
  destruct (signUp_rejected_document (sample_ctx None) (call_with_invalid_password 1000)
              sample_state dave_args _ eq_refl) as (Hu & _ & Ho & _ & _ & _ & Hpw & _).
  split; [exact Hu|]. split; [exact Ho|].
  apply (Hpw ["password"]); try reflexivity.
  - simpl. intuition discriminate.
  - now left.
Defined.

(** X8.  When the user document is written, the mail is sent and every
    write of an invitation goes through, [signUp] returns [true] and has
    done exactly this: the new document is appended to the users, one mail
    for the given address is handed to the transport, and (invitations having
    unique identifiers) every invitation for that address is detached from
    the address and assigned to the new user, the other invitations being
    left as they were; nothing is reported. *)
Theorem signUp_success_effects (ctx : Context) (c : Call) (s : State) (args : SignUpArgs) :
  save_fault c = None ->
  sendMail_fault c = None ->
  (forall g, In g (registrations s) -> UsersResolvers.invited args g = true ->
             registration_fault c (reg_id g) = None) ->
  NoDup (map reg_id (registrations s)) ->
  let u := UsersResolvers.signUp_user args ctx c in
  run (UsersResolvers.signUp args ctx) c s
  = (Returned true,
     {| users := (users s ++ [u])%list;
        registrations :=
          map (fun g => if UsersResolvers.invited args g
                        then {| reg_id := reg_id g; reg_email := None;
                                reg_user := Some (_id u) |}
                        else g)
              (registrations s);
        reported := reported s;
        outbox :=
          {| mail_to := args_email args;
             mail_from := "sebastien@combefis.be";
             mail_subject := "[TLCA] Email address validation";
             mail_html := mail_html (UsersResolvers.confirmation_mail args u) |}
            :: outbox s |}).
Proof.
  intros Hs Hm Hok Hnd. cbv zeta.
  rewrite (signUp_run ctx c s args Hs). cbv zeta. rewrite Hm.
  rewrite Promise_all_fulfilled.
  - cbn [registrations mailing set_users set_registrations users reported outbox].
    rewrite (claims_in_turn _ _ _ Hnd).
    unfold set_registrations, mailing, set_users.
    cbn [registrations users reported outbox].
    f_equal. f_equal; try reflexivity.
    apply map_ext_in. intros x Hx.
    destruct (UsersResolvers.invited args x) eqn:Hinv.
    + replace (existsb _ _) with true; [reflexivity|].
      symmetry. apply existsb_exists. exists x.
      split; [apply filter_In; now split|apply String.eqb_refl].
    + replace (existsb _ _) with false; [reflexivity|].
      symmetry. apply not_true_is_false. intros H.
      apply existsb_exists in H as (g & Hg & E). apply String.eqb_eq in E.
      apply filter_In in Hg as [Hg Hinv'].
      rewrite (NoDup_map_injective reg_id _ x g Hnd Hx Hg E) in Hinv. congruence.
  - intros g Hg. apply filter_In in Hg as [Hg Hinv]. now apply Hok.
Qed.

Lemma signUp_success_effects_witness :
  exists u,
    run (UsersResolvers.signUp dave_args (sample_ctx None)) (call_at 1000) sample_state
    = (Returned true,
       {| users := [alice; bob; carol; u];
          registrations :=
            [ {| reg_id := "r1"; reg_email := None; reg_user := Some "dave" |};
              {| reg_id := "r2"; reg_email := None; reg_user := Some "dave" |} ];
          reported := [];
          outbox :=
            [ {| mail_to := Some "dave@tlca.eu";
                 mail_from := "sebastien@combefis.be";
                 mail_subject := "[TLCA] Email address validation";
                 mail_html := mail_html (UsersResolvers.confirmation_mail dave_args u) |} ]
       |}).
Proof.
  eexists.
  rewrite (signUp_success_effects (sample_ctx None) (call_at 1000) sample_state dave_args);
    try reflexivity.
  simpl. repeat constructor; simpl; intuition discriminate.
Defined.

(** ** Pages of the catalogue *)

Lemma firstn_add_split {A} (a b : nat) (m : list A) :
  firstn (a + b) m = (firstn a m ++ firstn b (skipn a m))%list.
Proof.
  revert m. induction a as [|a IH]; intros m; [reflexivity|].
  destruct m as [|x m]; simpl.
  - now rewrite firstn_nil.
  - now rewrite IH.
Qed.

(** A slice between two indices that are not negative is a window of the
    list. *)
Lemma js_slice_window {A} (l : list A) (a b : Z) :
  0 <= a -> 0 <= b ->
  js_slice l a b = firstn (Z.to_nat b - Z.to_nat a) (skipn (Z.to_nat a) l).
Proof.
  intros Ha Hb. unfold js_slice.
  destruct (Z.ltb_spec a 0) as [?|_]; [lia|].
  destruct (Z.ltb_spec b 0) as [?|_]; [lia|].
  set (L := List.length l).
  destruct (Z.le_gt_cases (Z.of_nat L) a) as [Hout|Hin].
  - (* the window starts past the end *)
    rewrite (Z.min_r a) by lia.
    rewrite !skipn_all2 by (fold L; lia). now rewrite !firstn_nil.
  - rewrite (Z.min_l a) by lia.
    assert (Hlen : List.length (skipn (Z.to_nat a) l) = (L - Z.to_nat a)%nat)
      by apply length_skipn.
    destruct (Z.le_gt_cases (Z.of_nat L) b) as [Hb'|Hb'].
    + rewrite (Z.min_r b) by lia.
      rewrite !firstn_all2; [reflexivity|rewrite Hlen; lia|rewrite Hlen; lia].
    + rewrite (Z.min_l b) by lia. f_equal. lia.
Qed.

(** X9.  The pages of [programs], [partners] and [courses].  For an offset
    and a limit that are not negative, a page is the window of [limit]
    documents after the first [offset]; without limit it is everything after
    the first [offset]; without offset it starts at the first document; an
    offset at or past the end gives an empty page; and consecutive pages
    tile: the page of [k] documents at [o] followed by the page of [k']
    documents at [o + k] is the page of [k + k'] documents at [o], so that
    nothing is listed twice or skipped.  [partners] pages like [programs],
    and [courses] returns the same window of courses, each with the path of
    its banner. *)
Theorem pages_tile {Program} (stored : list Program) (o k k' : Z) :
  0 <= o -> 0 <= k -> 0 <= k' ->
  DataQueries.programs stored (Some o) (Some k)
  = firstn (Z.to_nat k) (skipn (Z.to_nat o) stored)
  /\ DataQueries.programs stored (Some o) None = skipn (Z.to_nat o) stored
  /\ DataQueries.programs stored None (Some k) = firstn (Z.to_nat k) stored
  /\ (Z.of_nat (List.length stored) <= o -> DataQueries.programs stored (Some o) (Some k) = [])
  /\ (DataQueries.programs stored (Some o) (Some k)
        ++ DataQueries.programs stored (Some (o + k)) (Some k'))%list
     = DataQueries.programs stored (Some o) (Some (k + k'))
  /\ (forall (ps : list Partner.t),
         DataQueries.partners ps (Some o) (Some k)
         = firstn (Z.to_nat k) (skipn (Z.to_nat o) ps))
  /\ (forall (cs : list Course.t),
         DataQueries.courses cs (Some o) (Some k)
         = map DataQueries.with_banner_path (firstn (Z.to_nat k) (skipn (Z.to_nat o) cs))).
Proof.
  intros Ho Hk Hk'.
  assert (Hpage : forall (A : Type) (l : list A) (a n : Z), 0 <= a -> 0 <= n ->
             DataQueries.page l (Some a) (Some n)
             = firstn (Z.to_nat n) (skipn (Z.to_nat a) l)).
  { intros A l a n Ha Hn. unfold DataQueries.page, nullish.
    rewrite js_slice_window by lia. f_equal. lia. }
  unfold DataQueries.programs, DataQueries.partners, DataQueries.courses.
  split; [now apply Hpage|]. split; [|split; [|split; [|split; [|split]]]].
  - unfold DataQueries.page, nullish. rewrite js_slice_window by lia.
    apply firstn_all2. rewrite length_skipn. lia.
  - change (DataQueries.page stored None (Some k))
      with (DataQueries.page stored (Some 0) (Some k)).
    now rewrite Hpage by lia.
  - intros Hout. rewrite Hpage by lia. rewrite skipn_all2 by lia. apply firstn_nil.
  - rewrite !Hpage by lia.
    rewrite (Z2Nat.inj_add k k') by lia. rewrite firstn_add_split. f_equal. f_equal.
    rewrite skipn_skipn. f_equal. lia.
  - intros ps. now apply Hpage.
  - intros cs. rewrite Hpage by lia.
    now rewrite <- firstn_map, <- skipn_map.
Qed.

Lemma pages_tile_witness :
  (DataQueries.courses sample_courses (Some 1) (Some 2)
     ++ DataQueries.courses sample_courses (Some 3) (Some 2))%list
  = DataQueries.courses sample_courses (Some 1) (Some 4)
  /\ DataQueries.partners sample_partners (Some 2) (Some 5) = [].
Proof.
  destruct (pages_tile (map DataQueries.with_banner_path sample_courses) 1 2 2)
    as (_ & _ & _ & _ & H & _); try lia.
  split; [exact H|].
  destruct (pages_tile sample_partners 2 5 0) as (_ & _ & _ & H' & _); try lia.
  apply H'. simpl. lia.
Defined.

(** X10.  Negative arguments of [programs], [partners] and [courses] are
    taken as [slice] takes them.  A negative offset without limit does not
    give the last documents: it gives nothing as long as it reaches at most
    to the start of the list, and the first [2 * length + offset] documents
    beyond that.  A negative limit that keeps the end at or after 0 gives an
    empty page. *)
Theorem pages_with_negative_arguments {Program} (stored : list Program) (o k : Z) :
  let len := Z.of_nat (List.length stored) in
  (o < 0 -> - len <= o -> DataQueries.programs stored (Some o) None = [])
  /\ (o < - len ->
      DataQueries.programs stored (Some o) None = firstn (Z.to_nat (2 * len + o)) stored)
  /\ (0 <= o -> k < 0 -> 0 <= o + k ->
      DataQueries.programs stored (Some o) (Some k) = []).
Proof.
  cbv zeta. unfold DataQueries.programs, DataQueries.page, nullish, js_slice.
  set (len := Z.of_nat (List.length stored)).
  assert (0 <= len) by (unfold len; lia).
  split; [|split].
  - intros Hneg Hreach.
    destruct (Z.ltb_spec o 0) as [_|?]; [|lia].
    destruct (Z.ltb_spec (o + len) 0) as [?|_]; [lia|].
    replace (Z.min (o + len) len - Z.max (len + o) 0) with 0 by lia. reflexivity.
  - intros Hfar.
    destruct (Z.ltb_spec o 0) as [_|?]; [|lia].
    destruct (Z.ltb_spec (o + len) 0) as [_|?]; [|lia].
    rewrite (Z.max_r (len + o) 0) by lia. cbn [Z.to_nat skipn].
    f_equal. lia.
  - intros Ho Hk Hend.
    destruct (Z.ltb_spec o 0) as [?|_]; [lia|].
    destruct (Z.ltb_spec (o + k) 0) as [?|_]; [lia|].
    replace (Z.to_nat (Z.min (o + k) len - Z.min o len)) with 0%nat by lia.
    reflexivity.
Qed.

Lemma pages_with_negative_arguments_witness :
  DataQueries.programs sample_courses (Some (-2)) None = []
  /\ DataQueries.programs sample_courses (Some (-7)) None
     = firstn 3 sample_courses
  /\ DataQueries.programs sample_courses (Some 3) (Some (-2)) = [].
Proof.
  destruct (pages_with_negative_arguments sample_courses (-2) 0) as (H1 & _).
  destruct (pages_with_negative_arguments sample_courses (-7) 0) as (_ & H2 & _).
  destruct (pages_with_negative_arguments sample_courses 3 (-2)) as (_ & _ & H3).
  split; [apply H1; simpl; lia|]. split; [apply H2; simpl; lia|apply H3; lia].
Defined.

(** X11.  [partner] answers only when exactly one partner has the given
    code: with none, or with several, it fails with 'Partner not found.'.
    The partner returned carries the given code, the path of its logo when it
    has one, and as courses exactly the cards of the stored courses that name
    the partner among their partners, are published, are not archived and are
    not private. *)
Theorem partner_listing (stored : list Partner.t) (cs : list Course.t) (code : string) :
  let found := filter (fun p => (Partner.code p =? code)%string) stored in
  (List.length found <> 1%nat ->
   DataQueries.partner stored cs code = Thrown (UserInputError "Partner not found."))
  /\ (forall p, found = [p] ->
      exists view,
        DataQueries.partner stored cs code = Returned view
        /\ PartnerView.code view = code
        /\ (forall file, Partner.logo p = Some file -> file <> "" ->
            PartnerView.logo view
            = Some ("/uploads/partners/" ++ Partner._id p ++ "/" ++ file))
        /\ (forall card,
               In card (PartnerView.courses view) <->
               exists course,
                 In course cs /\ card = DataQueries.card course
                 /\ In (Partner._id p) (nullish (Course.partners course) [])
                 /\ Course.published course <> None
                 /\ Course.archived course = None
                 /\ Course.visibility course <> Some "private")).
Proof.
  cbv zeta. unfold DataQueries.partner, DataQueries.aggregate.
  destruct (filter _ stored) as [|p [|q rest]] eqn:Hf; cbn [map List.length].
  - split; [reflexivity|discriminate].
  - split; [intros H; now destruct H|].
    intros p' E. injection E as <-. eexists. split; [reflexivity|].
    cbn [PartnerView.code PartnerView.logo PartnerView.courses]. split; [|split].
    + assert (Hin : In p (filter (fun p => (Partner.code p =? code)%string) stored))
        by (rewrite Hf; now left).
      apply filter_In in Hin as [_ E]. now apply String.eqb_eq in E.
    + intros file Hl Hne. rewrite Hl. cbn [truthy js_string].
      apply String.eqb_neq in Hne. now rewrite Hne.
    + intros crd. rewrite in_map_iff. split.
      * intros (course & <- & Hin). apply filter_In in Hin as [Hin Ha].
        exists course. split; [exact Hin|]. split; [reflexivity|].
        unfold DataQueries.associated in Ha.
        apply andb_prop in Ha as [Ha Hv]. apply andb_prop in Ha as [Ha Har].
        apply andb_prop in Ha as [Hp Hpub].
        split; [|split; [|split]].
        -- apply existsb_exists in Hp as (x & Hx & E). apply String.eqb_eq in E.
           now subst.
        -- destruct (Course.published course); [discriminate|discriminate].
        -- destruct (Course.archived course); [discriminate|reflexivity].
        -- intros E. rewrite E in Hv. discriminate.
      * intros (course & Hin & -> & Hp & Hpub & Har & Hv).
        exists course. split; [reflexivity|]. apply filter_In. split; [exact Hin|].
        unfold DataQueries.associated. rewrite Har.
        destruct (Course.published course); [|contradiction]. cbn [field_exists negb].
        rewrite !andb_true_r. apply andb_true_intro. split.
        -- apply existsb_exists. exists (Partner._id p).
           split; [exact Hp|apply String.eqb_refl].
        -- apply negb_true_iff. apply not_true_is_false. intros E.
           apply option_eqb_string_Some in E. contradiction.
  - split; [reflexivity|discriminate].
Qed.

Lemma partner_listing_witness :
  (exists view,
      DataQueries.partner sample_partners sample_courses "EPHEC" = Returned view
      /\ PartnerView.logo view = Some "/uploads/partners/p1/ephec.png"
      /\ map CourseCard.code (PartnerView.courses view) = ["LSINF1101"])
  /\ DataQueries.partner sample_partners sample_courses "ULB"
     = Thrown (UserInputError "Partner not found.").
Proof.
  split.
  - destruct (partner_listing sample_partners sample_courses "EPHEC") as (_ & H).
    destruct (H (sample_partner "p1" "EPHEC" (Some "ephec.png")) eq_refl)
      as (view & Hv & _ & Hlogo & _).
    exists view. split; [exact Hv|]. split.
    + apply (Hlogo "ephec.png"); [reflexivity|discriminate].
    + vm_compute in Hv. injection Hv as <-. reflexivity.
  - destruct (partner_listing sample_partners sample_courses "ULB") as (H & _).
    apply H. vm_compute. discriminate.
Defined.

(** ** The queries on users *)

Lemma users_run (fb : nat) (offset limit : option Z) (c : Call) (s : State) :
  run (UsersQueries.users fb offset limit) c s =
  (Returned
     (map (fun u => {| UsersQueries.json := u; UsersQueries.id := _id u;
                       UsersQueries.isValidated :=
                         negb (truthy (emailConfirmationToken u)) |})
          (cursor_limit fb limit (skipn (Z.to_nat (Z.max 0 (nullish offset 0))) (users s)))),
   s).
Proof. reflexivity. Qed.

Lemma in_firstn {A} (n : nat) (x : A) (l : list A) : In x (firstn n l) -> In x l.
Proof.
  intros H. rewrite <- (firstn_skipn n l). apply in_or_app. now left.
Qed.

Lemma in_skipn {A} (n : nat) (x : A) (l : list A) : In x (skipn n l) -> In x l.
Proof.
  intros H. rewrite <- (firstn_skipn n l). apply in_or_app. now right.
Qed.

(** X12.  [users] only reads.  It lists stored users in their order, each
    with its [_id] as [id] and with [isValidated] set exactly when the
    document has no (or an empty) confirmation token.  A negative offset is
    taken as 0; without limit, or with the limit 0, everything after the
    offset is listed; with a positive limit at most that many users are. *)
Theorem users_listing (fb : nat) (offset limit : option Z) (c : Call) (s : State) :
  let skipped := skipn (Z.to_nat (nullish offset 0)) (users s) in
  exists views,
    run (UsersQueries.users fb offset limit) c s = (Returned views, s)
    /\ (forall v, In v views ->
                  In (UsersQueries.json v) (users s)
                  /\ UsersQueries.id v = _id (UsersQueries.json v)
                  /\ (UsersQueries.isValidated v = true <->
                      emailConfirmationToken (UsersQueries.json v) = None
                      \/ emailConfirmationToken (UsersQueries.json v) = Some ""))
    /\ (forall o, offset = Some o -> o < 0 ->
        run (UsersQueries.users fb offset limit) c s
        = run (UsersQueries.users fb None limit) c s)
    /\ (limit = None \/ limit = Some 0 -> map UsersQueries.json views = skipped)
    /\ (forall n, limit = Some n -> 0 < n ->
        map UsersQueries.json views = firstn (Z.to_nat n) skipped
        /\ Z.of_nat (List.length views) <= n).
Proof.
  cbv zeta. eexists. split; [apply users_run|].
  assert (Hskip : Z.to_nat (Z.max 0 (nullish offset 0)) = Z.to_nat (nullish offset 0))
    by lia.
  rewrite Hskip. split; [|split; [|split]].
  - intros v Hv. apply in_map_iff in Hv as (u & <- & Hu).
    cbn [UsersQueries.json UsersQueries.id UsersQueries.isValidated].
    split; [|split; [reflexivity|]].
    + assert (Hsub : forall l, In u (cursor_limit fb limit l) -> In u l).
      { intros l. unfold cursor_limit. destruct limit as [n|]; [|easy].
        destruct (n =? 0); [easy|].
        destruct (0 <? n); intros H; now apply in_firstn in H. }
      apply Hsub in Hu. now apply in_skipn in Hu.
    + destruct (emailConfirmationToken u) as [t|]; cbn [truthy negb].
      * rewrite negb_involutive. split.
        -- intros E. apply String.eqb_eq in E. right. now subst.
        -- intros [E|E]; [discriminate|]. injection E as ->. reflexivity.
      * split; [now left|reflexivity].
  - intros o -> Ho. rewrite !users_run. cbn [nullish].
    now replace (Z.to_nat (Z.max 0 o)) with (Z.to_nat (Z.max 0 0)) by lia.
  - intros [-> | ->]; cbn [cursor_limit Z.eqb]; rewrite map_map; cbn [UsersQueries.json];
      apply map_id.
  - intros n -> Hn. unfold cursor_limit.
    destruct (Z.eqb_spec n 0) as [?|_]; [lia|].
    destruct (Z.ltb_spec 0 n) as [_|?]; [|lia].
    rewrite map_map. cbn [UsersQueries.json]. rewrite map_id. split; [reflexivity|].
    rewrite length_map, length_firstn. lia.
Qed.

Lemma in_updateOne_intro (u' : User) (l : list User) :
  (exists d, In d l /\ _id d = _id u') -> In u' (updateOne u' l).
Proof.
  intros H. apply find_by_id_updateOne in H. now apply find_some in H.
Qed.

(** X13.  Confirmation shows in the listing: an account that holds a
    non-empty confirmation token is listed by [users] as not validated, and
    once [validateAccount] has returned [true] for it, it is listed as
    validated, with the confirmed document, among as many users as before. *)
Theorem validated_account_is_listed (fb : nat) (c c' : Call) (s s' : State)
        (n tok : string) (v : User) :
  find (by_username n) (users s) = Some v ->
  tok <> "" ->
  run (UsersResolvers.validateAccount n tok) c s = (Returned true, s') ->
  exists before after,
    run (UsersQueries.users fb None None) c' s = (Returned before, s)
    /\ run (UsersQueries.users fb None None) c' s' = (Returned after, s')
    /\ In {| UsersQueries.json := v; UsersQueries.id := _id v;
             UsersQueries.isValidated := false |} before
    /\ In {| UsersQueries.json := set_confirmation v None None (Some (now c));
             UsersQueries.id := _id v; UsersQueries.isValidated := true |} after
    /\ List.length after = List.length before.
Proof.
  intros Hf Hne Hval.
  rewrite (validateAccount_found c s n tok v Hf) in Hval.
  destruct (option_eqb String.eqb (emailConfirmationToken v) (Some tok)) eqn:Ht;
    cbn [negb orb] in Hval; [|discriminate].
  destruct (UsersResolvers.expired _ _); [discriminate|].
  destruct (save_fault c); [discriminate|]. injection Hval as <-.
  apply option_eqb_string_Some in Ht.
  pose proof (find_some _ _ Hf) as [Hin _].
  eexists. eexists. split; [apply users_run|]. split; [apply users_run|].
  cbn [nullish cursor_limit users set_users]. change (Z.to_nat (Z.max 0 0)) with 0%nat.
  cbn [skipn]. split; [|split].
  - apply in_map_iff. exists v. split; [|exact Hin].
    rewrite Ht. cbn [truthy]. apply String.eqb_neq in Hne. now rewrite Hne.
  - apply in_map_iff. exists (set_confirmation v None None (Some (now c))).
    split; [reflexivity|]. apply in_updateOne_intro. now exists v.
  - rewrite !length_map. rewrite <- (length_map _id (updateOne _ _)), map_id_updateOne.
    apply length_map.
Qed.

Lemma validated_account_is_listed_witness :
  exists before after,
    run (UsersQueries.users 101 None None) (call_at 3000) sample_state
    = (Returned before, sample_state)
    /\ fst (run (UsersQueries.users 101 None None) (call_at 3000)
                (snd (run (UsersResolvers.validateAccount "bob" "tok-bob") (call_at 2000)
                          sample_state)))
       = Returned after
    /\ In {| UsersQueries.json := bob; UsersQueries.id := "bob";
             UsersQueries.isValidated := false |} before
    /\ In {| UsersQueries.json := set_confirmation bob None None (Some 2000);
             UsersQueries.id := "bob"; UsersQueries.isValidated := true |} after.
Proof.
  destruct (validated_account_is_listed 101 (call_at 2000) (call_at 3000) sample_state
              (snd (run (UsersResolvers.validateAccount "bob" "tok-bob") (call_at 2000)
                        sample_state))
              "bob" "tok-bob" bob) as (before & after & Hb & Ha & Hinb & Hina & _);
    try reflexivity; [discriminate|].
  exists before, after. split; [exact Hb|]. split; [now rewrite Ha|]. now split.
Defined.

Lemma me_identified (e : Env) (m : UserModel) (i : string) (c : Call) (s : State) :
  run (UsersQueries.me {| env := e; models := m; user := Some {| identity_id := i |} |}) c s
  = match find (by_id i) (users s) with
    | Some u =>
        (Returned {| Profile.firstName := firstName u; Profile.lastName := lastName u;
                     Profile.roles := roles u; Profile.username := username u |}, s)
    | None =>
        (Thrown (TypeError "Cannot destructure property '_id' of 'object null' as it is null."),
         s)
    end.
Proof.
  unfold UsersQueries.me, run, bind, User_findOne, ret, throw.
  cbn [user identity_id].
  change (find (fun u => by_id i u) (users s)) with (find (by_id i) (users s)).
  now destruct (find (by_id i) (users s)).
Qed.

(** X14.  The [id] claim of an access token designates the account that
    signed in: after a successful [signIn] or [refreshToken] for a user, the
    access token is accepted against the access secret until its [exp], the
    identity read from it makes [me] return the names and roles of that user,
    and [me] changes nothing.  Without identity in the context, [me] fails
    with 'Not authorized'. *)
Theorem access_token_designates_account (ctx : Context) (c : Call) (s s' : State)
        (u : User) (tokens : TokenPair.t) :
  rotates ctx c s u tokens s' ->
  (forall t, t / 1000 < now c / 1000 + 15 * 60 ->
     exists p,
       jwt.verify t (TokenPair.token tokens) (JWT_ACCESS_TOKEN_SECRET (env ctx))
       = Returned (Some p)
       /\ forall c',
            run (UsersQueries.me
                   {| env := env ctx; models := models ctx;
                      user := Some {| identity_id := jwt.id (jwt.claims p) |} |}) c' s'
            = (Returned {| Profile.firstName := firstName u;
                           Profile.lastName := lastName u;
                           Profile.roles := roles u;
                           Profile.username := username u |}, s'))
  /\ (forall c',
         run (UsersQueries.me {| env := env ctx; models := models ctx; user := None |}) c' s'
         = (Thrown (AuthenticationError "Not authorized"), s')).
Proof.
  intros Hrot. split; [|reflexivity].
  intros t Ht.
  destruct (rotates_state _ _ _ _ _ _ Hrot) as (Hin & u' & Hg & ->).
  rewrite getTokens_run in Hg. injection Hg as <- <-.
  cbn [TokenPair.token]. unfold jwt.sign at 1. eexists. split.
  - apply verify_signed with (e := jwt.clockTimestamp (now c) + jwt.seconds (jwt.minutes 15));
      [reflexivity|]. unfold jwt.clockTimestamp, jwt.seconds. lia.
  - intros c'. rewrite me_identified. cbn [jwt.id jwt.claims users set_users].
    match goal with
    | |- context [updateOne ?d (users s)] =>
        assert (Hfound : find (by_id (_id u)) (updateOne d (users s)) = Some d)
          by (apply (find_by_id_updateOne d (users s)); now exists u)
    end.
    now rewrite Hfound.
Qed.

Lemma access_token_designates_account_witness :
  exists p,
    jwt.verify 60000
      (jwt.sign 1000 {| jwt.id := "alice"; jwt.roles := Some ["learner"] |}
                "access-secret" (Some (jwt.minutes 15))) "access-secret"
    = Returned (Some p)
    /\ run (UsersQueries.me
              {| env := sample_env; models := sample_model;
                 user := Some {| identity_id := jwt.id (jwt.claims p) |} |})
           (call_at 60000) session_state
       = (Returned {| Profile.firstName := None; Profile.lastName := None;
                      Profile.roles := ["learner"]; Profile.username := Some "alice" |},
          session_state).
Proof.
  destruct (access_token_designates_account (sample_ctx None) (call_at 1000) sample_state
              session_state alice
              {| TokenPair.token :=
                   jwt.sign 1000 {| jwt.id := "alice"; jwt.roles := Some ["learner"] |}
                            "access-secret" (Some (jwt.minutes 15));
                 TokenPair.refreshToken := alice_token |}) as (H & _).
  - apply rotates_signIn with "alice" "pw-alice"; reflexivity.
  - destruct (H 60000) as (p & Hv & Hme); [vm_compute; reflexivity|].
    exists p. split; [exact Hv|apply Hme].
Defined.

Lemma users_listing_witness :
  exists views,
    run (UsersQueries.users 101 (Some (-3)) (Some 2)) (call_at 1000) sample_state
    = (Returned views, sample_state)
    /\ map UsersQueries.json views = [alice; bob].
Proof.
  destruct (users_listing 101 (Some (-3)) (Some 2) (call_at 1000) sample_state)
    as (views & Hrun & _ & _ & _ & Hpos).
  exists views. split; [exact Hrun|].
  destruct (Hpos 2 eq_refl) as (H & _); [lia|]. exact H.
Defined.

(** ** The evaluations *)

Lemma meets_spec (criterion field : option string) :
  EvaluationsResolvers.meets criterion field = true <->
  (forall x, criterion = Some x -> field = Some x).
Proof.
  unfold EvaluationsResolvers.meets. destruct criterion as [x|].
  - rewrite option_eqb_string_Some. split.
    + intros -> y E. now injection E as <-.
    + intros H. now apply H.
  - split; [intros _ x E; discriminate|reflexivity].
Qed.

Lemma matches_spec (f : EvaluationsResolvers.Filter) (e : Evaluation.t) :
  EvaluationsResolvers.matches f e = true <->
  (forall x, EvaluationsResolvers.filter_assessment f = Some x ->
             Evaluation.assessment e = Some x)
  /\ (forall x, EvaluationsResolvers.filter_course f = Some x -> Evaluation.course e = Some x)
  /\ (forall x, EvaluationsResolvers.filter_user f = Some x -> Evaluation.user e = Some x).
Proof.
  unfold EvaluationsResolvers.matches. rewrite !andb_true_iff, !meets_spec. tauto.
Qed.

(** What [evaluations] does, criterion by criterion: the filter it builds
    when the course and the learner are found. *)
Lemma evaluations_run {Args} (rt : EvaluationsResolvers.Runtime Args) (db : Db.t)
      (args : EvaluationsResolvers.EvaluationsArgs) :
  EvaluationsResolvers.evaluations rt db args =
  let a := if truthy (EvaluationsResolvers.args_assessment args)
           then EvaluationsResolvers.args_assessment args else None in
  if truthy (EvaluationsResolvers.args_courseCode args)
     && negb (field_exists (EvaluationsResolvers.Course_exists
                              db (EvaluationsResolvers.args_courseCode args)))
  then Thrown (UserInputError "COURSE_NOT_FOUND")
  else if truthy (EvaluationsResolvers.args_learner args)
          && negb (field_exists (EvaluationsResolvers.User_exists
                                   db (EvaluationsResolvers.args_learner args)))
  then Thrown (UserInputError "LEARNER_NOT_FOUND")
  else
    EvaluationsResolvers.Evaluation_find rt db
      {| EvaluationsResolvers.filter_assessment := a;
         EvaluationsResolvers.filter_course :=
           if truthy (EvaluationsResolvers.args_courseCode args)
           then option_map Course._id
                  (EvaluationsResolvers.Course_exists
                     db (EvaluationsResolvers.args_courseCode args))
           else None;
         EvaluationsResolvers.filter_user :=
           if truthy (EvaluationsResolvers.args_learner args)
           then option_map _id
                  (EvaluationsResolvers.User_exists
                     db (EvaluationsResolvers.args_learner args))
           else None |}.
Proof.
  unfold EvaluationsResolvers.evaluations, EvaluationsResolvers.and_then. cbv zeta.
  destruct (truthy (EvaluationsResolvers.args_assessment args));
    destruct (truthy (EvaluationsResolvers.args_courseCode args));
    destruct (truthy (EvaluationsResolvers.args_learner args));
    cbn [andb];
    try destruct (EvaluationsResolvers.Course_exists _ _);
    try destruct (EvaluationsResolvers.User_exists _ _);
    reflexivity.
Qed.

(** X15.  [evaluations] filters by the criteria that are given, an empty
    string counting as not given.  An unknown course code fails with
    COURSE_NOT_FOUND whatever the other arguments are; with the course found
    or not asked for, an unknown learner fails with LEARNER_NOT_FOUND.  When
    the call returns, it returns exactly the stored evaluations that are for
    the given assessment, belong to the course found under the given code and
    were taken by the learner found under the given username; with no
    criterion it returns them all. *)
Theorem evaluations_selects {Args} (rt : EvaluationsResolvers.Runtime Args) (db : Db.t)
        (args : EvaluationsResolvers.EvaluationsArgs) :
  let given v := truthy v = true in
  let a := EvaluationsResolvers.args_assessment args in
  let code := EvaluationsResolvers.args_courseCode args in
  let name := EvaluationsResolvers.args_learner args in
  (given code -> EvaluationsResolvers.Course_exists db code = None ->
   EvaluationsResolvers.evaluations rt db args = Thrown (UserInputError "COURSE_NOT_FOUND"))
  /\ ((given code -> EvaluationsResolvers.Course_exists db code <> None) ->
      given name -> EvaluationsResolvers.User_exists db name = None ->
      EvaluationsResolvers.evaluations rt db args
      = Thrown (UserInputError "LEARNER_NOT_FOUND"))
  /\ (forall l, EvaluationsResolvers.evaluations rt db args = Returned l ->
      forall e,
        In e l <->
        In e (Db.evaluations db)
        /\ (given a -> Evaluation.assessment e = a)
        /\ (given code ->
            exists course, EvaluationsResolvers.Course_exists db code = Some course
                           /\ Evaluation.course e = Some (Course._id course))
        /\ (given name ->
            exists u, EvaluationsResolvers.User_exists db name = Some u
                      /\ Evaluation.user e = Some (_id u)))
  /\ (truthy a = false -> truthy code = false -> truthy name = false ->
      EvaluationsResolvers.evaluations rt db args = Returned (Db.evaluations db)).
Proof.
  cbv zeta. rewrite evaluations_run. cbv zeta.
  split; [|split; [|split]].
  - intros Hc Hn. now rewrite Hc, Hn.
  - intros Hc Hn Hu.
    destruct (truthy (EvaluationsResolvers.args_courseCode args)) eqn:Tc; cbn [andb].
    + destruct (EvaluationsResolvers.Course_exists db _); [|now destruct (Hc eq_refl)].
      cbn [field_exists negb]. now rewrite Hn, Hu.
    + now rewrite Hn, Hu.
  - intros l H e.
    set (code := EvaluationsResolvers.args_courseCode args) in *.
    set (name := EvaluationsResolvers.args_learner args) in *.
    set (a := EvaluationsResolvers.args_assessment args) in *.
    assert (Hcourse : truthy code = true ->
                      EvaluationsResolvers.Course_exists db code <> None).
    { intros T E. rewrite T, E in H. discriminate. }
    assert (Hlearner : truthy name = true ->
                       EvaluationsResolvers.User_exists db name <> None).
    { intros T E. rewrite T, E in H.
      destruct (truthy code && _); discriminate. }
    destruct (truthy code && _) eqn:E1; [discriminate|].
    destruct (truthy name && _) eqn:E2; [discriminate|].
    clear E1 E2.
    unfold EvaluationsResolvers.Evaluation_find in H.
    cbn [EvaluationsResolvers.filter_assessment] in H.
    assert (Hl : l = filter
                       (EvaluationsResolvers.matches
                          {| EvaluationsResolvers.filter_assessment :=
                               if truthy a then a else None;
                             EvaluationsResolvers.filter_course :=
                               if truthy code
                               then option_map Course._id
                                      (EvaluationsResolvers.Course_exists db code)
                               else None;
                             EvaluationsResolvers.filter_user :=
                               if truthy name
                               then option_map _id
                                      (EvaluationsResolvers.User_exists db name)
                               else None |})
                       (Db.evaluations db)).
    { destruct (if truthy a then a else None) as [x|].
      - destruct (EvaluationsResolvers.castable rt x); [|discriminate].
        now injection H as <-.
      - now injection H as <-. }
    rewrite Hl, filter_In, matches_spec.
    cbn [EvaluationsResolvers.filter_assessment EvaluationsResolvers.filter_course
         EvaluationsResolvers.filter_user].
    assert (Ha : (forall x, (if truthy a then a else None) = Some x ->
                            Evaluation.assessment e = Some x)
                 <-> (truthy a = true -> Evaluation.assessment e = a)).
    { destruct (truthy a) eqn:Ta.
      - split.
        + intros Hx _. destruct a as [x|]; [now apply Hx|discriminate].
        + intros Hx x E. rewrite (Hx eq_refl). exact E.
      - split; [intros _ T; discriminate|intros _ x E; discriminate]. }
    assert (Hc : (forall x, (if truthy code
                             then option_map Course._id
                                    (EvaluationsResolvers.Course_exists db code)
                             else None) = Some x -> Evaluation.course e = Some x)
                 <-> (truthy code = true ->
                      exists course,
                        EvaluationsResolvers.Course_exists db code = Some course
                        /\ Evaluation.course e = Some (Course._id course))).
    { destruct (truthy code) eqn:Tc.
      - destruct (EvaluationsResolvers.Course_exists db code) as [course|];
          [|now destruct (Hcourse eq_refl)].
        cbn [option_map]. split.
        + intros Hx _. exists course. split; [reflexivity|now apply Hx].
        + intros Hx x E. destruct (Hx eq_refl) as (w & E' & ->).
          injection E' as <-. exact E.
      - split; [intros _ T; discriminate|intros _ x E; discriminate]. }
    assert (Hu : (forall x, (if truthy name
                             then option_map _id
                                    (EvaluationsResolvers.User_exists db name)
                             else None) = Some x -> Evaluation.user e = Some x)
                 <-> (truthy name = true ->
                      exists u,
                        EvaluationsResolvers.User_exists db name = Some u
                        /\ Evaluation.user e = Some (_id u))).
    { destruct (truthy name) eqn:Tn.
      - destruct (EvaluationsResolvers.User_exists db name) as [u|];
          [|now destruct (Hlearner eq_refl)].
        cbn [option_map]. split.
        + intros Hx _. exists u. split; [reflexivity|now apply Hx].
        + intros Hx x E. destruct (Hx eq_refl) as (w & E' & ->).
          injection E' as <-. exact E.
      - split; [intros _ T; discriminate|intros _ x E; discriminate]. }
    rewrite Ha, Hc, Hu. reflexivity.
  - intros Ta Tc Tl. rewrite Ta, Tc, Tl. cbn [andb].
    unfold EvaluationsResolvers.Evaluation_find.
    cbn [EvaluationsResolvers.filter_assessment]. f_equal.
    rewrite <- (filter_true (Db.evaluations db)) at 2.
    apply filter_ext. reflexivity.
Qed.

Lemma evaluations_selects_witness :
  EvaluationsResolvers.evaluations sample_runtime sample_db
    {| EvaluationsResolvers.args_assessment := Some "not-an-id";
       EvaluationsResolvers.args_courseCode := Some "LSINF9999";
       EvaluationsResolvers.args_learner := Some "nobody" |}
  = Thrown (UserInputError "COURSE_NOT_FOUND")
  /\ EvaluationsResolvers.evaluations sample_runtime sample_db
       {| EvaluationsResolvers.args_assessment := None;
          EvaluationsResolvers.args_courseCode := Some "LSINF1101";
          EvaluationsResolvers.args_learner := Some "nobody" |}
     = Thrown (UserInputError "LEARNER_NOT_FOUND")
  /\ (In (sample_evaluation "e1" "a1" "c1" "alice" (Some 7))
         [sample_evaluation "e1" "a1" "c1" "alice" (Some 7)] <->
      In (sample_evaluation "e1" "a1" "c1" "alice" (Some 7)) (Db.evaluations sample_db)
      /\ (truthy (Some "a1") = true -> Some "a1" = Some "a1")
      /\ (truthy (Some "LSINF1101") = true ->
          exists course,
            EvaluationsResolvers.Course_exists sample_db (Some "LSINF1101") = Some course
            /\ Some "c1" = Some (Course._id course))
      /\ (truthy (Some "alice") = true ->
          exists u, EvaluationsResolvers.User_exists sample_db (Some "alice") = Some u
                    /\ Some "alice" = Some (_id u))).
Proof.
  split; [|split].
  - destruct (evaluations_selects sample_runtime sample_db
                {| EvaluationsResolvers.args_assessment := Some "not-an-id";
                   EvaluationsResolvers.args_courseCode := Some "LSINF9999";
                   EvaluationsResolvers.args_learner := Some "nobody" |}) as (H & _).
    apply H; reflexivity.
  - destruct (evaluations_selects sample_runtime sample_db
                {| EvaluationsResolvers.args_assessment := None;
                   EvaluationsResolvers.args_courseCode := Some "LSINF1101";
                   EvaluationsResolvers.args_learner := Some "nobody" |}) as (_ & H & _).
    apply H; try reflexivity. intros _. discriminate.
  - destruct (evaluations_selects sample_runtime sample_db
                {| EvaluationsResolvers.args_assessment := Some "a1";
                   EvaluationsResolvers.args_courseCode := Some "LSINF1101";
                   EvaluationsResolvers.args_learner := Some "alice" |}) as (_ & _ & H & _).
    exact (H [sample_evaluation "e1" "a1" "c1" "alice" (Some 7)] eq_refl
             (sample_evaluation "e1" "a1" "c1" "alice" (Some 7))).
Defined.

(** X16.  [evaluation] and the field resolvers.  An identifier that does
    not cast makes the query fail with the CastError of Mongoose; for one
    that casts, the evaluation returned is a stored one whose [id] resolver
    gives back the identifier asked for, and EVALUATION_NOT_FOUND is the
    answer exactly when no stored evaluation has it.  [status] says
    'published' exactly when [isPublished] holds, and [date] is the date of
    the evaluation unless an [evalDate] overrides it. *)
Theorem evaluation_by_id {Args} (rt : EvaluationsResolvers.Runtime Args) (db : Db.t)
        (i : string) :
  (EvaluationsResolvers.castable rt i = false ->
   EvaluationsResolvers.evaluation rt db i = Thrown EvaluationsResolvers.CastError)
  /\ (EvaluationsResolvers.castable rt i = true ->
      (forall e, EvaluationsResolvers.evaluation rt db i = Returned e ->
                 In e (Db.evaluations db) /\ EvaluationsResolvers.id e = i)
      /\ (EvaluationsResolvers.evaluation rt db i
          = Thrown (UserInputError "EVALUATION_NOT_FOUND")
          <-> forall e, In e (Db.evaluations db) -> Evaluation._id e <> i)
      /\ ((exists e, In e (Db.evaluations db) /\ Evaluation._id e = i) ->
          exists e, EvaluationsResolvers.evaluation rt db i = Returned e))
  /\ (forall e, EvaluationsResolvers.status e = "published"
                <-> EvaluationsResolvers.isPublished e = true)
  /\ (forall e d, Evaluation.evalDate e = Some d -> EvaluationsResolvers.date e = Some d)
  /\ (forall e, Evaluation.evalDate e = None ->
                EvaluationsResolvers.date e = Evaluation.date e).
Proof.
  unfold EvaluationsResolvers.evaluation.
  split; [intros ->; reflexivity|]. split; [|split; [|split]].
  - intros ->. cbn [negb].
    destruct (find _ (Db.evaluations db)) as [e|] eqn:Hf.
    + pose proof (find_some _ _ Hf) as [Hin E]. apply String.eqb_eq in E.
      split; [|split].
      * intros e' H. injection H as <-. now split.
      * split; [discriminate|]. intros H. now destruct (H e Hin).
      * intros _. now exists e.
    + split; [discriminate|]. split.
      * split; [|reflexivity]. intros _ e Hin E.
        pose proof (find_none _ _ Hf e Hin) as N. apply String.eqb_neq in N. contradiction.
      * intros (e & Hin & E). pose proof (find_none _ _ Hf e Hin) as N.
        apply String.eqb_neq in N. contradiction.
  - intros e. unfold EvaluationsResolvers.status, EvaluationsResolvers.isPublished.
    destruct (field_exists _); split; try reflexivity; discriminate.
  - intros e d H. unfold EvaluationsResolvers.date. now rewrite H.
  - intros e H. unfold EvaluationsResolvers.date. now rewrite H.
Qed.

Lemma evaluation_by_id_witness :
  (exists e, EvaluationsResolvers.evaluation sample_runtime sample_db "e2" = Returned e)
  /\ EvaluationsResolvers.evaluation sample_runtime sample_db "e9"
     = Thrown (UserInputError "EVALUATION_NOT_FOUND").
Proof.
  destruct (evaluation_by_id sample_runtime sample_db "e2") as (_ & H & _).
  destruct (H eq_refl) as (_ & _ & Hex).
  split.
  - apply Hex. exists (sample_evaluation "e2" "a1" "c1" "bob" None).
    split; [right; now left|reflexivity].
  - destruct (evaluation_by_id sample_runtime sample_db "e9") as (_ & H' & _).
    destruct (H' eq_refl) as (_ & Hnone & _). apply Hnone.
    intros e He. simpl in He. destruct He as [<-|[<-|[<-|[]]]]; discriminate.
Defined.

(** X17.  Who an evaluation is attributed to does not depend on the client.
    When the learner and the assessment are found, the request carries an
    identity and the write goes through, [createEvaluation] returns the new
    evaluation and appends it to the stored ones, with the identity as
    evaluator, the learner found under the username as user, the assessment
    found and its course, whatever the arguments and the constructor had put
    there; a comment that is absent or blank once trimmed is not handed to
    the constructor.  With unique identifiers, the [learner] and
    [assessment] resolvers of the new evaluation give back that learner and
    that assessment. *)
Theorem createEvaluation_attributes
        (rt : EvaluationsResolvers.Runtime EvaluationsResolvers.CreateArgs)
        (who : Identity) (fresh : string) (db : Db.t)
        (args : EvaluationsResolvers.CreateArgs) (pupil : User) (test : Assessment.t) :
  EvaluationsResolvers.User_exists db (EvaluationsResolvers.create_learner args) = Some pupil ->
  find (EvaluationsResolvers.has_id rt (EvaluationsResolvers.create_assessment args))
       (Db.assessments db) = Some test ->
  exists made,
    EvaluationsResolvers.createEvaluation rt (Some who) fresh None db args
    = (EvaluationsResolvers.Done (Some made),
       EvaluationsResolvers.set_db_evaluations db (Db.evaluations db ++ [made])%list)
    /\ Evaluation.evaluator made = Some (identity_id who)
    /\ Evaluation.user made = Some (_id pupil)
    /\ Evaluation.assessment made = Some (Assessment._id test)
    /\ Evaluation.course made = Assessment.course test
    /\ ((forall text, EvaluationsResolvers.create_comment args = Some text ->
                      EvaluationsResolvers.trim rt text = "") ->
        Evaluation.comment made
        = Evaluation.comment
            (EvaluationsResolvers.construct rt fresh
               {| EvaluationsResolvers.create_comment := None;
                  EvaluationsResolvers.create_evalDate :=
                    EvaluationsResolvers.create_evalDate args;
                  EvaluationsResolvers.create_learner :=
                    EvaluationsResolvers.create_learner args;
                  EvaluationsResolvers.create_assessment :=
                    EvaluationsResolvers.create_assessment args |}))
    /\ (NoDup (map _id (Db.users db)) ->
        EvaluationsResolvers.learner
          (EvaluationsResolvers.set_db_evaluations db (Db.evaluations db ++ [made])%list) made
        = Some pupil)
    /\ (NoDup (map Assessment._id (Db.assessments db)) ->
        EvaluationsResolvers.assessment
          (EvaluationsResolvers.set_db_evaluations db (Db.evaluations db ++ [made])%list) made
        = Some test).
Proof.
  intros Hp Ht. unfold EvaluationsResolvers.createEvaluation.
  set (cleaned := if negb _ then _ else args).
  assert (Hl : EvaluationsResolvers.create_learner cleaned
               = EvaluationsResolvers.create_learner args)
    by (unfold cleaned; now destruct (negb _)).
  assert (Ha : EvaluationsResolvers.create_assessment cleaned
               = EvaluationsResolvers.create_assessment args)
    by (unfold cleaned; now destruct (negb _)).
  rewrite Hl, Ha, Hp, Ht. eexists. split; [reflexivity|].
  cbn [Evaluation.evaluator Evaluation.user Evaluation.assessment Evaluation.course
       Evaluation.comment].
  do 4 (split; [reflexivity|]). split; [|split].
  - intros Hblank. f_equal. f_equal. unfold cleaned.
    destruct (EvaluationsResolvers.create_comment args) as [text|] eqn:Ec.
    + rewrite (Hblank text eq_refl). reflexivity.
    + reflexivity.
  - intros Hnd. unfold EvaluationsResolvers.learner.
    cbn [Db.users EvaluationsResolvers.set_db_evaluations Evaluation.user].
    assert (Hin : In pupil (Db.users db))
      by (unfold EvaluationsResolvers.User_exists in Hp; now apply find_some in Hp).
    clear Hp.
    destruct (find _ (Db.users db)) as [w|] eqn:Hf.
    + pose proof (find_some _ _ Hf) as [Hw E]. cbn [option_eqb] in E.
      apply String.eqb_eq in E.
      now rewrite (NoDup_map_injective _id _ w pupil Hnd Hw Hin E).
    + pose proof (find_none _ _ Hf pupil Hin) as N. cbn [option_eqb] in N.
      now rewrite String.eqb_refl in N.
  - intros Hnd. unfold EvaluationsResolvers.assessment.
    cbn [Db.assessments EvaluationsResolvers.set_db_evaluations Evaluation.assessment].
    pose proof (find_some _ _ Ht) as [Hin _]. clear Ht.
    destruct (find _ (Db.assessments db)) as [w|] eqn:Hf.
    + pose proof (find_some _ _ Hf) as [Hw E]. cbn [option_eqb] in E.
      apply String.eqb_eq in E.
      now rewrite (NoDup_map_injective Assessment._id _ w test Hnd Hw Hin E).
    + pose proof (find_none _ _ Hf test Hin) as N. cbn [option_eqb] in N.
      now rewrite String.eqb_refl in N.
Qed.

Lemma createEvaluation_attributes_witness :
  let args := {| EvaluationsResolvers.create_comment := Some "   ";
                 EvaluationsResolvers.create_evalDate := None;
                 EvaluationsResolvers.create_learner := Some "bob";
                 EvaluationsResolvers.create_assessment := Some "a2" |} in
  exists made,
    fst (EvaluationsResolvers.createEvaluation sample_runtime
           (Some {| identity_id := "carol" |}) "e4" None sample_db args)
    = EvaluationsResolvers.Done (Some made)
    /\ Evaluation.evaluator made = Some "carol"
    /\ Evaluation.user made = Some "bob"
    /\ Evaluation.assessment made = Some "a2"
    /\ Evaluation.course made = Some "c2"
    /\ Evaluation.comment made = None.
Proof.
  cbv zeta.
  destruct (createEvaluation_attributes sample_runtime {| identity_id := "carol" |} "e4"
              sample_db
              {| EvaluationsResolvers.create_comment := Some "   ";
                 EvaluationsResolvers.create_evalDate := None;
                 EvaluationsResolvers.create_learner := Some "bob";
                 EvaluationsResolvers.create_assessment := Some "a2" |}
              bob {| Assessment._id := "a2"; Assessment.course := Some "c2" |}
              eq_refl eq_refl) as (made & Hrun & He & Hu & Ha & Hc & Hcomment & _).
  exists made. rewrite Hrun. repeat (split; [assumption || reflexivity|]).
  rewrite Hcomment; [reflexivity|].
  intros text E. injection E as <-. reflexivity.
Defined.

Lemma collect_spec (entries : list (string * option string)) :
  (forall entry, In entry entries -> snd entry <> None) ->
  exists formErrors,
    EvaluationsResolvers.collect entries = Some formErrors
    /\ map (fun e => (fst e, Some (snd e))) formErrors = entries.
Proof.
  induction entries as [|[path [msg|]] rest IH]; intros H.
  - exists []. now split.
  - destruct IH as (fe & E & Hm); [intros entry Hin; apply H; now right|].
    exists ((path, msg) :: fe). cbn [EvaluationsResolvers.collect]. rewrite E.
    split; [reflexivity|]. cbn [map fst snd]. now rewrite Hm.
  - exfalso. now apply (H (path, None)); [left|].
Qed.

(** X18.  What [createEvaluation] does when it does not create.  The
    learner is looked up first, then the assessment, then the identity is
    read: an unknown learner gives LEARNER_NOT_FOUND whatever else is wrong,
    an unknown assessment ASSESSMENT_NOT_FOUND, a request without identity a
    TypeError.  A rejected write whose error is a ValidationError, each
    invalid path having its message, gives VALIDATION_ERROR with exactly
    these messages by path; any other rejection is swallowed: [null] is
    returned.  Unless an evaluation is returned, nothing is written. *)
Theorem createEvaluation_refuses
        (rt : EvaluationsResolvers.Runtime EvaluationsResolvers.CreateArgs)
        (who : option Identity) (fresh : string)
        (fault : option EvaluationsResolvers.SaveFault) (db : Db.t)
        (args : EvaluationsResolvers.CreateArgs) :
  let out := EvaluationsResolvers.createEvaluation rt who fresh fault db args in
  let pupil :=
    EvaluationsResolvers.User_exists db (EvaluationsResolvers.create_learner args) in
  let test :=
    find (EvaluationsResolvers.has_id rt (EvaluationsResolvers.create_assessment args))
         (Db.assessments db) in
  ((forall made, fst out <> EvaluationsResolvers.Done (Some made)) -> snd out = db)
  /\ (pupil = None ->
      out = (EvaluationsResolvers.Failed
               (EvaluationsResolvers.plain (UserInputError "LEARNER_NOT_FOUND")), db))
  /\ (pupil <> None -> test = None ->
      out = (EvaluationsResolvers.Failed
               (EvaluationsResolvers.plain (UserInputError "ASSESSMENT_NOT_FOUND")), db))
  /\ (pupil <> None -> test <> None -> who = None ->
      exists msg,
        out = (EvaluationsResolvers.Failed (EvaluationsResolvers.plain (TypeError msg)), db))
  /\ (forall err, pupil <> None -> test <> None -> who <> None -> fault = Some err ->
      EvaluationsResolvers.fault_name err <> "ValidationError" ->
      out = (EvaluationsResolvers.Done None, db))
  /\ (forall err entries,
      pupil <> None -> test <> None -> who <> None -> fault = Some err ->
      EvaluationsResolvers.fault_name err = "ValidationError" ->
      EvaluationsResolvers.fault_errors err = Some entries ->
      (forall entry, In entry entries -> snd entry <> None) ->
      exists formErrors,
        out = (EvaluationsResolvers.Failed
                 {| EvaluationsResolvers.error := UserInputError "VALIDATION_ERROR";
                    EvaluationsResolvers.formErrors := Some formErrors |}, db)
        /\ map (fun e => (fst e, Some (snd e))) formErrors = entries).
Proof.
  cbv zeta. unfold EvaluationsResolvers.createEvaluation.
  set (cleaned := if negb _ then _ else args).
  assert (Hl : EvaluationsResolvers.create_learner cleaned
               = EvaluationsResolvers.create_learner args)
    by (unfold cleaned; now destruct (negb _)).
  assert (Ha : EvaluationsResolvers.create_assessment cleaned
               = EvaluationsResolvers.create_assessment args)
    by (unfold cleaned; now destruct (negb _)).
  rewrite Hl, Ha.
  destruct (EvaluationsResolvers.User_exists db _) as [pupil|].
  2:{ repeat split; try reflexivity; try congruence; intros; congruence. }
  destruct (find _ (Db.assessments db)) as [test|].
  2:{ repeat split; try reflexivity; try congruence; intros; congruence. }
  destruct who as [who|].
  2:{ split; [reflexivity|].
      repeat split; try congruence; try (intros; congruence).
      intros _ _ _. eexists. reflexivity. }
  destruct fault as [err|].
  2:{ split; [intros H; now destruct (H _ eq_refl)|].
      repeat split; try congruence; intros; congruence. }
  split; [|split; [congruence|split; [congruence|split; [congruence|split]]]].
  - intros _. destruct (_ =? _)%string; [|reflexivity].
    destruct (EvaluationsResolvers.fault_errors err) as [entries|]; [|reflexivity].
    now destruct (EvaluationsResolvers.collect entries).
  - intros err' _ _ _ E N. injection E as <-. apply String.eqb_neq in N. now rewrite N.
  - intros err' entries _ _ _ E N He Hall. injection E as <-.
    rewrite N, String.eqb_refl, He.
    destruct (collect_spec entries Hall) as (fe & Ec & Hm). rewrite Ec. now exists fe.
Qed.

Lemma createEvaluation_refuses_witness :
  let args := {| EvaluationsResolvers.create_comment := None;
                 EvaluationsResolvers.create_evalDate := None;
                 EvaluationsResolvers.create_learner := Some "nobody";
                 EvaluationsResolvers.create_assessment := Some "a9" |} in
  let args' := {| EvaluationsResolvers.create_comment := None;
                  EvaluationsResolvers.create_evalDate := None;
                  EvaluationsResolvers.create_learner := Some "bob";
                  EvaluationsResolvers.create_assessment := Some "a1" |} in
  EvaluationsResolvers.createEvaluation sample_runtime None "e4" None sample_db args
  = (EvaluationsResolvers.Failed
       (EvaluationsResolvers.plain (UserInputError "LEARNER_NOT_FOUND")), sample_db)
  /\ EvaluationsResolvers.createEvaluation sample_runtime
       (Some {| identity_id := "carol" |}) "e4"
       (Some {| EvaluationsResolvers.fault_name := "MongoNetworkError";
                EvaluationsResolvers.fault_errors := None |}) sample_db args'
     = (EvaluationsResolvers.Done None, sample_db).
Proof.
  cbv zeta. split.
  - destruct (createEvaluation_refuses sample_runtime None "e4" None sample_db
                {| EvaluationsResolvers.create_comment := None;
                   EvaluationsResolvers.create_evalDate := None;
                   EvaluationsResolvers.create_learner := Some "nobody";
                   EvaluationsResolvers.create_assessment := Some "a9" |}) as (_ & H & _).
    apply H. reflexivity.
  - destruct (createEvaluation_refuses sample_runtime (Some {| identity_id := "carol" |})
                "e4"
                (Some {| EvaluationsResolvers.fault_name := "MongoNetworkError";
                         EvaluationsResolvers.fault_errors := None |}) sample_db
                {| EvaluationsResolvers.create_comment := None;
                   EvaluationsResolvers.create_evalDate := None;
                   EvaluationsResolvers.create_learner := Some "bob";
                   EvaluationsResolvers.create_assessment := Some "a1" |})
      as (_ & _ & _ & _ & H & _).
    apply (H {| EvaluationsResolvers.fault_name := "MongoNetworkError";
                EvaluationsResolvers.fault_errors := None |});
      try discriminate; reflexivity.
Defined.

(** ** src/data/resolvers.js: the mutations *)

Lemma existsb_eqb_In (x : string) (paths : list string) :
  existsb (String.eqb x) paths = true <-> In x paths.
Proof.
  rewrite existsb_exists. split.
  - intros (y & Hy & E). apply String.eqb_eq in E. now subst.
  - intros H. exists x. split; [assumption|apply String.eqb_refl].
Qed.

(** X19.  The [signIn] of [src/data/resolvers.js] writes nothing.  It
    fails with MISSING_FIELDS exactly when the address or the password is
    absent or empty; otherwise it returns a session exactly when the first
    account with this address accepts the password, and fails with
    INVALID_CREDENTIALS if not.  The token of the session names no account,
    and it is accepted under [JWT_SECRET] at every later instant: it never
    expires. *)
Theorem data_signIn_outcomes (User : UserModel) (JWT_SECRET : string)
        (mail pw : option string) (c : Call) (s : State) :
  let out := run (DataResolvers.signIn User JWT_SECRET mail pw) c s in
  let accepted :=
    exists u, find (by_email mail) (users s) = Some u
              /\ authenticate User u (js_string pw) = true in
  snd out = s
  /\ (fst out = Thrown DataResolvers.MISSING_FIELDS
      <-> truthy mail = false \/ truthy pw = false)
  /\ (truthy mail = true -> truthy pw = true -> ~ accepted ->
      fst out = Thrown DataResolvers.INVALID_CREDENTIALS)
  /\ (truthy mail = true -> truthy pw = true -> accepted ->
      exists session, fst out = Returned session)
  /\ (forall session, fst out = Returned session ->
      accepted
      /\ forall later,
          jwt.verify later (DataResolvers.token session) JWT_SECRET
          = Returned (Some {| jwt.claims := {| jwt.id := "CouCou"; jwt.roles := None |};
                              jwt.iat := now c / 1000; jwt.exp := None |})).
Proof.
  cbv zeta.
  unfold DataResolvers.signIn, run, bind, User_findOne, clock, throw, ret.
  destruct (truthy mail) eqn:Hm; cbn [negb orb].
  2:{ repeat split; try discriminate; try (intros; discriminate).
      intros _. now left. }
  destruct (truthy pw) eqn:Hp; cbn [negb orb].
  2:{ repeat split; try discriminate; try (intros; discriminate).
      intros _. now right. }
  destruct (find (by_email mail) (users s)) as [u|] eqn:Hf.
  - destruct (authenticate User u (js_string pw)) eqn:Ha; cbn [fst snd].
    + split; [reflexivity|]. split; [split; [discriminate|intros [H|H]; discriminate]|].
      split; [intros _ _ H; destruct H; now exists u|].
      split; [intros _ _ _; eexists; reflexivity|].
      intros session E. injection E as <-. split; [now exists u|].
      intros later. cbn [DataResolvers.token]. unfold jwt.sign, jwt.verify.
      rewrite String.eqb_refl. reflexivity.
    + split; [reflexivity|]. split; [split; [discriminate|intros [H|H]; discriminate]|].
      split; [reflexivity|].
      split; [intros _ _ (v & Hv & Hv'); congruence|].
      intros session E. discriminate.
  - cbn [fst snd].
    split; [reflexivity|]. split; [split; [discriminate|intros [H|H]; discriminate]|].
    split; [reflexivity|].
    split; [intros _ _ (v & Hv & Hv'); congruence|].
    intros session E. discriminate.
Qed.

Lemma data_signIn_outcomes_witness :
  fst (run (DataResolvers.signIn sample_model "secret" (Some "nobody@example.org")
             (Some "pw")) (call_at 1000) sample_state)
  = Thrown DataResolvers.INVALID_CREDENTIALS.
Proof.
  destruct (data_signIn_outcomes sample_model "secret" (Some "nobody@example.org")
              (Some "pw") (call_at 1000) sample_state) as (_ & _ & H & _).
  apply H; [reflexivity|reflexivity|].
  intros (u & Hu & _). discriminate Hu.
Defined.

(** X20.  The [signUp] of [src/data/resolvers.js] with its four fields
    present.  It sends no mail, reports no error and claims no invitation.
    When the write is accepted it returns [true], having added one account,
    made local and given its display name before its address is set.  When
    the write is rejected the accounts are unchanged; the [switch] of the
    handler has no [break], so that a MongoServerError other than a
    duplicate key is handled as a ValidationError is: INVALID_EMAIL_ADDRESS
    if the error has an invalid [email] path, a TypeError if it has no
    [errors] at all, [false] otherwise.  A duplicate key gives
    EXISTING_EMAIL_ADDRESS and an error of another name [false]. *)
Theorem data_signUp_outcomes (User : UserModel) (args : SignUpArgs) (c : Call) (s : State) :
  truthy (args_firstName args) = true -> truthy (args_lastName args) = true ->
  truthy (args_email args) = true -> truthy (args_password args) = true ->
  let out := run (DataResolvers.signUp User args) c s in
  let made := construct User (fresh_id c) args in
  registrations (snd out) = registrations s
  /\ reported (snd out) = reported s
  /\ outbox (snd out) = outbox s
  /\ (save_fault c = None ->
      exists d,
        out = (Returned true,
               set_users s (users s ++ [updateEmail User (nonce c) (now c) d (args_email args)]))
        /\ _id d = _id made
        /\ provider d = Some "local"
        /\ displayName d
           = Some (js_string (firstName made) ++ " " ++ js_string (lastName made)))
  /\ (forall err, save_fault c = Some err ->
      snd out = s
      /\ (name err = "MongoServerError" -> code err = Some 11000 ->
          fst out = Thrown DataResolvers.EXISTING_EMAIL_ADDRESS)
      /\ ((name err = "MongoServerError" /\ code err <> Some 11000)
          \/ name err = "ValidationError" ->
          (errors err = None -> exists msg, fst out = Thrown (TypeError msg))
          /\ (forall paths, errors err = Some paths -> In "email" paths ->
              fst out = Thrown DataResolvers.INVALID_EMAIL_ADDRESS)
          /\ (forall paths, errors err = Some paths -> ~ In "email" paths ->
              fst out = Returned false))
      /\ (name err <> "MongoServerError" -> name err <> "ValidationError" ->
          fst out = Returned false)).
Proof.
  intros H1 H2 H3 H4. cbv zeta.
  unfold DataResolvers.signUp, run. rewrite H1, H2, H3, H4. cbn [negb orb].
  unfold try_catch, bind, create, ret.
  destruct (save_fault c) as [err|] eqn:Hs.
  2:{ cbn [fst snd set_users registrations reported outbox].
      repeat split; try reflexivity; try (intros; discriminate).
      intros _. eexists. split; [reflexivity|]. repeat split; reflexivity. }
  assert (Hstate : forall err', snd (DataResolvers.signUp_switch err' c s) = s).
  { intros err'. unfold DataResolvers.signUp_switch, throw, ret.
    destruct (_ =? _)%string.
    - destruct (code err') as [z|].
      + destruct z as [|q|q];
          try (destruct (errors err') as [paths|];
               [now destruct (existsb _ paths)|reflexivity]).
        do 14 (destruct q as [q|q|];
               try (destruct (errors err') as [paths|];
                    [now destruct (existsb _ paths)|reflexivity])).
        reflexivity.
      + destruct (errors err') as [paths|]; [now destruct (existsb _ paths)|reflexivity].
    - destruct (_ =? _)%string; [|reflexivity].
      destruct (errors err') as [paths|]; [now destruct (existsb _ paths)|reflexivity]. }
  assert (Hsnd : snd (match DataResolvers.signUp_switch err c s with
                      | (Returned a, s') => (Returned false, s')
                      | (Thrown e, s') => (Thrown e, s')
                      end) = s).
  { specialize (Hstate err). now destruct (DataResolvers.signUp_switch err c s) as [[a|e] s']. }
  rewrite Hsnd.
  split; [reflexivity|]. split; [reflexivity|]. split; [reflexivity|].
  split; [discriminate|].
  intros err' E. injection E as <-. split; [reflexivity|].
  assert (Hfall : (name err = "MongoServerError" /\ code err <> Some 11000)
                  \/ name err = "ValidationError" ->
                  DataResolvers.signUp_switch err c s
                  = match errors err with
                    | None =>
                        (Thrown (TypeError "Cannot read properties of undefined (reading 'email')"), s)
                    | Some paths =>
                        if existsb (String.eqb "email") paths
                        then (Thrown DataResolvers.INVALID_EMAIL_ADDRESS, s)
                        else (Returned tt, s)
                    end).
  { unfold DataResolvers.signUp_switch, throw, ret. intros [[Hn Hc]|Hn]; rewrite Hn.
    - rewrite String.eqb_refl.
      destruct (code err) as [z|];
        [|destruct (errors err) as [paths|]; [now destruct (existsb _ paths)|reflexivity]].
      destruct z as [|q|q];
        try (destruct (errors err) as [paths|];
             [now destruct (existsb _ paths)|reflexivity]).
      do 14 (destruct q as [q|q|];
             try (destruct (errors err) as [paths|];
                  [now destruct (existsb _ paths)|reflexivity])).
      now destruct Hc.
    - change ("ValidationError" =? "MongoServerError")%string with false.
      rewrite String.eqb_refl.
      destruct (errors err) as [paths|]; [now destruct (existsb _ paths)|reflexivity]. }
  split; [|split].
  - intros Hn Hc. unfold DataResolvers.signUp_switch, throw.
    now rewrite Hn, String.eqb_refl, Hc.
  - intros H. rewrite (Hfall H). split; [|split].
    + intros He. rewrite He. eexists. reflexivity.
    + intros paths He Hin. rewrite He.
      now rewrite (proj2 (existsb_eqb_In "email" paths) Hin).
    + intros paths He Hin. rewrite He.
      destruct (existsb (String.eqb "email") paths) eqn:Ex; [|reflexivity].
      apply existsb_eqb_In in Ex. contradiction.
  - intros N1 N2. unfold DataResolvers.signUp_switch, ret.
    apply String.eqb_neq in N1, N2. now rewrite N1, N2.
Qed.

Lemma data_signUp_outcomes_witness :
  fst (run (DataResolvers.signUp sample_model dave_args)
           {| now := 1000; zone := utc_plus_one;
              save_fault :=
                Some {| name := "MongoServerError"; message := "Document failed validation";
                        code := Some 121; errors := Some ["email"] |};
              sendMail_fault := None; registration_fault := fun _ => None;
              fresh_id := "dave"; nonce := "tok-dave" |}
           sample_state)
  = Thrown DataResolvers.INVALID_EMAIL_ADDRESS.
Proof.
  destruct (data_signUp_outcomes sample_model dave_args
              {| now := 1000; zone := utc_plus_one;
                 save_fault :=
                   Some {| name := "MongoServerError";
                           message := "Document failed validation";
                           code := Some 121; errors := Some ["email"] |};
                 sendMail_fault := None; registration_fault := fun _ => None;
                 fresh_id := "dave"; nonce := "tok-dave" |}
              sample_state eq_refl eq_refl eq_refl eq_refl) as (_ & _ & _ & _ & H).
  destruct (H _ eq_refl) as (_ & _ & Hfall & _).
  destruct Hfall as (_ & Hemail & _).
  - left. split; [reflexivity|discriminate].
  - apply (Hemail ["email"]); [reflexivity|now left].
Defined.

(** ** src/users/resolvers.js: what makes [refreshToken] throw *)

(** X4.  Whenever [refreshToken] throws, the store is as it was and nothing
    has been reported; and there are two ways only.  Either [jwt.verify]
    accepted the token, and the error is INVALID_REFRESH_TOKEN; or
    [jwt.verify] itself threw, a JsonWebTokenError or a TokenExpiredError,
    and that very error is what the caller gets, not INVALID_REFRESH_TOKEN.
    A rejected write never makes [refreshToken] throw. *)
Theorem refreshToken_throws_only (ctx : Context) (c : Call) (s s' : State)
        (tok : jwt.Token) (err : JsError) :
  run (UsersResolvers.refreshToken tok ctx) c s = (Thrown err, s') ->
  s' = s
  /\ ((err = UsersResolvers.INVALID_REFRESH_TOKEN
       /\ exists p,
           jwt.verify (now c) tok (JWT_REFRESH_TOKEN_SECRET (env ctx)) = Returned (Some p))
      \/ (jwt.verify (now c) tok (JWT_REFRESH_TOKEN_SECRET (env ctx)) = Thrown err
          /\ (name err = "JsonWebTokenError" \/ name err = "TokenExpiredError")
          /\ err <> UsersResolvers.INVALID_REFRESH_TOKEN)).
Proof.
  intros Hrun.
  destruct (jwt.verify (now c) tok (JWT_REFRESH_TOKEN_SECRET (env ctx))) as [r|e] eqn:Hv.
  - destruct (verify_returned _ _ _ _ Hv) as (p & -> & _).
    rewrite (refreshToken_verified ctx c s tok p Hv) in Hrun.
    assert (Hinv : (Thrown UsersResolvers.INVALID_REFRESH_TOKEN, s)
                   = (@Thrown (option TokenPair.t) err, s') ->
                   s' = s /\ err = UsersResolvers.INVALID_REFRESH_TOKEN)
      by (intros E; injection E as <- <-; now split).
    destruct (find _ _) as [u|].
    + destruct (_ || _).
      * destruct (Hinv Hrun) as (-> & ->). split; [reflexivity|]. left.
        split; [reflexivity|]. now exists p.
      * rewrite getTokens_run in Hrun. destruct (save_fault c); discriminate.
    + destruct (Hinv Hrun) as (-> & ->). split; [reflexivity|]. left.
      split; [reflexivity|]. now exists p.
  - rewrite (refreshToken_verify_throws ctx c s tok e Hv) in Hrun.
    injection Hrun as <- <-. split; [reflexivity|]. right. split; [reflexivity|].
    unfold jwt.verify in Hv. destruct tok as [k p|x].
    + destruct (negb _); [injection Hv as <-; split; [now left|discriminate]|].
      destruct (jwt.exp p); [|discriminate].
      destruct (_ >=? _); [|discriminate].
      injection Hv as <-. split; [now right|discriminate].
    + injection Hv as <-. split; [now left|discriminate].
Qed.

Lemma refreshToken_throws_only_witness :
  jwt.verify (now (call_at 2000)) (jwt.Garbage "not-a-jwt")
             (JWT_REFRESH_TOKEN_SECRET (env (sample_ctx None)))
  = Thrown (jwt.JsonWebTokenError "jwt malformed")
  \/ jwt.JsonWebTokenError "jwt malformed" = UsersResolvers.INVALID_REFRESH_TOKEN.
Proof.
  destruct (refreshToken_throws_only (sample_ctx None) (call_at 2000) session_state
              session_state (jwt.Garbage "not-a-jwt")
              (jwt.JsonWebTokenError "jwt malformed") eq_refl)
    as (_ & [(H & _) | (H & _)]).
  - now right.
  - now left.
Defined.

(** ** src/users/resolvers.js: the stored expiry dates *)

(** X5.  The expiry dates kept on the document reject nothing.  A token
    that [jwt.verify] accepts and that is the one stored on the user found
    under its [id] claim makes [refreshToken] rotate, and a username found
    with its confirmation token makes [validateAccount] confirm, whatever
    [refreshTokenExpires] and [emailConfirmationTokenExpires] hold: the
    outcome is decided by the write alone.  What bounds the life of a
    refresh token is its [exp] claim only. *)
Theorem stored_expiry_never_rejects (ctx : Context) (c : Call) (s : State) :
  (forall tok p u,
      jwt.verify (now c) tok (JWT_REFRESH_TOKEN_SECRET (env ctx)) = Returned (Some p) ->
      find (by_id (jwt.id (jwt.claims p))) (users s) = Some u ->
      refreshToken u = Some tok ->
      exists u' tokens,
        run (UsersResolvers.getTokens u (env ctx)) c s = (Returned (u', tokens), s)
        /\ run (UsersResolvers.refreshToken tok ctx) c s
           = match save_fault c with
             | Some err => (Returned None, reporting err s)
             | None => (Returned (Some tokens), set_users s (updateOne u' (users s)))
             end)
  /\ (forall n tok u,
      find (by_username n) (users s) = Some u ->
      emailConfirmationToken u = Some tok ->
      run (UsersResolvers.validateAccount n tok) c s
      = match save_fault c with
        | Some err => (Returned false, reporting err s)
        | None =>
            (Returned true,
             set_users s (updateOne (set_confirmation u None None (Some (now c))) (users s)))
        end).
Proof.
  split.
  - intros tok p u Hv Hf Ht.
    rewrite (refreshToken_verified ctx c s tok p Hv), Hf.
    apply token_differs_false in Ht. rewrite Ht, expired_never. cbn [orb].
    unfold run. rewrite getTokens_run. eexists; eexists. split; [reflexivity|].
    now destruct (save_fault c).
  - intros n tok u Hf Ht. now apply validateAccount_matching.
Qed.

Lemma stored_expiry_never_rejects_witness :
  let issued := call_in_brussels 1774008000000 in
  let late := call_in_brussels (1774008000000 + 14 * 24 * 60 * 60 * 1000 - 1000) in
  let s := snd (run (UsersResolvers.signIn "alice" "pw-alice" (sample_ctx None)) issued
                    sample_state) in
  exists u tok tokens,
    find (by_id "alice") (users s) = Some u
    /\ refreshToken u = Some tok
    /\ refreshTokenExpires u
       = Some (1774008000000 + 14 * 24 * 60 * 60 * 1000 - 60 * 60 * 1000)
    /\ fst (run (UsersResolvers.refreshToken tok (sample_ctx None)) late s)
       = Returned (Some tokens).
Proof.
  cbv zeta.
  set (tok := jwt.sign 1774008000000 {| jwt.id := "alice"; jwt.roles := Some ["learner"] |}
                       "refresh-secret" (Some (jwt.days 14))).
  set (u := set_refresh alice (Some tok)
                        (Some (1774008000000 + 14 * 24 * 60 * 60 * 1000 - 60 * 60 * 1000))).
  destruct (stored_expiry_never_rejects (sample_ctx None)
              (call_in_brussels (1774008000000 + 14 * 24 * 60 * 60 * 1000 - 1000))
              (snd (run (UsersResolvers.signIn "alice" "pw-alice" (sample_ctx None))
                        (call_in_brussels 1774008000000) sample_state)))
    as (H & _).
  destruct (H tok _ u eq_refl eq_refl eq_refl) as (u' & tokens & _ & Hrun).
  exists u, tok, tokens. split; [reflexivity|]. split; [reflexivity|].
  split; [reflexivity|]. now rewrite Hrun.
Defined.
